(** * MongoDB HTTP bridge: a shallow embedding of [mongodb_bridge.py]

    The bridge is a Flask application: one view function per endpoint,
    a decorator checking the [X-API-Key] header, a lazily created
    [MongoClient] kept in the module global [_client], and two one-line
    codec helpers over [bson.json_util].

    Python objects are modelled by the type [value]; a floating point
    number is given by its bits.  View
    functions live in the monad [M]: a world (the global [_client], the
    state of the MongoDB deployment, and the trace of calls made into the
    driver) is threaded through, and a computation either returns or
    raises.  As in Python, the effects performed before an exception is
    raised are kept.

    The driver (pymongo, bson) is not part of the program.  Its
    primitives are the fields of the record [Driver]; what a theorem needs
    of their documented behaviour is an explicit hypothesis.  [Mem] is an
    executable in-memory driver satisfying these hypotheses.  The texts
    [bson.json_util] writes for the objects of the driver, and reads
    back, are modelled as they are: the codec is all the bridge adds to
    them. *)

From Stdlib Require Import ZArith List String Ascii Bool Lia.
From Stdlib.Strings Require Import Byte.
Import ListNotations.
Local Open Scope string_scope.
Local Open Scope Z_scope.

(** * Texts of the driver's objects

    What [bson.json_util] prints for a date, for binary data, for the
    flags of a regular expression and for the numbers that JSON lacks,
    and how it reads these texts back. *)

Definition and_then {A B} (m : option A) (k : A -> option B) : option B :=
  match m with
  | Some a => k a
  | None => None
  end.

Notation "'let*' x ':=' m 'in' k" := (and_then m (fun x => k))
  (at level 10, x pattern, m at level 100, k at level 200).

(** ** Decimal text *)

Definition digit (n : Z) : ascii := ascii_of_N (Z.to_N (48 + n)).

Definition undigit (c : ascii) : option Z :=
  let n := Z.of_N (N_of_ascii c) in
  if (48 <=? n) && (n <=? 57) then Some (n - 48) else None.

Definition is_digit (c : ascii) : bool :=
  match undigit c with Some _ => true | None => false end.

(** The digits of [n], most significant first, in front of [acc]. *)
Fixpoint digits_from (fuel : nat) (n : Z) (acc : string) : string :=
  match fuel with
  | O => acc
  | S fuel' =>
      let acc := String (digit (n mod 10)) acc in
      if n <? 10 then acc else digits_from fuel' (n / 10) acc
  end.

(** [str(n)] for [n >= 0] *)
Definition str_nat (n : Z) : string :=
  digits_from (S (Z.to_nat (Z.log2 n))) n EmptyString.

(** [str(n)] *)
Definition str_int (n : Z) : string :=
  if n <? 0 then String "-" (str_nat (- n)) else str_nat n.

(** The number written by a string of digits, read after [acc]. *)
Fixpoint digits_value_from (acc : Z) (s : string) : option Z :=
  match s with
  | EmptyString => Some acc
  | String c r =>
      match undigit c with
      | Some d => digits_value_from (acc * 10 + d) r
      | None => None
      end
  end.

Definition digits_value (s : string) : option Z :=
  match s with
  | EmptyString => None
  | _ => digits_value_from 0 s
  end.

(** [int(s)] on the texts [str] gives: digits after an optional minus
    sign.  [None] on any other text. *)
Definition int_of_str (s : string) : option Z :=
  match s with
  | String "-" r => option_map Z.opp (digits_value r)
  | _ => digits_value s
  end.

Fixpoint zeros (n : nat) : string :=
  match n with
  | O => EmptyString
  | S k => String "0" (zeros k)
  end.

(** ["%0wd" % n] for [n >= 0] *)
Definition zero_padded (width : nat) (n : Z) : string :=
  let s := str_nat n in zeros (width - String.length s) ++ s.

(** ["%+d" % n] *)
Definition signed (n : Z) : string :=
  if n <? 0 then String "-" (str_nat (- n)) else String "+" (str_nat n).

(** The first [n] characters of [s] and what follows them. *)
Fixpoint split_at (n : nat) (s : string) : option (string * string) :=
  match n with
  | O => Some (EmptyString, s)
  | S k =>
      match s with
      | EmptyString => None
      | String c r =>
          match split_at k r with
          | Some (a, b) => Some (String c a, b)
          | None => None
          end
      end
  end.

(** The longest prefix of digits, and what follows it. *)
Fixpoint span_digits (s : string) : string * string :=
  match s with
  | EmptyString => (EmptyString, EmptyString)
  | String c r =>
      if is_digit c then let '(a, b) := span_digits r in (String c a, b)
      else (EmptyString, s)
  end.

(** A field of [width] digits at the start of [s]. *)
Definition field (width : nat) (s : string) : option (Z * string) :=
  match split_at width s with
  | Some (a, r) =>
      match digits_value a with
      | Some n => Some (n, r)
      | None => None
      end
  | None => None
  end.

Definition literal (c : ascii) (s : string) : option string :=
  match s with
  | String c' r => if Ascii.eqb c c' then Some r else None
  | EmptyString => None
  end.

Definition range (lo : Z) (n : nat) : list Z :=
  map (fun i => lo + Z.of_nat i) (seq 0 n).

(** ** datetime *)

Record datetime : Type := {
  year : Z; month : Z; day : Z;
  hour : Z; minute : Z; second : Z; microsecond : Z
}.

Definition _is_leap (y : Z) : bool :=
  (y mod 4 =? 0) && (negb (y mod 100 =? 0) || (y mod 400 =? 0)).

Definition _days_before_year (y : Z) : Z :=
  let y := y - 1 in y * 365 + y / 4 - y / 100 + y / 400.

Definition _DAYS_IN_MONTH (m : Z) : Z :=
  match m with
  | 1 => 31 | 2 => 28 | 3 => 31 | 4 => 30 | 5 => 31 | 6 => 30
  | 7 => 31 | 8 => 31 | 9 => 30 | 10 => 31 | 11 => 30 | 12 => 31
  | _ => -1
  end.

Definition _DAYS_BEFORE_MONTH (m : Z) : Z :=
  match m with
  | 1 => 0 | 2 => 31 | 3 => 59 | 4 => 90 | 5 => 120 | 6 => 151
  | 7 => 181 | 8 => 212 | 9 => 243 | 10 => 273 | 11 => 304 | 12 => 334
  | _ => -1
  end.

Definition _days_in_month (y m : Z) : Z :=
  if (m =? 2) && _is_leap y then 29 else _DAYS_IN_MONTH m.

Definition _days_before_month (y m : Z) : Z :=
  _DAYS_BEFORE_MONTH m + (if (2 <? m) && _is_leap y then 1 else 0).

Definition _ymd2ord (y m d : Z) : Z :=
  _days_before_year y + _days_before_month y m + d.

Definition _DI400Y : Z := Eval cbv in _days_before_year 401.
Definition _DI100Y : Z := Eval cbv in _days_before_year 101.
Definition _DI4Y : Z := Eval cbv in _days_before_year 5.

Definition _ord2ymd (n : Z) : Z * Z * Z :=
  let n := n - 1 in
  let n400 := n / _DI400Y in
  let n := n mod _DI400Y in
  let y := n400 * 400 + 1 in
  let n100 := n / _DI100Y in
  let n := n mod _DI100Y in
  let n4 := n / _DI4Y in
  let n := n mod _DI4Y in
  let n1 := n / 365 in
  let n := n mod 365 in
  let y := y + n100 * 100 + n4 * 4 + n1 in
  if (n1 =? 4) || (n100 =? 4) then (y - 1, 12, 31)
  else
    let leapyear := (n1 =? 3) && (negb (n4 =? 24) || (n100 =? 3)) in
    let m := Z.shiftr (n + 50) 5 in
    let preceding := _DAYS_BEFORE_MONTH m + (if (2 <? m) && leapyear then 1 else 0) in
    let '(m, preceding) :=
      if n <? preceding
      then (m - 1,
            preceding - (_DAYS_IN_MONTH (m - 1) + (if (m - 1 =? 2) && leapyear then 1 else 0)))
      else (m, preceding) in
    (y, m, n - preceding + 1).

Definition _MAXORDINAL : Z := 3652059.
Definition _EPOCH_ORD : Z := 719163.

(** [calendar.timegm(d.timetuple())] *)
Definition timegm (d : datetime) : Z :=
  let days := _ymd2ord (year d) (month d) 1 - _EPOCH_ORD + day d - 1 in
  let hours := days * 24 + hour d in
  let minutes := hours * 60 + minute d in
  minutes * 60 + second d.

(** [bson._datetime_to_millis] *)
Definition _datetime_to_millis (d : datetime) : Z :=
  timegm d * 1000 + microsecond d / 1000.

(** [EPOCH_NAIVE + timedelta(seconds=..., microseconds=...)]; [None] is
    the [OverflowError] of a date outside years 1 to 9999. *)
Definition epoch_plus (seconds micros : Z) : option datetime :=
  let days := _EPOCH_ORD + seconds / 86400 in
  let s := seconds mod 86400 in
  if (0 <? days) && (days <=? _MAXORDINAL) then
    let '(y, m, d) := _ord2ymd days in
    Some {| year := y; month := m; day := d;
            hour := s / 3600; minute := (s mod 3600) / 60; second := (s mod 3600) mod 60;
            microsecond := micros |}
  else None.

(** [bson._millis_to_datetime] for a naive result *)
Definition _millis_to_datetime (millis : Z) : option datetime :=
  let diff := ((millis mod 1000) + 1000) mod 1000 in
  let seconds := (millis - diff) / 1000 in
  let micros := diff * 1000 in
  epoch_plus seconds micros.

(** Comparison of tuples, as Python orders them. *)
Fixpoint tuple_ge (a b : list Z) : bool :=
  match a, b with
  | x :: a', y :: b' => (y <? x) || ((x =? y) && tuple_ge a' b')
  | [], _ :: _ => false
  | _, [] => true
  end.

(** [d >= EPOCH] *)
Definition since_epoch (d : datetime) : bool :=
  tuple_ge [year d; month d; day d; hour d; minute d; second d; microsecond d]
    [1970; 1; 1; 0; 0; 0; 0].

(** [d.strftime("%Y-%m-%dT%H:%M:%S")], for a year of four digits *)
Definition strftime (d : datetime) : string :=
  str_nat (year d) ++ "-" ++ zero_padded 2 (month d) ++ "-" ++ zero_padded 2 (day d)
  ++ "T" ++ zero_padded 2 (hour d) ++ ":" ++ zero_padded 2 (minute d)
  ++ ":" ++ zero_padded 2 (second d).

(** The text json_util writes under ["$date"] for a date since the
    epoch: seconds, then milliseconds unless they are zero, then [Z]. *)
Definition isoformat (d : datetime) : string :=
  let millis := microsecond d / 1000 in
  let fracsecs := if millis =? 0 then EmptyString else String "." (zero_padded 3 millis) in
  strftime d ++ fracsecs ++ "Z".

Definition valid_datetime (d : datetime) : bool :=
  (1 <=? year d) && (year d <=? 9999) &&
  (1 <=? month d) && (month d <=? 12) &&
  (1 <=? day d) && (day d <=? _days_in_month (year d) (month d)) &&
  (0 <=? hour d) && (hour d <? 24) &&
  (0 <=? minute d) && (minute d <? 60) &&
  (0 <=? second d) && (second d <? 60) &&
  (0 <=? microsecond d) && (microsecond d <? 1000000).

(** The parser of json_util on the texts of [isoformat]:
    [YYYY-MM-DDTHH:MM:SS], an optional fraction of three digits, [Z].
    [None] on any other text. *)
Definition parse_isoformat (s : string) : option datetime :=
  let* (y, s) := field 4 s in
  let* s := literal "-" s in
  let* (m, s) := field 2 s in
  let* s := literal "-" s in
  let* (d, s) := field 2 s in
  let* s := literal "T" s in
  let* (h, s) := field 2 s in
  let* s := literal ":" s in
  let* (mi, s) := field 2 s in
  let* s := literal ":" s in
  let* (sec, s) := field 2 s in
  let* us :=
    match s with
    | String "." f =>
        match field 3 f with
        | Some (ms, "Z") => Some (ms * 1000)
        | _ => None
        end
    | "Z" => Some 0
    | _ => None
    end in
  let r := {| year := y; month := m; day := d;
              hour := h; minute := mi; second := sec; microsecond := us |} in
  if valid_datetime r then Some r else None.

(** ** Base64 text of binary data *)

Definition byte_value (b : byte) : Z := Z.of_N (Byte.to_N b).

Definition bytes_of (ns : list Z) : option (list byte) :=
  fold_right (fun n acc =>
                match Byte.of_N (Z.to_N n), acc with
                | Some b, Some bs => Some (b :: bs)
                | _, _ => None
                end) (Some []) ns.

Definition b64_char (n : Z) : ascii :=
  ascii_of_N (Z.to_N (if n <? 26 then 65 + n
                      else if n <? 52 then 71 + n
                      else if n <? 62 then n - 4
                      else if n =? 62 then 43 else 47)).

Definition b64_index (c : ascii) : option Z :=
  let n := Z.of_N (N_of_ascii c) in
  if (65 <=? n) && (n <=? 90) then Some (n - 65)
  else if (97 <=? n) && (n <=? 122) then Some (n - 71)
  else if (48 <=? n) && (n <=? 57) then Some (n + 4)
  else if n =? 43 then Some 62
  else if n =? 47 then Some 63
  else None.

(** [base64.b64encode(bs).decode()] *)
Fixpoint b64encode (bs : list byte) : string :=
  match bs with
  | [] => EmptyString
  | [a] =>
      let x := byte_value a in
      String (b64_char (x / 4)) (String (b64_char (x mod 4 * 16)) "==")
  | [a; b] =>
      let x := byte_value a in
      let y := byte_value b in
      String (b64_char (x / 4))
        (String (b64_char (x mod 4 * 16 + y / 16))
           (String (b64_char (y mod 16 * 4)) "="))
  | a :: b :: c :: r =>
      let x := byte_value a in
      let y := byte_value b in
      let z := byte_value c in
      String (b64_char (x / 4))
        (String (b64_char (x mod 4 * 16 + y / 16))
           (String (b64_char (y mod 16 * 4 + z / 64))
              (String (b64_char (z mod 64)) (b64encode r))))
  end.

(** [base64.b64decode] on padded text over the alphabet, the text
    [b64encode] produces; [None] on any other text. *)
Fixpoint b64decode (s : string) : option (list byte) :=
  match s with
  | EmptyString => Some []
  | String c1 (String c2 (String c3 (String c4 r))) =>
      match b64_index c1, b64_index c2 with
      | Some i1, Some i2 =>
          if Ascii.eqb c4 "=" then
            match r with
            | EmptyString =>
                if Ascii.eqb c3 "=" then bytes_of [i1 * 4 + i2 / 16]
                else
                  match b64_index c3 with
                  | Some i3 => bytes_of [i1 * 4 + i2 / 16; i2 mod 16 * 16 + i3 / 4]
                  | None => None
                  end
            | _ => None
            end
          else
            match b64_index c3, b64_index c4, b64decode r with
            | Some i3, Some i4, Some rest =>
                match bytes_of [i1 * 4 + i2 / 16; i2 mod 16 * 16 + i3 / 4; i3 mod 4 * 64 + i4] with
                | Some bs => Some (bs ++ rest)%list
                | None => None
                end
            | _, _, _ => None
            end
      | _, _ => None
      end
  | _ => None
  end.

(** ** Flags of a regular expression *)

(** The letters of BSON's regular expression options and the bits of
    Python's [re] flags. *)
Definition regex_flags : list (ascii * Z) :=
  [("i", 2); ("l", 4); ("m", 8); ("s", 16); ("u", 32); ("x", 64)]%char.

Definition flags_text (flags : Z) : string :=
  fold_right (fun cf acc => if Z.land flags (snd cf) =? 0 then acc else String (fst cf) acc)
    EmptyString regex_flags.

Fixpoint occurs (c : ascii) (s : string) : bool :=
  match s with
  | EmptyString => false
  | String c' r => Ascii.eqb c c' || occurs c r
  end.

(** [bson.regex.str_flags_to_int] *)
Definition str_flags_to_int (s : string) : Z :=
  fold_left (fun acc cf => if occurs (fst cf) s then Z.lor acc (snd cf) else acc)
    regex_flags 0.

(** The flags BSON has. *)
Definition known_flags (flags : Z) : bool :=
  (0 <=? flags) && (flags <? 128) && (Z.land flags 126 =? flags).

(** ** Floating point numbers

    A [float] is given by the 64 bits of its IEEE 754 encoding: sign,
    eleven bits of exponent, fifty-two bits of fraction. *)

Definition float_exponent (bits : Z) : Z := (bits / 2 ^ 52) mod 2 ^ 11.
Definition float_fraction (bits : Z) : Z := bits mod 2 ^ 52.

(** [math.isnan], [math.isinf] *)
Definition isnan (bits : Z) : bool :=
  (float_exponent bits =? 2047) && negb (float_fraction bits =? 0).
Definition isinf (bits : Z) : bool :=
  (float_exponent bits =? 2047) && (float_fraction bits =? 0).

(** [x > 0], for [x] not a NaN *)
Definition float_positive (bits : Z) : bool :=
  (bits <? 2 ^ 63) && negb (bits =? 0).

Definition float_nan : Z := 9221120237041090560.        (* 0x7FF8000000000000, [float("NaN")] *)
Definition float_inf : Z := 9218868437227405312.        (* 0x7FF0000000000000, [float("Infinity")] *)
Definition float_neg_inf : Z := 18442240474082181120.   (* 0xFFF0000000000000, [float("-Infinity")] *)

(** ** Decimal128

    A [Decimal128] in canonical encoding: a sign, a coefficient of at
    most 34 digits and an exponent, or an infinity, or a NaN. *)

Inductive decimal128 : Type :=
| DFinite (negative : bool) (coefficient : Z) (exponent : Z)
| DInfinity (negative : bool)
| DNaN (negative signaling : bool).

Definition sign_text (negative : bool) : string :=
  if negative then "-" else EmptyString.

(** [str(d)]: [Decimal.__str__] of [d.to_decimal()], and ["NaN"] for
    every NaN. *)
Definition str_decimal128 (d : decimal128) : string :=
  match d with
  | DNaN _ _ => "NaN"
  | DInfinity negative => sign_text negative ++ "Infinity"
  | DFinite negative coefficient exponent =>
      let _int := str_nat coefficient in
      let n := Z.of_nat (String.length _int) in
      let leftdigits := exponent + n in
      let dotplace :=
        if (exponent <=? 0) && (-6 <? leftdigits) then leftdigits else 1 in
      let '(intpart, fracpart) :=
        if dotplace <=? 0 then
          ("0", String "." (zeros (Z.to_nat (- dotplace)) ++ _int))
        else if n <=? dotplace then
          (_int ++ zeros (Z.to_nat (dotplace - n)), EmptyString)
        else
          match split_at (Z.to_nat dotplace) _int with
          | Some (a, b) => (a, String "." b)
          | None => (_int, EmptyString)
          end in
      let exp :=
        if leftdigits =? dotplace then EmptyString
        else String "E" (signed (leftdigits - dotplace)) in
      sign_text negative ++ intpart ++ fracpart ++ exp
  end.

Definition split_sign (s : string) : bool * string :=
  match s with
  | String "-" r => (true, r)
  | _ => (false, s)
  end.

Definition split_fraction (s : string) : string * string :=
  match s with
  | String "." r => span_digits r
  | _ => (EmptyString, s)
  end.

Definition parse_exponent (s : string) : option Z :=
  match s with
  | EmptyString => Some 0
  | String "E" (String "+" r) => digits_value r
  | String "E" (String "-" r) => option_map Z.opp (digits_value r)
  | _ => None
  end.

(** [Decimal128(s)] on the texts of [str]: ["NaN"], a signed
    ["Infinity"], or a sign, digits, an optional fraction and an
    optional exponent [E+n] or [E-n], within the precision and the
    exponent range of the format.  [None] on any other text. *)
Definition parse_decimal128 (s : string) : option decimal128 :=
  if String.eqb s "NaN" then Some (DNaN false false)
  else
    let '(negative, s) := split_sign s in
    if String.eqb s "Infinity" then Some (DInfinity negative)
    else
      let '(intpart, s) := span_digits s in
      let '(fracpart, s) := split_fraction s in
      match intpart, parse_exponent s, digits_value (intpart ++ fracpart) with
      | String _ _, Some e, Some c =>
          let e := e - Z.of_nat (String.length fracpart) in
          if (c <? 10 ^ 34) && (-6176 <=? e) && (e <=? 6111)
          then Some (DFinite negative c e)
          else None
      | _, _, _ => None
      end.

Definition valid_decimal128 (d : decimal128) : bool :=
  match d with
  | DFinite _ c e => (0 <=? c) && (c <? 10 ^ 34) && (-6176 <=? e) && (e <=? 6111)
  | DInfinity _ => true
  | DNaN negative signaling => negb negative && negb signaling
  end.

(** ** Python values *)

#[local] Set Warnings "-register-all".

(** The objects of the request bodies and of the driver.  An [int]
    stands for [bson.Int64] as well, which is an [int] in all but its
    type; [bytes] is [VBinary] with subtype 0, the one subtype the driver
    decodes to [bytes] rather than to [bson.Binary]. *)
Inductive value : Type :=
| VNone
| VBool (b : bool)
| VInt (n : Z)
| VFloat (bits : Z)
| VStr (s : string)
| VList (xs : list value)
| VDict (items : list (string * value))
| VObjectId (binary : list byte)      (* bson.ObjectId, its 12 bytes *)
| VDatetime (d : datetime)
| VBinary (subtype : Z) (data : list byte)
| VRegex (pattern : string) (flags : Z)
| VTimestamp (time inc : Z)
| VDecimal128 (d : decimal128)
| VMinKey
| VMaxKey
| VCode (code : string) (scope : option (list (string * value)))
| VDBRef (collection : string) (id : value) (database : option string)
    (kwargs : list (string * value)).

Definition dict := list (string * value).

(** Exceptions: the handlers only distinguish [PyMongoError] (and its
    subclasses) from every other [Exception], and read [str(e)]. *)
Inductive exn : Type :=
| PyMongoError (msg : string)
| OtherException (msg : string).

Inductive outcome (A : Type) : Type :=
| Ok (a : A)
| Raise (e : exn).
Arguments Ok {A} a.
Arguments Raise {A} e.

Definition obind {A B} (m : outcome A) (k : A -> outcome B) : outcome B :=
  match m with
  | Ok a => k a
  | Raise e => Raise e
  end.

Notation "'let?' x ':=' m 'in' k" := (obind m (fun x => k))
  (at level 10, x name, m at level 100, k at level 200).

Definition mapM {A B} (f : A -> outcome B) : list A -> outcome (list B) :=
  fix go (l : list A) : outcome (list B) :=
    match l with
    | [] => Ok []
    | x :: r =>
        match f x with
        | Raise e => Raise e
        | Ok y => match go r with
                  | Raise e => Raise e
                  | Ok r' => Ok (y :: r')
                  end
        end
    end.

(** [bool(v)]: the truth value Python gives to [v] in [if v] / [not v]. *)
Definition truthy (v : value) : bool :=
  match v with
  | VNone => false
  | VBool b => b
  | VInt n => negb (n =? 0)
  | VFloat bits => negb (bits mod 2 ^ 63 =? 0)
  | VStr s => negb (String.eqb s EmptyString)
  | VList xs => match xs with [] => false | _ => true end
  | VDict items => match items with [] => false | _ => true end
  | VBinary _ data => match data with [] => false | _ => true end
  | VCode code _ => negb (String.eqb code EmptyString)
  | VObjectId _ | VDatetime _ | VRegex _ _ | VTimestamp _ _ | VDecimal128 _
  | VMinKey | VMaxKey | VDBRef _ _ _ _ => true
  end.

Definition type_name (v : value) : string :=
  match v with
  | VNone => "NoneType"
  | VBool _ => "bool"
  | VInt _ => "int"
  | VFloat _ => "float"
  | VStr _ => "str"
  | VList _ => "list"
  | VDict _ => "dict"
  | VObjectId _ => "ObjectId"
  | VDatetime _ => "datetime.datetime"
  | VBinary subtype _ => if subtype =? 0 then "bytes" else "Binary"
  | VRegex _ _ => "Regex"
  | VTimestamp _ _ => "Timestamp"
  | VDecimal128 _ => "Decimal128"
  | VMinKey => "MinKey"
  | VMaxKey => "MaxKey"
  | VCode _ _ => "Code"
  | VDBRef _ _ _ _ => "DBRef"
  end.

Fixpoint lookup (k : string) (items : dict) : option value :=
  match items with
  | [] => None
  | (k', v) :: r => if String.eqb k k' then Some v else lookup k r
  end.

Definition has_key (k : string) (items : dict) : bool :=
  match lookup k items with Some _ => true | None => false end.

(** [d.get(k, default)] on a dict. *)
Definition dict_get (items : dict) (k : string) (default : value) : value :=
  match lookup k items with
  | Some v => v
  | None => default
  end.

(** [data.get(k, default)] on an arbitrary object: only a dict has the
    method, anything else raises [AttributeError]. *)
Definition py_get (data : value) (k : string) (default : value) : outcome value :=
  match data with
  | VDict items => Ok (dict_get items k default)
  | _ => Raise (OtherException
                  ("'" ++ type_name data ++ "' object has no attribute 'get'"))
  end.

(** [d[k]] on a dict: [KeyError] when the key is missing. *)
Definition dict_getitem (items : dict) (k : string) : outcome value :=
  match lookup k items with
  | Some v => Ok v
  | None => Raise (OtherException ("'" ++ k ++ "'"))
  end.

Definition len (xs : list value) : value := VInt (Z.of_nat (List.length xs)).

(** [isinstance(v, int)], and the number: Python's [int] includes
    [bool]. *)
Definition int_value (v : value) : option Z :=
  match v with
  | VInt n => Some n
  | VBool b => Some (if b then 1 else 0)
  | _ => None
  end.

(** ** Hexadecimal text of an ObjectId *)

Definition hex_digit (n : N) : ascii :=
  match n with
  | 0 => "0" | 1 => "1" | 2 => "2" | 3 => "3" | 4 => "4" | 5 => "5"
  | 6 => "6" | 7 => "7" | 8 => "8" | 9 => "9" | 10 => "a" | 11 => "b"
  | 12 => "c" | 13 => "d" | 14 => "e" | _ => "f"
  end%N%char.

Definition unhex_digit (c : ascii) : option N :=
  let n := N_of_ascii c in
  if ((48 <=? n) && (n <=? 57))%N then Some (n - 48)%N
  else if ((97 <=? n) && (n <=? 102))%N then Some (n - 87)%N
  else if ((65 <=? n) && (n <=? 70))%N then Some (n - 55)%N
  else None.

(** [binascii.hexlify(b).decode()] *)
Fixpoint hexlify (bs : list byte) : string :=
  match bs with
  | [] => EmptyString
  | b :: r =>
      String (hex_digit (Byte.to_N b / 16))
        (String (hex_digit (Byte.to_N b mod 16)) (hexlify r))
  end.

Definition is_space (c : ascii) : bool :=
  let n := N_of_ascii c in
  ((n =? 32) || ((9 <=? n) && (n <=? 13)))%N.

(** [bytes.fromhex(s)]: pairs of hexadecimal digits, white space between
    the pairs is skipped; [None] stands for [ValueError]. *)
Fixpoint fromhex (s : string) : option (list byte) :=
  match s with
  | EmptyString => Some []
  | String c r =>
      if is_space c then fromhex r
      else
        match r with
        | EmptyString => None
        | String c' r' =>
            match unhex_digit c, unhex_digit c', fromhex r' with
            | Some hi, Some lo, Some bs =>
                match Byte.of_N (hi * 16 + lo) with
                | Some b => Some (b :: bs)
                | None => None
                end
            | _, _, _ => None
            end
        end
  end.

(** ["%02x" % n], for the subtype of a [Binary], below 256 *)
Definition hex_octet (n : Z) : string :=
  String (hex_digit (Z.to_N (n / 16)))
    (String (hex_digit (Z.to_N (n mod 16))) EmptyString).

(** [int(s, 16)] on one or two hexadecimal digits; [None] on any other
    text. *)
Definition int_base16 (s : string) : option Z :=
  match s with
  | String a EmptyString => option_map Z.of_N (unhex_digit a)
  | String a (String b EmptyString) =>
      match unhex_digit a, unhex_digit b with
      | Some hi, Some lo => Some (Z.of_N (hi * 16 + lo))
      | _, _ => None
      end
  | _ => None
  end.

Definition backslash : ascii := "092"%char.
Definition double_quote : ascii := "034"%char.
Definition nul : ascii := "000"%char.

(** [repr(s)] of a [str], as ["%r" % s] prints it: in single quotes,
    unless [s] holds a single quote and no double one; the quote in use
    and the backslash escaped, control characters written as [\t], [\n],
    [\r] or [\xNN].  Characters outside ASCII are taken as printable. *)
Definition repr_char (quote c : ascii) : string :=
  let n := nat_of_ascii c in
  if Ascii.eqb c quote || Ascii.eqb c backslash
  then String backslash (String c EmptyString)
  else if (n =? 9)%nat then String backslash "t"
  else if (n =? 10)%nat then String backslash "n"
  else if (n =? 13)%nat then String backslash "r"
  else if (n <? 32)%nat || (n =? 127)%nat
  then String backslash ("x" ++ hex_octet (Z.of_nat n))
  else String c EmptyString.

Fixpoint repr_chars (quote : ascii) (s : string) : string :=
  match s with
  | EmptyString => EmptyString
  | String c r => repr_char quote c ++ repr_chars quote r
  end.

Definition repr (s : string) : string :=
  let quote :=
    if occurs "'" s && negb (occurs double_quote s) then double_quote else "'"%char in
  String quote (repr_chars quote s ++ String quote EmptyString).

(** [type(v)], as [str] prints it *)
Definition class_text (v : value) : string :=
  "<class '" ++
  match v with
  | VObjectId _ => "bson.objectid.ObjectId"
  | VBinary subtype _ => if subtype =? 0 then "bytes" else "bson.binary.Binary"
  | VRegex _ _ => "bson.regex.Regex"
  | VTimestamp _ _ => "bson.timestamp.Timestamp"
  | VDecimal128 _ => "bson.decimal128.Decimal128"
  | VMinKey => "bson.min_key.MinKey"
  | VMaxKey => "bson.max_key.MaxKey"
  | VCode _ _ => "bson.code.Code"
  | VDBRef _ _ _ _ => "bson.dbref.DBRef"
  | _ => type_name v
  end ++ "'>".

(** A value is plain when [json.dumps] accepts it: no driver object
    occurs in it. *)
Fixpoint plain (v : value) : bool :=
  match v with
  | VNone | VBool _ | VInt _ | VFloat _ | VStr _ => true
  | VList xs => forallb plain xs
  | VDict items => forallb (fun kv => plain (snd kv)) items
  | _ => false
  end.

Definition bytes_eqb (x y : list byte) : bool :=
  (fix go (l m : list byte) : bool :=
     match l, m with
     | [], [] => true
     | x :: l', y :: m' => Byte.eqb x y && go l' m'
     | _, _ => false
     end) x y.

Definition datetime_eqb (x y : datetime) : bool :=
  (year x =? year y) && (month x =? month y) && (day x =? day y) &&
  (hour x =? hour y) && (minute x =? minute y) && (second x =? second y) &&
  (microsecond x =? microsecond y).

Definition decimal128_eqb (x y : decimal128) : bool :=
  match x, y with
  | DFinite s c e, DFinite s' c' e' => Bool.eqb s s' && (c =? c') && (e =? e')
  | DInfinity s, DInfinity s' => Bool.eqb s s'
  | DNaN s g, DNaN s' g' => Bool.eqb s s' && Bool.eqb g g'
  | _, _ => false
  end.

Definition option_eqb {A} (eqb : A -> A -> bool) (x y : option A) : bool :=
  match x, y with
  | Some a, Some b => eqb a b
  | None, None => true
  | _, _ => false
  end.

(** [a == b] on the modelled values. *)
Fixpoint value_eqb (a b : value) : bool :=
  let items_eqb :=
    fix go (l : list (string * value)) (m : list (string * value)) : bool :=
      match l, m with
      | [], [] => true
      | (k, x) :: l', (k', y) :: m' => String.eqb k k' && value_eqb x y && go l' m'
      | _, _ => false
      end in
  match a, b with
  | VNone, VNone => true
  | VBool x, VBool y => Bool.eqb x y
  | VInt x, VInt y => x =? y
  | VFloat x, VFloat y => x =? y
  | VStr x, VStr y => String.eqb x y
  | VList xs, VList ys =>
      (fix go (l : list value) (m : list value) : bool :=
         match l, m with
         | [], [] => true
         | x :: l', y :: m' => value_eqb x y && go l' m'
         | _, _ => false
         end) xs ys
  | VDict xs, VDict ys => items_eqb xs ys
  | VObjectId x, VObjectId y => bytes_eqb x y
  | VDatetime x, VDatetime y => datetime_eqb x y
  | VBinary s x, VBinary s' y => (s =? s') && bytes_eqb x y
  | VRegex p f, VRegex p' f' => String.eqb p p' && (f =? f')
  | VTimestamp t i, VTimestamp t' i' => (t =? t') && (i =? i')
  | VDecimal128 x, VDecimal128 y => decimal128_eqb x y
  | VMinKey, VMinKey => true
  | VMaxKey, VMaxKey => true
  | VCode c s, VCode c' s' =>
      String.eqb c c' &&
      match s, s' with
      | Some xs, Some ys => items_eqb xs ys
      | None, None => true
      | _, _ => false
      end
  | VDBRef c i d k, VDBRef c' i' d' k' =>
      String.eqb c c' && value_eqb i i' && option_eqb String.eqb d d' && items_eqb k k'
  | _, _ => false
  end.

(** The keys by which [json_util.object_hook] recognises a tagged
    document. *)
Definition tags : list string :=
  ["$oid"; "$ref"; "$date"; "$regex"; "$minKey"; "$maxKey"; "$binary"; "$code";
   "$uuid"; "$undefined"; "$numberLong"; "$timestamp"; "$numberDecimal";
   "$dbPointer"; "$regularExpression"; "$symbol"; "$numberInt"; "$numberDouble"].

Definition is_tag (k : string) : bool := existsb (String.eqb k) tags.

Definition tags_of (doc : dict) : list string := filter is_tag (map fst doc).

(** The [TypeError] of a parser that finds more fields than its tag.
    The messages of the parsers go on with the document itself, as
    [repr] prints it; that part is left out. *)
Definition extra_fields (tag : string) : exn :=
  OtherException ("Bad " ++ tag ++ ", extra field(s)").

(** The names [DBRef(collection, id, database, **kwargs)] cannot take as
    keywords, and those by which [hasattr] takes a [DBRef] for a mapping
    or a sequence. *)
Definition reserved (k : string) : bool :=
  existsb (String.eqb k)
    ["self"; "collection"; "id"; "database"; "_extra"; "items"; "__iter__"].

Definition _DBREF_KEYS (k : string) : bool :=
  existsb (String.eqb k) ["$ref"; "$id"; "$db"].

Definition tag_like (k : string) : bool :=
  match k with
  | String "$" _ => true
  | _ => false
  end.


(** ** The driver interface *)

Definition handle := nat.

Record database : Type := { db_client : handle; db_name : string }.
Record collection : Type := { coll_database : database; coll_name : string }.

(** A pymongo [Cursor] is lazy: [find] only records the query, [sort],
    [skip] and [limit] set fields, and the query is sent when the cursor
    is iterated.  Unset, [skip] and [limit] are [0] and [sort] is [None]. *)
Record cursor : Type := {
  cur_collection : collection;
  cur_filter : value;
  cur_projection : value;
  cur_sort : value;
  cur_skip : value;
  cur_limit : value
}.

Record update_result : Type := {
  matched_count : Z;
  modified_count : Z;
  upserted_id : value
}.

Record Driver : Type := {
  backend : Type;
  (* bson *)
  ObjectId_new : list byte;            (* the identifier drawn by [ObjectId()] *)
  object_hook_other : dict -> outcome value;
    (* [json_util.object_hook] on a tagged document in a form other than
       those modelled in the codec below *)
  (* pymongo *)
  MongoClient : string -> backend -> outcome handle * backend;
  database_name : value -> outcome string;     (* name check of [client[name]] *)
  collection_name : value -> outcome string;   (* name check of [database[name]] *)
  client_list_databases : handle -> backend -> outcome (list dict) * backend;
  database_list_collection_names : database -> backend -> outcome (list string) * backend;
  database_command : database -> value -> value -> backend -> outcome dict * backend;
  cursor_list : cursor -> backend -> outcome (list value) * backend;
    (* [list(cursor)], together with the checks the driver makes on the
       arguments of [find], [sort], [skip] and [limit] as the cursor is
       built: the trace does not tell the two apart *)
  collection_aggregate : collection -> value -> backend -> outcome (list value) * backend;
  collection_insert_many : collection -> value -> value -> backend -> outcome (list value) * backend;
  collection_update_one : collection -> value -> value -> value -> backend -> outcome update_result * backend;
  collection_update_many : collection -> value -> value -> value -> backend -> outcome update_result * backend;
  collection_delete_one : collection -> value -> backend -> outcome Z * backend;
  collection_delete_many : collection -> value -> backend -> outcome Z * backend;
  collection_estimated_document_count : collection -> backend -> outcome Z * backend;
  collection_list_indexes : collection -> backend -> outcome (list value) * backend
}.

(** Calls into the driver, as recorded in the trace. *)
Inductive call : Type :=
| CListDatabases (client : handle)
| CListCollectionNames (db : database)
| CCommand (db : database) (cmd arg : value)
| CFind (cur : cursor)
| CAggregate (coll : collection) (pipeline : value)
| CInsertMany (coll : collection) (documents ordered : value)
| CUpdateOne (coll : collection) (filter update upsert : value)
| CUpdateMany (coll : collection) (filter update upsert : value)
| CDeleteOne (coll : collection) (filter : value)
| CDeleteMany (coll : collection) (filter : value)
| CEstimatedDocumentCount (coll : collection)
| CListIndexes (coll : collection).

Inductive event : Type :=
| EConnect (uri : string) (r : outcome handle)
| ECall (c : call) (failure : option exn).

Definition failure_of {A} (r : outcome A) : option exn :=
  match r with
  | Ok _ => None
  | Raise e => Some e
  end.

(** ** Configuration, requests and responses *)

Record config : Type := { MONGO_URI : string; API_KEY : string }.

(** Module initialisation: [os.environ.get] for both settings, and a
    random token when [API_KEY] is unset or empty. *)
Definition load_config (environ : string -> option string)
    (token_urlsafe : string) : config :=
  {| MONGO_URI := match environ "MONGO_URI" with
                  | Some u => u
                  | None => "mongodb://localhost:27017"
                  end;
     API_KEY := match environ "API_KEY" with
                | Some k => if String.eqb k EmptyString then token_urlsafe else k
                | None => token_urlsafe
                end |}.

(** What a view reads of Flask's [request]: [request.headers.get] and
    the result of [request.get_json()], which raises on a malformed
    body. *)
Record request : Type := {
  headers_get : string -> option string;
  get_json : outcome value
}.

Record response : Type := { body : value; status : Z }.

Definition jsonify (payload : value) : response :=
  {| body := payload; status := 200 |}.

Definition with_status (r : response) (code : Z) : response :=
  {| body := body r; status := code |}.

Definition error_body (msg : string) : value := VDict [("error", VStr msg)].

Section Bridge.

Context (D : Driver).
Variable cfg : config.

(** ** The world and the monad of view functions *)

Record world : Type := {
  _client : option handle;
  mongo : backend D;
  calls : list event
}.

(** The process after start-up: [_client = None], nothing called yet. *)
Definition startup (b : backend D) : world :=
  {| _client := None; mongo := b; calls := [] |}.

Definition M (A : Type) : Type := world -> outcome A * world.

Definition ret {A} (a : A) : M A := fun w => (Ok a, w).

Definition raise {A} (e : exn) : M A := fun w => (Raise e, w).

Definition bind {A B} (m : M A) (k : A -> M B) : M B :=
  fun w =>
    let '(r, w') := m w in
    match r with
    | Ok a => k a w'
    | Raise e => (Raise e, w')
    end.

Definition lift {A} (r : outcome A) : M A := fun w => (r, w).

(** [try: m  except ... as e: handler e] *)
Definition try_except {A} (m : M A) (handler : exn -> M A) : M A :=
  fun w =>
    let '(r, w') := m w in
    match r with
    | Ok a => (Ok a, w')
    | Raise e => handler e w'
    end.

Notation "x <- m ;; k" := (bind m (fun x => k))
  (at level 61, m at next level, right associativity).

(** A call into the driver: run it on the deployment and record it. *)
Definition perform {A} (c : call)
    (op : backend D -> outcome A * backend D) : M A :=
  fun w =>
    let rb := op (mongo w) in
    (fst rb,
     {| _client := _client w;
        mongo := snd rb;
        calls := calls w ++ [ECall c (failure_of (fst rb))] |}).

(** [for x in l: out.append(f x)] *)
Fixpoint for_each {A B} (f : A -> M B) (l : list A) : M (list B) :=
  match l with
  | [] => ret []
  | x :: r => y <- f x ;; ys <- for_each f r ;; ret (y :: ys)
  end.

(** ** get_client *)

Definition get_client : M handle :=
  fun w =>
    match _client w with
    | Some h => (Ok h, w)
    | None =>
        let rb := MongoClient D (MONGO_URI cfg) (mongo w) in
        (fst rb,
         {| _client := match fst rb with Ok h => Some h | Raise _ => None end;
            mongo := snd rb;
            calls := calls w ++ [EConnect (MONGO_URI cfg) (fst rb)] |})
    end.

Definition client_getitem (client : handle) (name : value) : outcome database :=
  let? n := database_name D name in
  Ok {| db_client := client; db_name := n |}.

Definition database_getitem (db : database) (name : value) : outcome collection :=
  let? n := collection_name D name in
  Ok {| coll_database := db; coll_name := n |}.

(** ** The extended-JSON codec

    A JSON text is represented by the tree it denotes, so [json.loads] is
    the identity and [json.dumps] is the identity on the trees it
    accepts.  [json_util.dumps] converts driver objects to their tagged
    form before printing; [json_util.loads] parses and applies
    [object_hook] to every object, innermost first.  The tagged forms are
    those of json_util's default, relaxed mode. *)

Definition json_dumps (v : value) : outcome value :=
  if plain v then Ok v
  else Raise (OtherException "Object is not JSON serializable").

Definition json_loads (t : value) : value := t.

(** [json_util.default], on the objects that hold no other object. *)
Definition default (v : value) : value :=
  match v with
  | VObjectId b => VDict [("$oid", VStr (hexlify b))]
  | VDatetime d =>
      if since_epoch d then VDict [("$date", VStr (isoformat d))]
      else VDict [("$date",
                   VDict [("$numberLong", VStr (str_int (_datetime_to_millis d)))])]
  | VRegex pattern flags =>
      VDict [("$regularExpression",
              VDict [("pattern", VStr pattern); ("options", VStr (flags_text flags))])]
  | VMinKey => VDict [("$minKey", VInt 1)]
  | VMaxKey => VDict [("$maxKey", VInt 1)]
  | VTimestamp time inc =>
      VDict [("$timestamp", VDict [("t", VInt time); ("i", VInt inc)])]
  | VBinary subtype data =>
      VDict [("$binary",
              VDict [("base64", VStr (b64encode data));
                     ("subType", VStr (hex_octet subtype))])]
  | VDecimal128 d => VDict [("$numberDecimal", VStr (str_decimal128 d))]
  | VFloat bits =>
      if isnan bits then VDict [("$numberDouble", VStr "NaN")]
      else if isinf bits then
        VDict [("$numberDouble",
                VStr (if float_positive bits then "Infinity" else "-Infinity"))]
      else v
  | _ => v
  end.

(** [json_util._json_convert]; for a [Code] with a scope and for a
    [DBRef], [default] calls it again on the scope and on
    [DBRef.as_doc()]. *)
Fixpoint _json_convert (v : value) : value :=
  let convert_items :=
    map (fun kv : string * value => (fst kv, _json_convert (snd kv))) in
  match v with
  | VList xs => VList (map _json_convert xs)
  | VDict items => VDict (convert_items items)
  | VCode code None => VDict [("$code", VStr code)]
  | VCode code (Some scope) =>
      VDict [("$code", VStr code); ("$scope", VDict (convert_items scope))]
  | VDBRef collection id database kwargs =>
      VDict (("$ref", VStr collection) :: ("$id", _json_convert id)
             :: match database with
                | Some db => [("$db", VStr db)]
                | None => []
                end ++ convert_items kwargs)
  | _ => default v
  end.

Definition json_util_dumps (v : value) : outcome value :=
  json_dumps (_json_convert v).

Definition invalid_id (s : string) : exn :=
  OtherException (repr s ++ " is not a valid ObjectId, it must be a 12-byte input or a 24-character hex string").

(** [ObjectId(oid)] *)
Definition ObjectId (oid : value) : outcome value :=
  match oid with
  | VNone => Ok (VObjectId (ObjectId_new D))
  | VObjectId b => Ok (VObjectId b)
  | VStr s | VCode s _ =>
      if (String.length s =? 24)%nat then
        match fromhex s with
        | Some b => Ok (VObjectId b)
        | None => Raise (invalid_id s)
        end
      else Raise (invalid_id s)
  | VBinary _ data =>
      if (List.length data =? 12)%nat then Ok (VObjectId data)
      else Raise (OtherException
                    ("id must be an instance of (bytes, str, ObjectId), not "
                     ++ class_text oid))
  | _ => Raise (OtherException
                  ("id must be an instance of (bytes, str, ObjectId), not " ++ class_text oid))
  end.

Definition _parse_canonical_oid (doc : dict) : outcome value :=
  if (List.length doc =? 1)%nat then ObjectId (dict_get doc "$oid" VNone)
  else Raise (OtherException "Bad $oid, extra field(s)").

(** [bson._millis_to_datetime] *)
Definition millis_datetime (millis : Z) : outcome value :=
  match _millis_to_datetime millis with
  | Some d => Ok (VDatetime d)
  | None => Raise (OtherException "date value out of range")
  end.

Definition _parse_canonical_datetime (doc : dict) : outcome value :=
  if (List.length doc =? 1)%nat then
    match dict_get doc "$date" VNone with
    | VStr s =>
        match parse_isoformat s with
        | Some d => Ok (VDatetime d)
        | None => object_hook_other D doc
        end
    | VInt millis => millis_datetime millis
    | VBool b => millis_datetime (if b then 1 else 0)
    | _ => object_hook_other D doc
    end
  else Raise (extra_fields "$date").

Definition _parse_canonical_int64 (doc : dict) : outcome value :=
  if (List.length doc =? 1)%nat then
    match dict_get doc "$numberLong" VNone with
    | VStr s =>
        match int_of_str s with
        | Some n => Ok (VInt n)
        | None => object_hook_other D doc
        end
    | VInt n => Ok (VInt n)
    | VBool b => Ok (VInt (if b then 1 else 0))
    | _ => object_hook_other D doc
    end
  else Raise (extra_fields "$numberLong").

Definition _parse_canonical_int32 (doc : dict) : outcome value :=
  if (List.length doc =? 1)%nat then
    match dict_get doc "$numberInt" VNone with
    | VStr s =>
        match int_of_str s with
        | Some n => Ok (VInt n)
        | None => object_hook_other D doc
        end
    | VCode _ _ => object_hook_other D doc
    | _ => Raise (OtherException "$numberInt must be string")
    end
  else Raise (extra_fields "$numberInt").

Definition _parse_canonical_double (doc : dict) : outcome value :=
  if (List.length doc =? 1)%nat then
    match dict_get doc "$numberDouble" VNone with
    | VStr s =>
        if String.eqb s "NaN" then Ok (VFloat float_nan)
        else if String.eqb s "Infinity" then Ok (VFloat float_inf)
        else if String.eqb s "-Infinity" then Ok (VFloat float_neg_inf)
        else object_hook_other D doc
    | VCode _ _ => object_hook_other D doc
    | _ => Raise (OtherException "$numberDouble must be string")
    end
  else Raise (extra_fields "$numberDouble").

Definition _parse_canonical_decimal128 (doc : dict) : outcome value :=
  if (List.length doc =? 1)%nat then
    match dict_get doc "$numberDecimal" VNone with
    | VStr s =>
        match parse_decimal128 s with
        | Some d => Ok (VDecimal128 d)
        | None => object_hook_other D doc
        end
    | VCode _ _ => object_hook_other D doc
    | _ => Raise (OtherException "$numberDecimal must be string")
    end
  else Raise (extra_fields "$numberDecimal").

Definition _parse_canonical_minkey (doc : dict) : outcome value :=
  match dict_get doc "$minKey" VNone with
  | VInt 1 =>
      if (List.length doc =? 1)%nat then Ok VMinKey
      else Raise (extra_fields "$minKey")
  | _ => Raise (OtherException "$minKey value must be 1")
  end.

Definition _parse_canonical_maxkey (doc : dict) : outcome value :=
  match dict_get doc "$maxKey" VNone with
  | VInt 1 =>
      if (List.length doc =? 1)%nat then Ok VMaxKey
      else Raise (extra_fields "$maxKey")
  | _ => Raise (OtherException "$maxKey value must be 1")
  end.

(** [Timestamp(time, inc)] *)
Definition Timestamp (time inc : value) : outcome value :=
  let time := match time with
              | VDatetime d => VInt (timegm d)
              | _ => time
              end in
  match int_value time, int_value inc with
  | None, _ => Raise (OtherException "time must be an instance of int")
  | _, None => Raise (OtherException "inc must be an instance of int")
  | Some t, Some i =>
      if negb ((0 <=? t) && (t <? 2 ^ 32))
      then Raise (OtherException "time must be contained in [0, 2**32)")
      else if negb ((0 <=? i) && (i <? 2 ^ 32))
      then Raise (OtherException "inc must be contained in [0, 2**32)")
      else Ok (VTimestamp t i)
  end.

Definition _parse_timestamp (doc : dict) : outcome value :=
  match dict_get doc "$timestamp" VNone with
  | VDict tsp =>
      let? t := dict_getitem tsp "t" in
      let? i := dict_getitem tsp "i" in
      Timestamp t i
  | v => Raise (OtherException ("'" ++ type_name v ++ "' object is not subscriptable"))
  end.

(** [Regex(pattern, flags)], for flags given by their letters *)
Definition Regex (doc : dict) (pattern : value) (opts : string) : outcome value :=
  match pattern with
  | VStr p => Ok (VRegex p (str_flags_to_int opts))
  | VCode _ _ | VBinary _ _ => object_hook_other D doc
  | _ => Raise (OtherException "pattern must be an instance of str or bytes")
  end.

Definition _parse_canonical_regex (doc : dict) : outcome value :=
  if negb (List.length doc =? 1)%nat then Raise (extra_fields "$regularExpression") else
  match dict_get doc "$regularExpression" VNone with
  | VDict regex =>
      if negb (List.length regex =? 2)%nat then
        Raise (OtherException
                 "Bad $regularExpression must include only 'pattern' and 'options' components")
      else
        let? opts := dict_getitem regex "options" in
        match opts with
        | VStr o => let? pattern := dict_getitem regex "pattern" in Regex doc pattern o
        | VCode _ _ => object_hook_other D doc
        | _ => Raise (OtherException
                        "Bad $regularExpression options, options must be string")
        end
  | v => Raise (OtherException ("'" ++ type_name v ++ "' object is not subscriptable"))
  end.

(** A [$regex] whose pattern is no string is the query operator, and the
    document is left as it is. *)
Definition _parse_legacy_regex (doc : dict) : outcome value :=
  match dict_get doc "$regex" VNone with
  | VStr pattern =>
      match dict_get doc "$options" (VStr EmptyString) with
      | VStr opts => Ok (VRegex pattern (str_flags_to_int opts))
      | _ => object_hook_other D doc
      end
  | VCode _ _ | VBinary _ _ => object_hook_other D doc
  | _ => Ok (VDict doc)
  end.

Definition _parse_canonical_binary (doc : dict) : outcome value :=
  match dict_get doc "$binary" VNone with
  | VDict binary =>
      let? b64 := dict_getitem binary "base64" in
      let? subtype := dict_getitem binary "subType" in
      match b64, subtype with
      | VStr text, VStr sub =>
          if (2 <? String.length sub)%nat then
            Raise (OtherException "$binary subType must be a string at most 2 characters")
          else if negb (List.length binary =? 2)%nat then
            Raise (OtherException
                     "$binary must include only 'base64' and 'subType' components")
          else
            match b64decode text, int_base16 sub with
            | Some data, Some n => Ok (VBinary n data)
            | _, _ => object_hook_other D doc
            end
      | VStr _, VCode _ _ | VCode _ _, _ => object_hook_other D doc
      | VStr _, _ =>
          Raise (OtherException "$binary subType must be a string at most 2 characters")
      | _, _ => Raise (OtherException "$binary base64 must be a string")
      end
  | v => Raise (OtherException ("'" ++ type_name v ++ "' object is not subscriptable"))
  end.

Definition _parse_binary (doc : dict) : outcome value :=
  if has_key "$type" doc then object_hook_other D doc
  else _parse_canonical_binary doc.

Definition _parse_canonical_symbol (doc : dict) : outcome value :=
  if (List.length doc =? 1)%nat then
    match dict_get doc "$symbol" VNone with
    | VStr s => Ok (VStr s)
    | _ => object_hook_other D doc
    end
  else Raise (extra_fields "$symbol").

Definition _parse_canonical_code (doc : dict) : outcome value :=
  if negb (forallb (fun kv => String.eqb (fst kv) "$code" || String.eqb (fst kv) "$scope") doc)
  then Raise (extra_fields "$code") else
  match dict_get doc "$code" VNone, dict_get doc "$scope" VNone with
  | VStr code, VNone => Ok (VCode code None)
  | VStr code, VDict scope => Ok (VCode code (Some scope))
  | VCode _ _, _ => object_hook_other D doc
  | VStr _, _ => Raise (OtherException "scope must be an instance of dict")
  | _, _ => Raise (OtherException "code must be an instance of str")
  end.

Definition _parse_canonical_dbref (doc : dict) : outcome value :=
  let kwargs := filter (fun kv => negb (_DBREF_KEYS (fst kv))) doc in
  match dict_get doc "$ref" VNone, lookup "$id" doc, dict_get doc "$db" VNone with
  | VCode _ _, _, _ | _, _, VCode _ _ => object_hook_other D doc
  | VStr collection, Some id, (VStr _ | VNone) as db =>
      if existsb (fun kv => tag_like (fst kv) || reserved (fst kv)) kwargs
      then object_hook_other D doc
      else Ok (VDBRef collection id
                 match db with VStr name => Some name | _ => None end kwargs)
  | _, _, _ => Ok (VDict doc)
  end.

(** [json_util.object_hook].  A document with several of the tags is
    left to [object_hook_other]: which tag wins has changed between the
    releases of the driver. *)
Definition object_hook (dct : dict) : outcome value :=
  match tags_of dct with
  | [] => Ok (VDict dct)
  | [tag] =>
      if String.eqb tag "$oid" then _parse_canonical_oid dct
      else if String.eqb tag "$ref" then _parse_canonical_dbref dct
      else if String.eqb tag "$date" then _parse_canonical_datetime dct
      else if String.eqb tag "$regex" then _parse_legacy_regex dct
      else if String.eqb tag "$minKey" then _parse_canonical_minkey dct
      else if String.eqb tag "$maxKey" then _parse_canonical_maxkey dct
      else if String.eqb tag "$binary" then _parse_binary dct
      else if String.eqb tag "$code" then _parse_canonical_code dct
      else if String.eqb tag "$undefined" then Ok VNone
      else if String.eqb tag "$numberLong" then _parse_canonical_int64 dct
      else if String.eqb tag "$timestamp" then _parse_timestamp dct
      else if String.eqb tag "$numberDecimal" then _parse_canonical_decimal128 dct
      else if String.eqb tag "$regularExpression" then _parse_canonical_regex dct
      else if String.eqb tag "$symbol" then _parse_canonical_symbol dct
      else if String.eqb tag "$numberInt" then _parse_canonical_int32 dct
      else if String.eqb tag "$numberDouble" then _parse_canonical_double dct
      else object_hook_other D dct
  | _ => object_hook_other D dct
  end.

Fixpoint json_util_loads (t : value) : outcome value :=
  match t with
  | VList xs => let? ys := mapM json_util_loads xs in Ok (VList ys)
  | VDict items =>
      let? items' :=
        mapM (fun kv => let? v := json_util_loads (snd kv) in Ok (fst kv, v)) items in
      object_hook items'
  | _ => Ok t
  end.

Definition parse_json_extended (data : value) : outcome value :=
  let? t := json_dumps data in json_util_loads t.

Definition serialize_response (data : value) : outcome value :=
  let? t := json_util_dumps data in Ok (json_loads t).

(** ** Authentication *)

Definition view : Type := request -> M response.

Definition require_api_key (f : view) : view :=
  fun req =>
    match headers_get req "X-API-Key" with
    | None =>
        ret (with_status
               (jsonify (error_body "Unauthorized - Invalid or missing API key")) 401)
    | Some provided_key =>
        if String.eqb provided_key EmptyString
           || negb (String.eqb provided_key (API_KEY cfg))
        then
          ret (with_status
                 (jsonify (error_body "Unauthorized - Invalid or missing API key")) 401)
        else f req
    end.

(** ** The two shapes of [except] clauses *)

(** [except PyMongoError as e: return jsonify({"error": str(e)}), 500] *)
Definition except_PyMongoError (m : M response) : M response :=
  try_except m
    (fun e =>
       match e with
       | PyMongoError msg => ret (with_status (jsonify (error_body msg)) 500)
       | OtherException _ => raise e
       end).

(** The same, followed by
    [except Exception as e: return jsonify({"error": f"<Op> error: {str(e)}"}), 400] *)
Definition except_PyMongoError_Exception (op : string) (m : M response) : M response :=
  try_except m
    (fun e =>
       match e with
       | PyMongoError msg => ret (with_status (jsonify (error_body msg)) 500)
       | OtherException msg =>
           ret (with_status (jsonify (error_body (op ++ " error: " ++ msg))) 400)
       end).

Definition bad_request (msg : string) : M response :=
  ret (with_status (jsonify (error_body msg)) 400).

(** ** View functions *)

Definition index : view :=
  fun _ =>
    ret (jsonify (VDict
      [("service", VStr "MongoDB HTTP Bridge");
       ("status", VStr "running");
       ("auth_required", VBool true);
       ("endpoints", VList
          [VStr "GET  /databases";
           VStr "GET  /databases/<db>/collections";
           VStr "POST /query";
           VStr "POST /aggregate";
           VStr "POST /insert";
           VStr "POST /update";
           VStr "POST /delete";
           VStr "POST /command";
           VStr "GET  /collection/<db>/<collection>/count";
           VStr "GET  /collection/<db>/<collection>/indexes"])])).

Definition database_entry (db_info : dict) : outcome value :=
  let? name := dict_getitem db_info "name" in
  Ok (VDict [("name", name);
             ("sizeOnDisk", dict_get db_info "sizeOnDisk" VNone);
             ("empty", dict_get db_info "empty" (VBool false))]).

Definition list_databases_try : M response :=
  client <- get_client ;;
  infos <- perform (CListDatabases client) (client_list_databases D client) ;;
  databases <- lift (mapM database_entry infos) ;;
  ret (jsonify (VDict [("databases", VList databases)])).

Definition list_databases : view :=
  fun _ => except_PyMongoError list_databases_try.

(** One turn of the loop of [list_collections], with its bare [except]. *)
Definition collection_entry (database : database) (coll_name : string) : M value :=
  try_except
    (stats <- perform (CCommand database (VStr "collStats") (VStr coll_name))
                (database_command D database (VStr "collStats") (VStr coll_name)) ;;
     ret (VDict [("name", VStr coll_name);
                 ("count", dict_get stats "count" (VInt 0));
                 ("size", dict_get stats "size" (VInt 0));
                 ("avgObjSize", dict_get stats "avgObjSize" (VInt 0))]))
    (fun _ => ret (VDict [("name", VStr coll_name)])).

Definition list_collections_try (db : string) : M response :=
  client <- get_client ;;
  database <- lift (client_getitem client (VStr db)) ;;
  collections <- perform (CListCollectionNames database)
                   (database_list_collection_names D database) ;;
  collection_info <- for_each (collection_entry database) collections ;;
  ret (jsonify (VDict [("database", VStr db);
                       ("collections", VList collection_info)])).

Definition list_collections (db : string) : view :=
  fun _ => except_PyMongoError (list_collections_try db).

Definition get_collection (client : handle) (db_name coll_name : value)
  : outcome collection :=
  let? database := client_getitem client db_name in
  database_getitem database coll_name.

(** [collection.find(filter, projection)] *)
Definition collection_find (coll : collection) (filter projection : value) : cursor :=
  {| cur_collection := coll; cur_filter := filter; cur_projection := projection;
     cur_sort := VNone; cur_skip := VInt 0; cur_limit := VInt 0 |}.

Definition cursor_sort (c : cursor) (sort : value) : cursor :=
  {| cur_collection := cur_collection c; cur_filter := cur_filter c;
     cur_projection := cur_projection c;
     cur_sort := sort; cur_skip := cur_skip c; cur_limit := cur_limit c |}.

Definition cursor_skip (c : cursor) (skip : value) : cursor :=
  {| cur_collection := cur_collection c; cur_filter := cur_filter c;
     cur_projection := cur_projection c;
     cur_sort := cur_sort c; cur_skip := skip; cur_limit := cur_limit c |}.

Definition cursor_limit (c : cursor) (limit : value) : cursor :=
  {| cur_collection := cur_collection c; cur_filter := cur_filter c;
     cur_projection := cur_projection c;
     cur_sort := cur_sort c; cur_skip := cur_skip c; cur_limit := limit |}.

(** The cursor [query] builds from the decoded parameters. *)
Definition build_cursor (coll : collection)
    (filter_query projection sort skip limit : value) : cursor :=
  let cursor := collection_find coll filter_query projection in
  let cursor := if truthy sort then cursor_sort cursor sort else cursor in
  let cursor := if truthy skip then cursor_skip cursor skip else cursor in
  if truthy limit then cursor_limit cursor limit else cursor.

Definition query_try (req : request) : M response :=
  data <- lift (get_json req) ;;
  if negb (truthy data) then bad_request "Request body required" else
  db_name <- lift (py_get data "database" VNone) ;;
  coll_name <- lift (py_get data "collection" VNone) ;;
  if negb (truthy db_name) || negb (truthy coll_name)
  then bad_request "database and collection are required" else
  client <- get_client ;;
  collection <- lift (get_collection client db_name coll_name) ;;
  filter <- lift (py_get data "filter" (VDict [])) ;;
  filter_query <- lift (parse_json_extended filter) ;;
  projection <- lift (py_get data "projection" VNone) ;;
  sort <- lift (py_get data "sort" VNone) ;;
  limit <- lift (py_get data "limit" (VInt 100)) ;;
  skip <- lift (py_get data "skip" (VInt 0)) ;;
  let cursor := build_cursor collection filter_query projection sort skip limit in
  documents <- perform (CFind cursor) (cursor_list D cursor) ;;
  serialized <- lift (serialize_response (VList documents)) ;;
  ret (jsonify (VDict [("database", db_name);
                       ("collection", coll_name);
                       ("count", len documents);
                       ("documents", serialized)])).

Definition query : view :=
  fun req => except_PyMongoError_Exception "Query" (query_try req).

Definition aggregate_try (req : request) : M response :=
  data <- lift (get_json req) ;;
  if negb (truthy data) then bad_request "Request body required" else
  db_name <- lift (py_get data "database" VNone) ;;
  coll_name <- lift (py_get data "collection" VNone) ;;
  pipeline <- lift (py_get data "pipeline" (VList [])) ;;
  if negb (truthy db_name) || negb (truthy coll_name)
  then bad_request "database and collection are required" else
  client <- get_client ;;
  collection <- lift (get_collection client db_name coll_name) ;;
  pipeline <- lift (parse_json_extended pipeline) ;;
  results <- perform (CAggregate collection pipeline) (collection_aggregate D collection pipeline) ;;
  serialized <- lift (serialize_response (VList results)) ;;
  ret (jsonify (VDict [("database", db_name);
                       ("collection", coll_name);
                       ("count", len results);
                       ("results", serialized)])).

Definition aggregate : view :=
  fun req => except_PyMongoError_Exception "Aggregation" (aggregate_try req).

Definition insert_try (req : request) : M response :=
  data <- lift (get_json req) ;;
  if negb (truthy data) then bad_request "Request body required" else
  db_name <- lift (py_get data "database" VNone) ;;
  coll_name <- lift (py_get data "collection" VNone) ;;
  documents <- lift (py_get data "documents" VNone) ;;
  ordered <- lift (py_get data "ordered" (VBool true)) ;;
  if negb (truthy db_name) || negb (truthy coll_name) || negb (truthy documents)
  then bad_request "database, collection, and documents are required" else
  client <- get_client ;;
  collection <- lift (get_collection client db_name coll_name) ;;
  let documents := match documents with
                   | VDict _ => VList [documents]
                   | _ => documents
                   end in
  documents <- lift (parse_json_extended documents) ;;
  inserted_ids <- perform (CInsertMany collection documents ordered)
                    (collection_insert_many D collection documents ordered) ;;
  serialized <- lift (serialize_response (VList inserted_ids)) ;;
  ret (jsonify (VDict [("database", db_name);
                       ("collection", coll_name);
                       ("inserted_count", len inserted_ids);
                       ("inserted_ids", serialized)])).

Definition insert : view :=
  fun req => except_PyMongoError_Exception "Insert" (insert_try req).

Definition update_try (req : request) : M response :=
  data <- lift (get_json req) ;;
  if negb (truthy data) then bad_request "Request body required" else
  db_name <- lift (py_get data "database" VNone) ;;
  coll_name <- lift (py_get data "collection" VNone) ;;
  filter_query <- lift (py_get data "filter" (VDict [])) ;;
  update_doc <- lift (py_get data "update" VNone) ;;
  many <- lift (py_get data "many" (VBool false)) ;;
  upsert <- lift (py_get data "upsert" (VBool false)) ;;
  if negb (truthy db_name) || negb (truthy coll_name) || negb (truthy update_doc)
  then bad_request "database, collection, and update are required" else
  client <- get_client ;;
  collection <- lift (get_collection client db_name coll_name) ;;
  filter_query <- lift (parse_json_extended filter_query) ;;
  update_doc <- lift (parse_json_extended update_doc) ;;
  result <- (if truthy many
             then perform (CUpdateMany collection filter_query update_doc upsert)
                    (collection_update_many D collection filter_query update_doc upsert)
             else perform (CUpdateOne collection filter_query update_doc upsert)
                    (collection_update_one D collection filter_query update_doc upsert)) ;;
  upserted <- (if truthy (upserted_id result)
               then lift (serialize_response (upserted_id result))
               else ret VNone) ;;
  ret (jsonify (VDict [("database", db_name);
                       ("collection", coll_name);
                       ("matched_count", VInt (matched_count result));
                       ("modified_count", VInt (modified_count result));
                       ("upserted_id", upserted)])).

Definition update : view :=
  fun req => except_PyMongoError_Exception "Update" (update_try req).

Definition delete_try (req : request) : M response :=
  data <- lift (get_json req) ;;
  if negb (truthy data) then bad_request "Request body required" else
  db_name <- lift (py_get data "database" VNone) ;;
  coll_name <- lift (py_get data "collection" VNone) ;;
  filter_query <- lift (py_get data "filter" (VDict [])) ;;
  many <- lift (py_get data "many" (VBool false)) ;;
  if negb (truthy db_name) || negb (truthy coll_name)
  then bad_request "database and collection are required" else
  client <- get_client ;;
  collection <- lift (get_collection client db_name coll_name) ;;
  filter_query <- lift (parse_json_extended filter_query) ;;
  deleted_count <- (if truthy many
                    then perform (CDeleteMany collection filter_query)
                           (collection_delete_many D collection filter_query)
                    else perform (CDeleteOne collection filter_query)
                           (collection_delete_one D collection filter_query)) ;;
  ret (jsonify (VDict [("database", db_name);
                       ("collection", coll_name);
                       ("deleted_count", VInt deleted_count)])).

Definition delete : view :=
  fun req => except_PyMongoError_Exception "Delete" (delete_try req).

Definition run_command_try (req : request) : M response :=
  data <- lift (get_json req) ;;
  if negb (truthy data) then bad_request "Request body required" else
  db_name <- lift (py_get data "database" (VStr "admin")) ;;
  command <- lift (py_get data "command" VNone) ;;
  if negb (truthy command) then bad_request "command is required" else
  client <- get_client ;;
  database <- lift (client_getitem client db_name) ;;
  command <- lift (parse_json_extended command) ;;
  result <- perform (CCommand database command (VInt 1))
              (database_command D database command (VInt 1)) ;;
  serialized <- lift (serialize_response (VDict result)) ;;
  ret (jsonify (VDict [("database", db_name); ("result", serialized)])).

Definition run_command : view :=
  fun req => except_PyMongoError_Exception "Command" (run_command_try req).

Definition count_documents_try (db collection : string) : M response :=
  client <- get_client ;;
  coll <- lift (get_collection client (VStr db) (VStr collection)) ;;
  count <- perform (CEstimatedDocumentCount coll)
             (collection_estimated_document_count D coll) ;;
  ret (jsonify (VDict [("database", VStr db);
                       ("collection", VStr collection);
                       ("count", VInt count)])).

Definition count_documents (db collection : string) : view :=
  fun _ => except_PyMongoError (count_documents_try db collection).

Definition list_indexes_try (db collection : string) : M response :=
  client <- get_client ;;
  coll <- lift (get_collection client (VStr db) (VStr collection)) ;;
  indexes <- perform (CListIndexes coll) (collection_list_indexes D coll) ;;
  serialized <- lift (serialize_response (VList indexes)) ;;
  ret (jsonify (VDict [("database", VStr db);
                       ("collection", VStr collection);
                       ("indexes", serialized)])).

Definition list_indexes (db collection : string) : view :=
  fun _ => except_PyMongoError (list_indexes_try db collection).

Definition sample_try (req : request) : M response :=
  data <- lift (get_json req) ;;
  if negb (truthy data) then bad_request "Request body required" else
  db_name <- lift (py_get data "database" VNone) ;;
  coll_name <- lift (py_get data "collection" VNone) ;;
  size <- lift (py_get data "size" (VInt 5)) ;;
  if negb (truthy db_name) || negb (truthy coll_name)
  then bad_request "database and collection are required" else
  client <- get_client ;;
  collection <- lift (get_collection client db_name coll_name) ;;
  let pipeline := VList [VDict [("$sample", VDict [("size", size)])]] in
  results <- perform (CAggregate collection pipeline)
               (collection_aggregate D collection pipeline) ;;
  serialized <- lift (serialize_response (VList results)) ;;
  ret (jsonify (VDict [("database", db_name);
                       ("collection", coll_name);
                       ("count", len results);
                       ("documents", serialized)])).

Definition sample : view :=
  fun req => except_PyMongoError_Exception "Sample" (sample_try req).

(** ** Routing

    Flask matches the URL against the [@app.route] rules; the result is
    an endpoint together with the path parameters.  Every rule but the
    one of [index] carries [@require_api_key]. *)

Inductive endpoint : Type :=
| index_ep
| list_databases_ep
| list_collections_ep (db : string)
| query_ep
| aggregate_ep
| insert_ep
| update_ep
| delete_ep
| run_command_ep
| count_documents_ep (db collection : string)
| list_indexes_ep (db collection : string)
| sample_ep.

(** The view function as written, below its decorators. *)
Definition handler (ep : endpoint) : view :=
  match ep with
  | index_ep => index
  | list_databases_ep => list_databases
  | list_collections_ep db => list_collections db
  | query_ep => query
  | aggregate_ep => aggregate
  | insert_ep => insert
  | update_ep => update
  | delete_ep => delete
  | run_command_ep => run_command
  | count_documents_ep db collection => count_documents db collection
  | list_indexes_ep db collection => list_indexes db collection
  | sample_ep => sample
  end.

Definition protected (ep : endpoint) : bool :=
  match ep with
  | index_ep => false
  | _ => true
  end.

(** The function registered for the endpoint. *)
Definition view_function (ep : endpoint) : view :=
  if protected ep then require_api_key (handler ep) else handler ep.

(** Flask answers an exception that escapes a view with its own
    500 page, which is not a JSON error object. *)
Definition internal_server_error : response :=
  {| body := VStr "Internal Server Error"; status := 500 |}.

Definition dispatch_request (ep : endpoint) (req : request) (w : world)
  : response * world :=
  let '(r, w') := view_function ep req w in
  match r with
  | Ok resp => (resp, w')
  | Raise _ => (internal_server_error, w')
  end.

End Bridge.

Arguments world D : clear implicits.
Arguments M D A : clear implicits.
Arguments _client {D} w.
Arguments mongo {D} w.
Arguments calls {D} w.
Arguments Build_world {D} _ _ _.
Arguments ret {D A} a.
Arguments raise {D A} e.
Arguments bind {D A B} m k.
Arguments lift {D A} r.
Arguments try_except {D A} m handler.
Arguments perform {D A} c op.
Arguments for_each {D A B} f l.

(** ** An in-memory driver

    A deployment is a table of collections.  The query language itself
    (how a filter selects, how a sort specification orders, what an update
    document or a pipeline computes) is a parameter [semantics]; paging
    follows the server: sort, then skip, then limit, where a limit of [0]
    means no limit and a negative limit stands for its absolute value.
    Every primitive can be made to fail through [fault_connect] and
    [fault_call]. *)

Module Mem.

Record semantics : Type := {
  matches : value -> value -> bool;
  order : value -> list value -> list value;
  project : value -> value -> value;
  eval_update : value -> value -> outcome value;
  eval_pipeline : value -> list value -> outcome (list value);
  eval_command : string -> value -> value -> outcome dict
}.

Record state : Type := {
  store : list ((string * string) * list value);
  next_handle : nat;
  next_oid : N;
  fault_connect : option exn;
  fault_call : call -> option exn
}.

Definition set_store (b : state) (s : list ((string * string) * list value)) : state :=
  {| store := s; next_handle := next_handle b; next_oid := next_oid b;
     fault_connect := fault_connect b; fault_call := fault_call b |}.

Definition same_collection (k : string * string) (c : collection) : bool :=
  String.eqb (fst k) (db_name (coll_database c)) && String.eqb (snd k) (coll_name c).

Fixpoint documents (s : list ((string * string) * list value)) (c : collection)
  : list value :=
  match s with
  | [] => []
  | (k, docs) :: r => if same_collection k c then docs else documents r c
  end.

Fixpoint put_documents (s : list ((string * string) * list value)) (c : collection)
    (docs : list value) : list ((string * string) * list value) :=
  match s with
  | [] => [((db_name (coll_database c), coll_name c), docs)]
  | (k, old) :: r =>
      if same_collection k c then (k, docs) :: r
      else (k, old) :: put_documents r c docs
  end.

Definition guarded {A} (c : call) (op : state -> outcome A * state)
  : state -> outcome A * state :=
  fun b =>
    match fault_call b c with
    | Some e => (Raise e, b)
    | None => op b
    end.

Definition connect (uri : string) (b : state) : outcome handle * state :=
  match fault_connect b with
  | Some e => (Raise e, b)
  | None =>
      (Ok (next_handle b),
       {| store := store b; next_handle := S (next_handle b);
          next_oid := next_oid b;
          fault_connect := fault_connect b; fault_call := fault_call b |})
  end.

(** [x in s] for a text [x] *)
Definition contains (x s : string) : bool :=
  match String.index 0%nat x s with
  | Some _ => true
  | None => false
  end.

(** [pymongo.database._check_name] *)
Definition _check_name (name : string) : outcome string :=
  if String.eqb name EmptyString
  then Raise (PyMongoError "database name cannot be the empty string")
  else
    match List.find (fun c => occurs c name)
            [" "; "."; "$"; "/"; backslash; nul; double_quote]%char with
    | Some c =>
        Raise (PyMongoError ("database names cannot contain the character "
                             ++ repr (String c EmptyString)))
    | None => Ok name
    end.

(** The name check of [Database.__init__]; [InvalidName] is a
    [PyMongoError], [TypeError] is not. *)
Definition database_init (name : value) : outcome string :=
  match name with
  | VStr s => if String.eqb s "$external" then Ok s else _check_name s
  | _ => Raise (OtherException "name must be an instance of str")
  end.

(** The name check of [Collection.__init__] *)
Definition collection_init (name : value) : outcome string :=
  match name with
  | VStr s =>
      if String.eqb s EmptyString || contains ".." s
      then Raise (PyMongoError "collection names cannot be empty")
      else if occurs "$" s && negb (String.prefix "oplog.$main" s || String.prefix "$cmd" s)
      then Raise (PyMongoError ("collection names must not contain '$': " ++ repr s))
      else if String.prefix "." s ||
              match String.get (String.length s - 1)%nat s with
              | Some c => Ascii.eqb c "."
              | None => false
              end
      then Raise (PyMongoError
                    ("collection names must not start or end with '.': " ++ repr s))
      else if occurs nul s
      then Raise (PyMongoError "collection names must not contain the null character")
      else Ok s
  | _ => Raise (OtherException "name must be an instance of str")
  end.

(** Python's [int] includes [bool]. *)
Definition as_int (v : value) : option Z :=
  match v with
  | VInt n => Some n
  | VBool b => Some (if b then 1 else 0)
  | _ => None
  end.

Section WithSemantics.

Variable sem : semantics.

Definition selects (filter doc : value) : bool :=
  match filter with
  | VDict [] => true
  | _ => matches sem filter doc
  end.

(** The documents a cursor ranges over before paging. *)
Definition selected (b : state) (cur : cursor) : list value :=
  let docs := filter (selects (cur_filter cur)) (documents (store b) (cur_collection cur)) in
  let docs := match cur_sort cur with VNone => docs | s => order sem s docs end in
  match cur_projection cur with
  | VNone => docs
  | p => map (project sem p) docs
  end.

Definition page (skip limit : Z) (docs : list value) : list value :=
  let docs := skipn (Z.to_nat skip) docs in
  if limit =? 0 then docs else firstn (Z.to_nat (Z.abs limit)) docs.

Definition list_cursor (cur : cursor) : state -> outcome (list value) * state :=
  guarded (CFind cur) (fun b =>
    match cur_filter cur with
    | VDict _ =>
        match as_int (cur_skip cur), as_int (cur_limit cur) with
        | None, _ => (Raise (OtherException "skip must be an integer"), b)
        | _, None => (Raise (OtherException "limit must be an integer"), b)
        | Some skip, Some limit =>
            if skip <? 0 then (Raise (OtherException "skip must be >= 0"), b)
            else (Ok (page skip limit (selected b cur)), b)
        end
    | _ => (Raise (OtherException "filter must be an instance of dict"), b)
    end).

Fixpoint db_names (s : list ((string * string) * list value)) : list string :=
  match s with
  | [] => []
  | ((d, _), _) :: r =>
      if existsb (String.eqb d) (db_names r) then db_names r else d :: db_names r
  end.

Definition databases_of (client : handle) : state -> outcome (list dict) * state :=
  guarded (CListDatabases client) (fun b =>
    (Ok (map (fun d => [("name", VStr d); ("sizeOnDisk", VInt 0); ("empty", VBool false)])
           (db_names (store b))), b)).

Definition collections_of (db : database)
  : state -> outcome (list string) * state :=
  guarded (CListCollectionNames db) (fun b =>
    (Ok (map (fun e => snd (fst e))
           (filter (fun e => String.eqb (fst (fst e)) (db_name db)) (store b))), b)).

Definition run_db_command (db : database) (cmd arg : value)
  : state -> outcome dict * state :=
  guarded (CCommand db cmd arg) (fun b =>
    match cmd, arg with
    | VStr "collStats", VStr c =>
        let n := List.length (documents (store b) {| coll_database := db; coll_name := c |}) in
        (Ok [("ns", VStr (db_name db ++ "." ++ c)); ("count", VInt (Z.of_nat n));
             ("size", VInt 0); ("avgObjSize", VInt 0); ("ok", VInt 1)], b)
    | VStr name, _ => (eval_command sem name arg (VDict []), b)
    | VDict ((name, v) :: rest), _ => (eval_command sem name v (VDict rest), b)
    | _, _ => (Raise (OtherException "command must be a string or a document"), b)
    end).

Definition run_aggregate (c : collection) (pipeline : value)
  : state -> outcome (list value) * state :=
  guarded (CAggregate c pipeline) (fun b =>
    (eval_pipeline sem pipeline (documents (store b) c), b)).

Definition byte_of (n : N) : byte :=
  match Byte.of_N (n mod 256) with
  | Some x => x
  | None => x00
  end.

Definition oid_bytes (n : N) : list byte :=
  map (fun i => byte_of (n / 256 ^ i)) [11; 10; 9; 8; 7; 6; 5; 4; 3; 2; 1; 0]%N.

(** Give every document without one an ["_id"]; returns the identifiers,
    the stored documents and the next counter. *)
Fixpoint assign_ids (docs : list value) (n : N)
  : option (list value * list value * N) :=
  match docs with
  | [] => Some ([], [], n)
  | VDict items :: r =>
      match lookup "_id" items with
      | Some i =>
          match assign_ids r n with
          | Some (ids, ds, n') => Some (i :: ids, VDict items :: ds, n')
          | None => None
          end
      | None =>
          let i := VObjectId (oid_bytes n) in
          match assign_ids r (n + 1) with
          | Some (ids, ds, n') =>
              Some (i :: ids, VDict (items ++ [("_id", i)]) :: ds, n')
          | None => None
          end
      end
  | _ :: _ => None
  end.

Definition run_insert_many (c : collection) (docs ordered : value)
  : state -> outcome (list value) * state :=
  guarded (CInsertMany c docs ordered) (fun b =>
    match docs with
    | VList (d :: r) =>
        match assign_ids (d :: r) (next_oid b) with
        | Some (ids, ds, n') =>
            (Ok ids,
             {| store := put_documents (store b) c (documents (store b) c ++ ds);
                next_handle := next_handle b; next_oid := n';
                fault_connect := fault_connect b; fault_call := fault_call b |})
        | None =>
            (Raise (OtherException "document must be an instance of dict"), b)
        end
    | _ => (Raise (OtherException "documents must be a non-empty list"), b)
    end).

(** Apply the update to the first [budget] selected documents; returns
    the new documents, the number matched and the number changed. *)
Fixpoint update_docs (filter upd : value) (budget : option nat) (docs : list value)
  : outcome (list value * Z * Z) :=
  match docs with
  | [] => Ok ([], 0, 0)
  | d :: r =>
      if selects filter d && match budget with Some O => false | _ => true end then
        let? d' := eval_update sem upd d in
        let? rest := update_docs filter upd
                       (match budget with Some (S k) => Some k | o => o end) r in
        let '(ds, matched, modified) := rest in
        Ok (d' :: ds, 1 + matched, (if value_eqb d d' then 0 else 1) + modified)
      else
        let? rest := update_docs filter upd budget r in
        let '(ds, matched, modified) := rest in
        Ok (d :: ds, matched, modified)
  end.

Definition run_update (budget : option nat) (mk : collection -> value -> value -> value -> call)
    (c : collection) (filter upd upsert : value)
  : state -> outcome update_result * state :=
  guarded (mk c filter upd upsert) (fun b =>
    match update_docs filter upd budget (documents (store b) c) with
    | Raise e => (Raise e, b)
    | Ok (docs, matched, modified) =>
        if (matched =? 0) && truthy upsert then
          match eval_update sem upd (VDict []) with
          | Raise e => (Raise e, b)
          | Ok d =>
              let i := VObjectId (oid_bytes (next_oid b)) in
              let d' := match d with
                        | VDict items => VDict (items ++ [("_id", i)])
                        | _ => d
                        end in
              (Ok {| matched_count := 0; modified_count := 0; upserted_id := i |},
               {| store := put_documents (store b) c (docs ++ [d']);
                  next_handle := next_handle b; next_oid := next_oid b + 1;
                  fault_connect := fault_connect b; fault_call := fault_call b |})
          end
        else
          (Ok {| matched_count := matched; modified_count := modified;
                 upserted_id := VNone |},
           set_store b (put_documents (store b) c docs))
    end).

(** Remove the first selected document. *)
Fixpoint remove_first (filter : value) (docs : list value) : list value * Z :=
  match docs with
  | [] => ([], 0)
  | d :: r =>
      if selects filter d then (r, 1)
      else let '(r', n) := remove_first filter r in (d :: r', n)
  end.

Definition run_delete_one (c : collection) (filter : value)
  : state -> outcome Z * state :=
  guarded (CDeleteOne c filter) (fun b =>
    let '(docs, n) := remove_first filter (documents (store b) c) in
    (Ok n, set_store b (put_documents (store b) c docs))).

Definition run_delete_many (c : collection) (filter : value)
  : state -> outcome Z * state :=
  guarded (CDeleteMany c filter) (fun b =>
    let docs := documents (store b) c in
    let kept := List.filter (fun d => negb (selects filter d)) docs in
    (Ok (Z.of_nat (List.length docs - List.length kept)),
     set_store b (put_documents (store b) c kept))).

Definition count_of (c : collection) : state -> outcome Z * state :=
  guarded (CEstimatedDocumentCount c) (fun b =>
    (Ok (Z.of_nat (List.length (documents (store b) c))), b)).

Definition indexes_of (c : collection) : state -> outcome (list value) * state :=
  guarded (CListIndexes c) (fun b =>
    (Ok [VDict [("v", VInt 2); ("key", VDict [("_id", VInt 1)]); ("name", VStr "_id_")]],
     b)).

(** The in-memory driver decodes no tagged document beyond the forms of
    the codec. *)
Definition other_form (doc : dict) : outcome value :=
  Raise (OtherException "tagged document in a form the in-memory driver does not decode").

Definition driver : Driver :=
  {| backend := state;
     ObjectId_new := oid_bytes 0;
     object_hook_other := other_form;
     MongoClient := connect;
     database_name := database_init;
     collection_name := collection_init;
     client_list_databases := databases_of;
     database_list_collection_names := collections_of;
     database_command := run_db_command;
     cursor_list := list_cursor;
     collection_aggregate := run_aggregate;
     collection_insert_many := run_insert_many;
     collection_update_one := run_update (Some 1%nat) CUpdateOne;
     collection_update_many := run_update None CUpdateMany;
     collection_delete_one := run_delete_one;
     collection_delete_many := run_delete_many;
     collection_estimated_document_count := count_of;
     collection_list_indexes := indexes_of |}.

End WithSemantics.

(** Filters are conjunctions of equalities on top-level fields; sort
    specifications, projections, update documents, pipelines and commands
    are not supported. *)
Definition field_equal (doc : value) (kv : string * value) : bool :=
  match doc with
  | VDict items =>
      match lookup (fst kv) items with
      | Some v => value_eqb v (snd kv)
      | None => false
      end
  | _ => false
  end.

Definition unsupported {A} : outcome A :=
  Raise (PyMongoError "not supported by the in-memory deployment").

Definition basic : semantics :=
  {| matches := fun f d => match f with
                           | VDict items => forallb (field_equal d) items
                           | _ => false
                           end;
     order := fun _ docs => docs;
     project := fun _ d => d;
     eval_update := fun _ _ => unsupported;
     eval_pipeline := fun _ _ => unsupported;
     eval_command := fun _ _ _ => unsupported |}.

Definition empty : state :=
  {| store := []; next_handle := 0; next_oid := 0;
     fault_connect := None; fault_call := fun _ => None |}.

End Mem.

Arguments view D : clear implicits.

(** ** Vocabulary of the statements *)

(** The answer of the authentication gate. *)
Definition unauthorized : response :=
  {| body := VDict [("error", VStr "Unauthorized - Invalid or missing API key")];
     status := 401 |}.

(** A request carrying the given key (if any) and JSON body. *)
Definition request_with (key : option string) (json : outcome value) : request :=
  {| headers_get := fun name => if String.eqb name "X-API-Key" then key else None;
     get_json := json |}.

(** *** Auxiliary notions for the texts *)

(** [s] writes the number [v] in decimal. *)
Definition writes (s : string) (v : Z) : Prop :=
  forall a t,
    digits_value_from a (s ++ t) =
    digits_value_from (a * 10 ^ Z.of_nat (String.length s) + v) t.

(** The month and the day of the month of the [n]th day of a year,
    counted from zero: the last steps of [_ord2ymd]. *)
Definition month_day (n : Z) (leapyear : bool) : Z * Z :=
  let m := Z.shiftr (n + 50) 5 in
  let preceding := _DAYS_BEFORE_MONTH m + (if (2 <? m) && leapyear then 1 else 0) in
  let '(m, preceding) :=
    if n <? preceding
    then (m - 1,
          preceding - (_DAYS_IN_MONTH (m - 1) + (if (m - 1 =? 2) && leapyear then 1 else 0)))
    else (m, preceding) in
  (m, n - preceding + 1).

Fixpoint all_digits (s : string) : bool :=
  match s with
  | EmptyString => true
  | String c r => is_digit c && all_digits r
  end.

(** Where a run of digits ends. *)
Definition stops (s : string) : bool :=
  match s with
  | EmptyString => true
  | String c _ => negb (is_digit c)
  end.

(** No key of the items starts with a dollar sign. *)
Definition untagged (items : dict) : bool :=
  forallb (fun kv => negb (tag_like (fst kv))) items.


(** Induction on values, through the lists they nest. *)
Section ValueInduction.

Variable P : value -> Prop.
Hypothesis HNone : P VNone.
Hypothesis HBool : forall b, P (VBool b).
Hypothesis HInt : forall n, P (VInt n).
Hypothesis HFloat : forall bits, P (VFloat bits).
Hypothesis HStr : forall s, P (VStr s).
Hypothesis HList : forall xs, Forall P xs -> P (VList xs).
Hypothesis HDict : forall items, Forall (fun kv => P (snd kv)) items -> P (VDict items).
Hypothesis HObjectId : forall b, P (VObjectId b).
Hypothesis HDatetime : forall d, P (VDatetime d).
Hypothesis HBinary : forall subtype data, P (VBinary subtype data).
Hypothesis HRegex : forall pattern flags, P (VRegex pattern flags).
Hypothesis HTimestamp : forall time inc, P (VTimestamp time inc).
Hypothesis HDecimal128 : forall d, P (VDecimal128 d).
Hypothesis HMinKey : P VMinKey.
Hypothesis HMaxKey : P VMaxKey.
Hypothesis HCode : forall code scope,
  match scope with
  | Some items => Forall (fun kv => P (snd kv)) items
  | None => True
  end -> P (VCode code scope).
Hypothesis HDBRef : forall collection id database kwargs,
  P id -> Forall (fun kv => P (snd kv)) kwargs ->
  P (VDBRef collection id database kwargs).

Fixpoint value_induction (v : value) : P v :=
  let all_items :=
    fix all (l : list (string * value)) : Forall (fun kv => P (snd kv)) l :=
      match l with
      | [] => Forall_nil _
      | kv :: r =>
          Forall_cons (P := fun kv => P (snd kv)) kv
            (value_induction (snd kv)) (all r)
      end in
  match v with
  | VNone => HNone
  | VBool b => HBool b
  | VInt n => HInt n
  | VFloat bits => HFloat bits
  | VStr s => HStr s
  | VList xs =>
      HList xs
        ((fix all (l : list value) : Forall P l :=
            match l with
            | [] => Forall_nil P
            | x :: r => Forall_cons x (value_induction x) (all r)
            end) xs)
  | VDict items => HDict items (all_items items)
  | VObjectId b => HObjectId b
  | VDatetime d => HDatetime d
  | VBinary subtype data => HBinary subtype data
  | VRegex pattern flags => HRegex pattern flags
  | VTimestamp time inc => HTimestamp time inc
  | VDecimal128 d => HDecimal128 d
  | VMinKey => HMinKey
  | VMaxKey => HMaxKey
  | VCode code scope =>
      HCode code scope
        match scope with
        | Some items => all_items items
        | None => I
        end
  | VDBRef collection id database kwargs =>
      HDBRef collection id database kwargs (value_induction id) (all_items kwargs)
  end.

End ValueInduction.

(** *** Values the backend hands over

    What the driver decodes from BSON: identifiers of twelve bytes, dates
    of the years 1 to 9999 in whole milliseconds, doubles (of the NaNs,
    only the one that [float("NaN")] denotes), binary subtypes below 256, regular expressions with BSON's six flags, timestamps of
    two unsigned 32-bit numbers, Decimal128 values in canonical encoding
    with the one NaN [str] distinguishes.  And no document uses a key
    that starts with a dollar sign, the prefix of the codec's type tags;
    nor does a [DBRef] carry such a field, or one whose name [DBRef]
    cannot take as a keyword. *)

Fixpoint well_formed (v : value) : bool :=
  match v with
  | VList xs => forallb well_formed xs
  | VDict items =>
      forallb (fun kv => negb (tag_like (fst kv)) && well_formed (snd kv)) items
  | VObjectId b => (List.length b =? 12)%nat
  | VFloat bits =>
      (0 <=? bits) && (bits <? 2 ^ 64) && (negb (isnan bits) || (bits =? float_nan))
  | VDatetime d => valid_datetime d && (microsecond d mod 1000 =? 0)
  | VBinary subtype _ => (0 <=? subtype) && (subtype <? 256)
  | VRegex _ flags => known_flags flags
  | VTimestamp time inc =>
      (0 <=? time) && (time <? 2 ^ 32) && (0 <=? inc) && (inc <? 2 ^ 32)
  | VDecimal128 d => valid_decimal128 d
  | VCode _ scope =>
      match scope with
      | Some items =>
          forallb (fun kv => negb (tag_like (fst kv)) && well_formed (snd kv)) items
      | None => true
      end
  | VDBRef _ id _ kwargs =>
      well_formed id &&
      forallb (fun kv => negb (tag_like (fst kv)) && well_formed (snd kv)) kwargs &&
      negb (existsb (fun kv => reserved (fst kv)) kwargs)
  | _ => true
  end.

(** Encoding with [serialize_response], then decoding with
    [parse_json_extended]. *)
Definition round_trip (D : Driver) (v : value) : outcome value :=
  let? wire := serialize_response v in parse_json_extended D wire.

(** *** Concrete data for the examples *)

Module Examples.

Definition D0 : Driver := Mem.driver Mem.basic.

Definition cfg0 : config := load_config (fun _ => None) "s3cret".

Definition five_documents : list value :=
  map (fun i => VDict [("_id", VObjectId (Mem.oid_bytes i)); ("n", VInt (Z.of_N i))])
    [1; 2; 3; 4; 5]%N.

Definition deployment : Mem.state :=
  Mem.set_store Mem.empty [(("d", "c"), five_documents)].

Definition w0 : world D0 := startup D0 deployment.

(** A document whose field holds a sub-document with the key ["$oid"]
    and a string value.  MongoDB stores such documents since version
    5.0, and a [$literal] stage of a pipeline yields them on any
    version. *)
Definition tagged_document : value :=
  VDict [("a", VDict [("$oid", VStr "0123456789abcdef01234567")])].

(** A document with a value of each type the driver decodes. *)
Definition typed_document : value :=
  VDict [("_id", VObjectId (Mem.oid_bytes 7));
         ("at", VDatetime {| year := 2023; month := 11; day := 14;
                             hour := 22; minute := 13; second := 20;
                             microsecond := 5000 |});
         ("born", VDatetime {| year := 1969; month := 7; day := 20;
                               hour := 20; minute := 17; second := 40;
                               microsecond := 0 |});
         ("ratio", VFloat 4609434218613702656);
         ("bound", VFloat float_neg_inf);
         ("undefined", VFloat float_nan);
         ("blob", VBinary 0 [x00; xff; x10]);
         ("uuid", VBinary 4 [x01; x02]);
         ("match", VRegex "^a.*z$" 10);
         ("ts", VTimestamp 1700000000 3);
         ("price", VDecimal128 (DFinite false 1999 (-2)));
         ("low", VMinKey); ("high", VMaxKey);
         ("fn", VCode "function() { return x; }" (Some [("x", VInt 1)]));
         ("ref", VDBRef "users" (VObjectId (Mem.oid_bytes 8)) (Some "app") []);
         ("tags", VList [VStr "a"; VNone; VBool true; VInt (-3)])].

End Examples.

(** *** Traces *)

Definition client_of (c : call) : handle :=
  match c with
  | CListDatabases h => h
  | CListCollectionNames db => db_client db
  | CCommand db _ _ => db_client db
  | CFind cur => db_client (coll_database (cur_collection cur))
  | CAggregate coll _ => db_client (coll_database coll)
  | CInsertMany coll _ _ => db_client (coll_database coll)
  | CUpdateOne coll _ _ _ => db_client (coll_database coll)
  | CUpdateMany coll _ _ _ => db_client (coll_database coll)
  | CDeleteOne coll _ => db_client (coll_database coll)
  | CDeleteMany coll _ => db_client (coll_database coll)
  | CEstimatedDocumentCount coll => db_client (coll_database coll)
  | CListIndexes coll => db_client (coll_database coll)
  end.

(** The handles created by the [MongoClient] constructions of a trace. *)
Fixpoint initializations (t : list event) : list handle :=
  match t with
  | [] => []
  | EConnect _ (Ok h) :: r => h :: initializations r
  | _ :: r => initializations r
  end.

Definition by_client (h : handle) (ev : event) : Prop :=
  match ev with
  | ECall c _ => client_of c = h
  | EConnect _ _ => True
  end.

Definition no_call (ev : event) : Prop :=
  match ev with
  | ECall _ _ => False
  | EConnect _ _ => True
  end.

Definition failed (ev : event) : bool :=
  match ev with
  | EConnect _ (Raise _) => true
  | ECall _ (Some _) => true
  | _ => false
  end.

Definition is_collStats (ev : event) : bool :=
  match ev with
  | ECall (CCommand _ (VStr "collStats") _) _ => true
  | _ => false
  end.

Section Assertions.

Context {D : Driver}.

(** The connection handle is a singleton: as long as [_client] is unset
    no client was created and no operation was performed; once it is
    set, exactly one client was created, it is the one in [_client], and
    every operation went through it. *)
Definition singleton_client (w : world D) : Prop :=
  match _client w with
  | Some h => initializations (calls w) = [h] /\ Forall (by_client h) (calls w)
  | None => initializations (calls w) = [] /\ Forall no_call (calls w)
  end.

Definition holding (oh : option handle) (w : world D) : Prop :=
  singleton_client w /\
  match oh with
  | Some h => _client w = Some h
  | None => True
  end.

(** [m] keeps the singleton, given that it only uses the handle [oh]. *)
Definition safe {A} (oh : option handle) (m : M D A) : Prop :=
  forall w, holding oh w -> holding oh (snd (m w)).

(** [m] only appends to the trace, and when it returns normally every
    event it appended is [good]. *)
Definition quiet {A} (good : event -> Prop) (m : M D A) : Prop :=
  forall w, exists d,
    calls (snd (m w)) = (calls w ++ d)%list /\
    (forall a, fst (m w) = Ok a -> Forall good d).

(** The same for a view, where success is the status 200. *)
Definition reports (good : event -> Prop) (m : M D response) : Prop :=
  forall w, exists d,
    calls (snd (m w)) = (calls w ++ d)%list /\
    (forall resp, fst (m w) = Ok resp -> status resp = 200 -> Forall good d).

End Assertions.

(** Which failed calls a successful answer of the endpoint may hide. *)
Definition tolerated (ep : endpoint) (ev : event) : Prop :=
  failed ev = true ->
  is_collStats ev = true /\ exists db, ep = list_collections_ep db.

(** The entries of a collection listing, against the names listed and
    the [collStats] calls made: one entry per name, in order, bare when
    the call failed. *)
Inductive listing (database : database)
  : list string -> list event -> list value -> Prop :=
| listing_nil : listing database [] [] []
| listing_bare name e names evs entries :
    listing database names evs entries ->
    listing database (name :: names)
      (ECall (CCommand database (VStr "collStats") (VStr name)) (Some e) :: evs)
      (VDict [("name", VStr name)] :: entries)
| listing_stats name count size avg names evs entries :
    listing database names evs entries ->
    listing database (name :: names)
      (ECall (CCommand database (VStr "collStats") (VStr name)) None :: evs)
      (VDict [("name", VStr name); ("count", count); ("size", size);
              ("avgObjSize", avg)] :: entries).

(** Requests served one after the other. *)
Fixpoint serve (D : Driver) (cfg : config) (reqs : list (endpoint * request))
    (w : world D) : list response * world D :=
  match reqs with
  | [] => ([], w)
  | (ep, req) :: r =>
      let '(resp, w') := dispatch_request D cfg ep req w in
      let '(resps, w'') := serve D cfg r w' in
      (resp :: resps, w'')
  end.

(** *** Threads inside [get_client]

    The server runs one thread per request ([threaded=True]).  A thread
    inside [get_client] is at one of the points below; a step of a
    thread is one statement, and a schedule names the thread that takes
    each step. *)
Inductive pc : Type :=
| at_test                          (* if _client is None: *)
| at_construct                     (* MongoClient(MONGO_URI) *)
| at_assign (h : handle)           (* _client = <the new client> *)
| at_return                        (* return _client *)
| returned (r : option handle)
| raised (e : exn).

Definition thread_step (D : Driver) (cfg : config) (p : pc) (w : world D)
  : pc * world D :=
  match p with
  | at_test =>
      match _client w with
      | None => (at_construct, w)
      | Some _ => (at_return, w)
      end
  | at_construct =>
      let rb := MongoClient D (MONGO_URI cfg) (mongo w) in
      (match fst rb with Ok h => at_assign h | Raise e => raised e end,
       {| _client := _client w; mongo := snd rb;
          calls := calls w ++ [EConnect (MONGO_URI cfg) (fst rb)] |})
  | at_assign h =>
      (at_return, {| _client := Some h; mongo := mongo w; calls := calls w |})
  | at_return => (returned (_client w), w)
  | returned _ | raised _ => (p, w)
  end.

Fixpoint set_nth {A} (i : nat) (x : A) (l : list A) : list A :=
  match l, i with
  | [], _ => []
  | _ :: r, O => x :: r
  | y :: r, S j => y :: set_nth j x r
  end.

Fixpoint interleave (D : Driver) (cfg : config) (schedule : list nat)
    (threads : list pc) (w : world D) : list pc * world D :=
  match schedule with
  | [] => (threads, w)
  | i :: r =>
      let '(p, w') := thread_step D cfg (nth i threads (returned None)) w in
      interleave D cfg r (set_nth i p threads) w'
  end.

Module ListingExample.

(** A database with a collection [c] and a view [v]; [collStats] fails
    on the view. *)
Definition fails_on_view (c : call) : option exn :=
  match c with
  | CCommand _ (VStr "collStats") (VStr "v") =>
      Some (PyMongoError "Namespace d.v is a view, not a collection")
  | _ => None
  end.

Definition listing_deployment : Mem.state :=
  {| Mem.store := [(("d", "c"), Examples.five_documents); (("d", "v"), [])];
     Mem.next_handle := 0;
     Mem.next_oid := 0;
     Mem.fault_connect := None;
     Mem.fault_call := fails_on_view |}.

Definition listing_world : world Examples.D0 :=
  startup Examples.D0 listing_deployment.

Definition listing_db : database := {| db_client := 0%nat; db_name := "d" |}.

Definition listing_request : request := request_with (Some "s3cret") (Ok VNone).

End ListingExample.

(** *** What the theorems need of the driver *)

(** A cursor with a non-zero limit [n] yields at most [|n|] documents. *)
Definition limit_respected (D : Driver) : Prop :=
  forall (cur : cursor) (b b' : backend D) (docs : list value) (n : Z),
    cursor_list D cur b = (Ok docs, b') ->
    cur_limit cur = VInt n ->
    n <> 0 ->
    Z.of_nat (List.length docs) <= Z.abs n.

(** [delete_one] deletes at most one document. *)
Definition delete_one_single (D : Driver) : Prop :=
  forall (c : collection) (filter : value) (b b' : backend D) (n : Z),
    collection_delete_one D c filter b = (Ok n, b') -> 0 <= n <= 1.

(** The limit in force for a request body: the [limit] field, 100 when
    it is missing; a limit of [0] is no limit, and the server takes a
    negative limit for its absolute value. *)
Definition effective_limit (data : value) : option Z :=
  match py_get data "limit" (VInt 100) with
  | Ok (VInt n) => if n =? 0 then None else Some (Z.abs n)
  | _ => None
  end.

(** [POST /query {"database":"d","collection":"c","filter":{},"limit":2}] *)
Definition scenario_query : value :=
  VDict [("database", VStr "d"); ("collection", VStr "c");
         ("filter", VDict []); ("limit", VInt 2)].

(** *** The [try] block of each view, and the name in its second
    [except] clause (the four GET views have only the first clause). *)

Definition try_block (D : Driver) (cfg : config) (ep : endpoint) (req : request)
  : M D response :=
  match ep with
  | index_ep => index D req
  | list_databases_ep => list_databases_try D cfg
  | list_collections_ep db => list_collections_try D cfg db
  | query_ep => query_try D cfg req
  | aggregate_ep => aggregate_try D cfg req
  | insert_ep => insert_try D cfg req
  | update_ep => update_try D cfg req
  | delete_ep => delete_try D cfg req
  | run_command_ep => run_command_try D cfg req
  | count_documents_ep db collection => count_documents_try D cfg db collection
  | list_indexes_ep db collection => list_indexes_try D cfg db collection
  | sample_ep => sample_try D cfg req
  end.

Definition operation_name (ep : endpoint) : option string :=
  match ep with
  | query_ep => Some "Query"
  | aggregate_ep => Some "Aggregation"
  | insert_ep => Some "Insert"
  | update_ep => Some "Update"
  | delete_ep => Some "Delete"
  | run_command_ep => Some "Command"
  | sample_ep => Some "Sample"
  | _ => None
  end.

Module PortExample.

(** [MONGO_URI] names a port out of range: the constructor of the client
    raises [ValueError], which is not a [PyMongoError]. *)
Definition port_deployment : Mem.state :=
  {| Mem.store := [(("d", "c"), Examples.five_documents)];
     Mem.next_handle := 0;
     Mem.next_oid := 0;
     Mem.fault_connect :=
       Some (OtherException "Port must be an integer between 0 and 65535: '99999'");
     Mem.fault_call := fun _ => None |}.

Definition port_world : world Examples.D0 :=
  startup Examples.D0 port_deployment.

End PortExample.

(** *** Vocabulary for the remaining properties *)

(** The fields the required-field check of a body view tests, and the
    message of its 400 answer. *)
Definition required_fields (ep : endpoint) : list string :=
  match ep with
  | query_ep | aggregate_ep | delete_ep | sample_ep => ["database"; "collection"]
  | insert_ep => ["database"; "collection"; "documents"]
  | update_ep => ["database"; "collection"; "update"]
  | run_command_ep => ["command"]
  | _ => []
  end.

Definition required_message (ep : endpoint) : string :=
  match ep with
  | insert_ep => "database, collection, and documents are required"
  | update_ep => "database, collection, and update are required"
  | run_command_ep => "command is required"
  | _ => "database and collection are required"
  end.

Definition answer_400 (msg : string) : response :=
  {| body := VDict [("error", VStr msg)]; status := 400 |}.

Definition answer_500 (msg : string) : response :=
  {| body := VDict [("error", VStr msg)]; status := 500 |}.

(** An answer is either a success or a JSON error object with one of
    the three error codes. *)
Definition error_object (r : response) : Prop :=
  (status r = 400 \/ status r = 401 \/ status r = 500) /\
  exists msg, body r = VDict [("error", VStr msg)].

(** The driver calls each endpoint may make. *)
Definition permitted (ep : endpoint) (c : call) : bool :=
  match ep, c with
  | list_databases_ep, CListDatabases _ => true
  | list_collections_ep _, CListCollectionNames _ => true
  | list_collections_ep _, CCommand _ (VStr "collStats") (VStr _) => true
  | query_ep, CFind _ => true
  | aggregate_ep, CAggregate _ _ => true
  | insert_ep, CInsertMany _ _ _ => true
  | update_ep, CUpdateOne _ _ _ _ => true
  | update_ep, CUpdateMany _ _ _ _ => true
  | delete_ep, CDeleteOne _ _ => true
  | delete_ep, CDeleteMany _ _ => true
  | run_command_ep, CCommand _ _ (VInt 1) => true
  | count_documents_ep _ _, CEstimatedDocumentCount _ => true
  | list_indexes_ep _ _, CListIndexes _ => true
  | sample_ep, CAggregate _ (VList [VDict [("$sample", VDict [("size", _)])]]) => true
  | _, _ => false
  end.

Definition allowed (ep : endpoint) (ev : event) : Prop :=
  match ev with
  | EConnect _ _ => ep <> index_ep
  | ECall c _ => permitted ep c = true
  end.

Section MoreAssertions.

Context {D : Driver}.

(** [m] only appends [good] events to the trace, however it ends. *)
Definition emits {A} (good : event -> Prop) (m : M D A) : Prop :=
  forall w, exists d,
    calls (snd (m w)) = (calls w ++ d)%list /\ Forall good d.

(** When [m] returns an answer that is not a success, the answer is an
    error object. *)
Definition answers (m : M D response) : Prop :=
  forall w resp w',
    m w = (Ok resp, w') -> status resp = 200 \/ error_object resp.

End MoreAssertions.

(** The entry [list_databases] builds for a database that has a name. *)
Definition named_entry (db_info : dict) : value :=
  VDict [("name", dict_get db_info "name" VNone);
         ("sizeOnDisk", dict_get db_info "sizeOnDisk" VNone);
         ("empty", dict_get db_info "empty" (VBool false))].

Module MoreExamples.

(** A deployment whose server cannot be reached. *)
Definition unreachable : Mem.state :=
  {| Mem.store := [];
     Mem.next_handle := 0;
     Mem.next_oid := 0;
     Mem.fault_connect := Some (PyMongoError "localhost:27017: Connection refused");
     Mem.fault_call := fun _ => None |}.

Definition unreachable_world : world Examples.D0 :=
  startup Examples.D0 unreachable.

(** A filter with a malformed identifier. *)
Definition bad_filter_query : value :=
  VDict [("database", VStr "d"); ("collection", VStr "c");
         ("filter", VDict [("_id", VDict [("$oid", VStr "xyz")])])].

(** A delete whose [many] is the string ["false"]. *)
Definition delete_many_string : value :=
  VDict [("database", VStr "d"); ("collection", VStr "c");
         ("many", VStr "false")].

End MoreExamples.

(** * Properties *)

(** ** The authentication gate *)

Lemma API_KEY_nonempty (environ : string -> option string) (token : string) :
  token <> EmptyString ->
  String.eqb (API_KEY (load_config environ token)) EmptyString = false.
Proof.
  intros Htok. unfold load_config; simpl.
  destruct (environ "API_KEY") as [k|].
  - destruct (String.eqb k EmptyString) eqn:E.
    + now apply String.eqb_neq.
    + exact E.
  - now apply String.eqb_neq.
Qed.

(** C1.  On every protected endpoint, a request whose [X-API-Key] header
    is absent or differs from the credential is answered 401 with an
    error object; the answer does not depend on the wrapped view (which
    therefore does not run) and the world, hence the trace of driver
    calls, is unchanged.  A request carrying the credential is handed to
    the view as it is. *)
Theorem require_api_key_gate
    (D : Driver) (environ : string -> option string) (token : string)
    (ep : endpoint) (req : request) (w : world D) :
  token <> EmptyString ->
  protected ep = true ->
  let cfg := load_config environ token in
  ((headers_get req "X-API-Key" = None \/
    (exists k, headers_get req "X-API-Key" = Some k /\ k <> API_KEY cfg)) ->
   (forall f : view D, require_api_key D cfg f req w = (Ok unauthorized, w)) /\
   dispatch_request D cfg ep req w = (unauthorized, w) /\
   status unauthorized = 401 /\
   (exists msg, body unauthorized = VDict [("error", VStr msg)])) /\
  (headers_get req "X-API-Key" = Some (API_KEY cfg) ->
   forall f : view D, require_api_key D cfg f req w = f req w) /\
  (headers_get req "X-API-Key" = Some (API_KEY cfg) ->
   view_function D cfg ep req w = handler D cfg ep req w).
Proof.
  intros Htok Hprot cfg.
  assert (Hgate : headers_get req "X-API-Key" = None \/
                  (exists k, headers_get req "X-API-Key" = Some k /\ k <> API_KEY cfg) ->
                  forall f : view D, require_api_key D cfg f req w = (Ok unauthorized, w)).
  { intros Hbad f. unfold require_api_key.
    destruct Hbad as [Hnone | [k [Hk Hne]]].
    - rewrite Hnone. reflexivity.
    - rewrite Hk. apply String.eqb_neq in Hne. rewrite Hne.
      rewrite orb_true_r. reflexivity. }
  assert (Hpass : headers_get req "X-API-Key" = Some (API_KEY cfg) ->
                  forall f : view D, require_api_key D cfg f req w = f req w).
  { intros Hk f. unfold require_api_key. rewrite Hk.
    subst cfg. rewrite (API_KEY_nonempty environ token Htok).
    rewrite String.eqb_refl. reflexivity. }
  split; [|split].
  - intros Hbad. split; [exact (Hgate Hbad)|]. split; [|split].
    + unfold dispatch_request, view_function. rewrite Hprot.
      rewrite (Hgate Hbad). reflexivity.
    + reflexivity.
    + eexists. reflexivity.
  - exact Hpass.
  - intros Hk. unfold view_function. rewrite Hprot. apply Hpass, Hk.
Qed.

(** A request with a wrong key, on [/query]. *)
Lemma require_api_key_gate_witness :
  "s3cret" <> EmptyString /\
  protected query_ep = true /\
  dispatch_request Examples.D0 Examples.cfg0 query_ep
    (request_with (Some "guess") (Ok VNone)) Examples.w0 =
  (unauthorized, Examples.w0).
Proof.
  split; [discriminate|]. split; [reflexivity|].
  refine (proj1 (proj2 (proj1
    (require_api_key_gate Examples.D0 (fun _ => None) "s3cret" query_ep
       (request_with (Some "guess") (Ok VNone)) Examples.w0 _ _) _))).
  - discriminate.
  - reflexivity.
  - right. exists "guess". split; [reflexivity | discriminate].
Defined.

(** ** Text forms *)

Lemma forallb_range (P : Z -> bool) (lo : Z) (n : nat) :
  forallb P (range lo n) = true ->
  forall z, lo <= z < lo + Z.of_nat n -> P z = true.
Proof.
  intros H z Hz. rewrite forallb_forall in H. apply H.
  unfold range. apply in_map_iff. exists (Z.to_nat (z - lo)). split; [lia|].
  apply in_seq. lia.
Qed.

Lemma append_assoc (a b c : string) : (a ++ b) ++ c = a ++ (b ++ c).
Proof. induction a as [|x a IH]; cbn; [reflexivity | now rewrite IH]. Qed.

Lemma append_nil_r (a : string) : a ++ EmptyString = a.
Proof. induction a as [|x a IH]; cbn; [reflexivity | now rewrite IH]. Qed.

Lemma length_append (a b : string) :
  String.length (a ++ b) = (String.length a + String.length b)%nat.
Proof. induction a as [|x a IH]; cbn; [reflexivity | now rewrite IH]. Qed.

Lemma undigit_digit (d : Z) : 0 <= d <= 9 -> undigit (digit d) = Some d.
Proof.
  intros Hd.
  assert (H : forallb (fun d => match undigit (digit d) with
                                | Some d' => d' =? d
                                | None => false
                                end) (range 0 10) = true) by (vm_compute; reflexivity).
  pose proof (forallb_range _ _ _ H d ltac:(cbn; lia)) as Hc. cbn beta in Hc.
  destruct (undigit (digit d)); [apply Z.eqb_eq in Hc; now subst | discriminate].
Qed.

Lemma undigit_range (c : ascii) (d : Z) : undigit c = Some d -> 0 <= d <= 9.
Proof.
  unfold undigit. destruct (_ && _) eqn:E; [|discriminate].
  intros [= <-]. lia.
Qed.

Lemma is_digit_digit (d : Z) : 0 <= d <= 9 -> is_digit (digit d) = true.
Proof. intros H. unfold is_digit. now rewrite undigit_digit. Qed.

Lemma split_at_app (a rest : string) :
  split_at (String.length a) (a ++ rest) = Some (a, rest).
Proof. induction a as [|x a IH]; cbn; [reflexivity | now rewrite IH]. Qed.

Lemma field_app (w : nat) (a rest : string) (n : Z) :
  String.length a = w -> digits_value a = Some n ->
  field w (a ++ rest) = Some (n, rest).
Proof. intros <- Hn. unfold field. now rewrite split_at_app, Hn. Qed.

Lemma writes_nil : writes EmptyString 0.
Proof. intros a t. cbn. f_equal. lia. Qed.

Lemma writes_cons (d : Z) (s : string) (v : Z) :
  0 <= d <= 9 -> writes s v ->
  writes (String (digit d) s) (d * 10 ^ Z.of_nat (String.length s) + v).
Proof.
  intros Hd Hs a t. cbn [append digits_value_from String.length].
  rewrite undigit_digit by assumption. rewrite Hs. f_equal.
  rewrite Nat2Z.inj_succ, Z.pow_succ_r by lia. ring.
Qed.

Lemma writes_digits_from (fuel : nat) :
  forall n acc m,
    0 <= n < 2 ^ Z.of_nat fuel -> (0 < fuel)%nat -> writes acc m ->
    writes (digits_from fuel n acc) (n * 10 ^ Z.of_nat (String.length acc) + m).
Proof.
  induction fuel as [|fuel IH]; intros n acc m Hn Hf Hacc; [lia|].
  cbn [digits_from].
  assert (Hmod : 0 <= n mod 10 <= 9) by (pose proof (Z.mod_pos_bound n 10); lia).
  pose proof (writes_cons _ _ _ Hmod Hacc) as Hw.
  destruct (n <? 10) eqn:E.
  - apply Z.ltb_lt in E. rewrite (Z.mod_small n 10) in * by lia. exact Hw.
  - apply Z.ltb_ge in E.
    assert (Hfuel : (0 < fuel)%nat).
    { destruct fuel; [|lia]. cbn in Hn. lia. }
    assert (Hdiv : 0 <= n / 10 < 2 ^ Z.of_nat fuel).
    { rewrite Nat2Z.inj_succ, Z.pow_succ_r in Hn by lia.
      split; [apply Z.div_pos; lia|].
      apply Z.div_lt_upper_bound; lia. }
    pose proof (IH (n / 10) _ _ Hdiv Hfuel Hw) as H.
    cbn [String.length] in H. rewrite Nat2Z.inj_succ, Z.pow_succ_r in H by lia.
    replace (n * 10 ^ Z.of_nat (String.length acc) + m)
      with (n / 10 * (10 * 10 ^ Z.of_nat (String.length acc)) +
            (n mod 10 * 10 ^ Z.of_nat (String.length acc) + m)); [exact H|].
    rewrite (Z.div_mod n 10) at 3 by lia. ring.
Qed.

Lemma writes_str_nat (n : Z) : 0 <= n -> writes (str_nat n) n.
Proof.
  intros Hn. unfold str_nat.
  replace n with (n * 10 ^ Z.of_nat (String.length EmptyString) + 0) at 3
    by (cbn; lia).
  apply writes_digits_from; [|lia|apply writes_nil].
  split; [assumption|].
  rewrite Nat2Z.inj_succ, Z2Nat.id by apply Z.log2_nonneg.
  destruct (Z.eq_dec n 0) as [->|Hz]; [cbn; lia|].
  apply Z.log2_spec. lia.
Qed.

Lemma digits_from_nonempty (fuel : nat) (n : Z) (acc : string) :
  (0 < fuel)%nat -> exists c r, digits_from fuel n acc = String c r /\ is_digit c = true.
Proof.
  revert n acc. induction fuel as [|fuel IH]; intros n acc Hf; [lia|].
  cbn [digits_from].
  assert (Hmod : 0 <= n mod 10 <= 9) by (pose proof (Z.mod_pos_bound n 10); lia).
  destruct (n <? 10) eqn:E.
  - eexists _, _. split; [reflexivity|]. now apply is_digit_digit.
  - destruct fuel as [|fuel].
    + cbn. eexists _, _. split; [reflexivity|]. now apply is_digit_digit.
    + apply IH. lia.
Qed.

Lemma str_nat_head (n : Z) : exists c r, str_nat n = String c r /\ is_digit c = true.
Proof. apply digits_from_nonempty. lia. Qed.

Lemma digits_value_str_nat (n : Z) : 0 <= n -> digits_value (str_nat n) = Some n.
Proof.
  intros Hn. destruct (str_nat_head n) as (c & r & E & _).
  unfold digits_value. rewrite E. rewrite <- E.
  pose proof (writes_str_nat n Hn 0 EmptyString) as H.
  rewrite append_nil_r in H. rewrite H. cbn [digits_value_from]. f_equal; lia.
Qed.

Lemma is_digit_not_minus (c : ascii) : is_digit c = true -> c <> "-"%char.
Proof. intros H ->. discriminate. Qed.

Lemma int_of_str_str_nat (n : Z) : 0 <= n -> int_of_str (str_nat n) = Some n.
Proof.
  intros Hn. destruct (str_nat_head n) as (c & r & E & Hc).
  pose proof (digits_value_str_nat n Hn) as Hv. rewrite E in Hv |- *.
  unfold int_of_str.
  destruct c as [[|] [|] [|] [|] [|] [|] [|] [|]]; try exact Hv; discriminate.
Qed.

(** [int(str(n)) == n] *)
Lemma int_of_str_str_int (n : Z) : int_of_str (str_int n) = Some n.
Proof.
  unfold str_int. destruct (n <? 0) eqn:E.
  - apply Z.ltb_lt in E. cbn [int_of_str].
    rewrite digits_value_str_nat by lia. cbn. f_equal. lia.
  - apply Z.ltb_ge in E. now apply int_of_str_str_nat.
Qed.

Lemma zero_padded_2 (n : Z) :
  0 <= n < 100 ->
  String.length (zero_padded 2 n) = 2%nat /\ digits_value (zero_padded 2 n) = Some n.
Proof.
  intros Hn.
  assert (H : forallb (fun n => (String.length (zero_padded 2 n) =? 2)%nat &&
                                match digits_value (zero_padded 2 n) with
                                | Some v => v =? n
                                | None => false
                                end) (range 0 100) = true) by (vm_compute; reflexivity).
  pose proof (forallb_range _ _ _ H n ltac:(cbn; lia)) as Hc. cbn beta in Hc.
  apply andb_true_iff in Hc. destruct Hc as [Hl Hv]. apply Nat.eqb_eq in Hl.
  split; [assumption|].
  destruct (digits_value (zero_padded 2 n)); [apply Z.eqb_eq in Hv; now subst | discriminate].
Qed.

Lemma zero_padded_3 (n : Z) :
  0 <= n < 1000 ->
  String.length (zero_padded 3 n) = 3%nat /\ digits_value (zero_padded 3 n) = Some n.
Proof.
  intros Hn.
  assert (H : forallb (fun n => (String.length (zero_padded 3 n) =? 3)%nat &&
                                match digits_value (zero_padded 3 n) with
                                | Some v => v =? n
                                | None => false
                                end) (range 0 1000) = true) by (vm_compute; reflexivity).
  pose proof (forallb_range _ _ _ H n ltac:(cbn; lia)) as Hc. cbn beta in Hc.
  apply andb_true_iff in Hc. destruct Hc as [Hl Hv]. apply Nat.eqb_eq in Hl.
  split; [assumption|].
  destruct (digits_value (zero_padded 3 n)); [apply Z.eqb_eq in Hv; now subst | discriminate].
Qed.

Lemma str_nat_4 (n : Z) :
  1000 <= n <= 9999 -> String.length (str_nat n) = 4%nat.
Proof.
  intros Hn. unfold str_nat.
  assert (Hlog : 9 <= Z.log2 n) by (apply Z.log2_le_pow2; [lia | change (2 ^ 9) with 512; lia]).
  remember (Z.to_nat (Z.log2 n)) as fuel eqn:Ef.
  assert (Hfuel : (9 <= fuel)%nat) by lia. clear Ef Hlog.
  do 3 (destruct fuel as [|fuel]; [lia|]).
  assert (H1 : (n <? 10) = false) by (apply Z.ltb_ge; lia).
  assert (H2 : (n / 10 <? 10) = false) by (apply Z.ltb_ge; Z.div_mod_to_equations; lia).
  assert (H3 : (n / 10 / 10 <? 10) = false) by (apply Z.ltb_ge; Z.div_mod_to_equations; lia).
  assert (H4 : (n / 10 / 10 / 10 <? 10) = true) by (apply Z.ltb_lt; Z.div_mod_to_equations; lia).
  cbn [digits_from]. now rewrite H1, H2, H3, H4.
Qed.

(** ** Dates *)

Lemma tuple_ge_pointwise (a b : list Z) :
  Forall2 Z.le b a -> tuple_ge a b = true.
Proof.
  intros H. induction H as [|y x b a Hxy _ IH]; [reflexivity|].
  cbn [tuple_ge]. destruct (Z.ltb_spec y x); [reflexivity|].
  assert (E : x = y) by lia. subst. now rewrite Z.eqb_refl, IH.
Qed.

Lemma since_epoch_year (d : datetime) :
  valid_datetime d = true -> since_epoch d = (1970 <=? year d).
Proof.
  unfold valid_datetime, since_epoch. intros H.
  repeat (apply andb_true_iff in H; destruct H as [H ?]).
  repeat match goal with
         | H : (_ <=? _) = true |- _ => apply Z.leb_le in H
         | H : (_ <? _) = true |- _ => apply Z.ltb_lt in H
         end.
  destruct (Z.leb_spec 1970 (year d)) as [E|E].
  - apply tuple_ge_pointwise. repeat constructor; lia.
  - cbn [tuple_ge].
    assert (Hlt : (1970 <? year d) = false) by (apply Z.ltb_ge; lia).
    assert (Hne : (year d =? 1970) = false) by (apply Z.eqb_neq; lia).
    now rewrite Hlt, Hne.
Qed.

Lemma days_in_month_bound (y m : Z) : _days_in_month y m <= 31.
Proof.
  unfold _days_in_month, _DAYS_IN_MONTH.
  destruct ((m =? 2) && _is_leap y); [lia|].
  destruct m as [|p|p]; try lia.
  repeat match goal with q : positive |- _ => destruct q; try lia end.
Qed.

(** json_util reads back the text it writes for a date. *)
Lemma parse_isoformat_isoformat (d : datetime) :
  valid_datetime d = true -> 1000 <= year d -> microsecond d mod 1000 = 0 ->
  parse_isoformat (isoformat d) = Some d.
Proof.
  intros Hvalid Hyear Hms. pose proof Hvalid as Hv.
  unfold valid_datetime in Hv.
  repeat (apply andb_true_iff in Hv; destruct Hv as [Hv ?]).
  repeat match goal with
         | H : (_ <=? _) = true |- _ => apply Z.leb_le in H
         | H : (_ <? _) = true |- _ => apply Z.ltb_lt in H
         end.
  pose proof (days_in_month_bound (year d) (month d)) as Hdim.
  destruct (zero_padded_2 (month d) ltac:(lia)) as [Lm Vm].
  destruct (zero_padded_2 (day d) ltac:(lia)) as [Ld Vd].
  destruct (zero_padded_2 (hour d) ltac:(lia)) as [Lh Vh].
  destruct (zero_padded_2 (minute d) ltac:(lia)) as [Li Vi].
  destruct (zero_padded_2 (second d) ltac:(lia)) as [Ls Vs].
  pose proof (str_nat_4 (year d) ltac:(lia)) as Ly.
  pose proof (digits_value_str_nat (year d) ltac:(lia)) as Vy.
  unfold parse_isoformat, isoformat, strftime.
  repeat rewrite append_assoc.
  rewrite (field_app 4 _ _ _ Ly Vy). cbn [and_then append literal Ascii.eqb Bool.eqb].
  rewrite (field_app 2 _ _ _ Lm Vm). cbn [and_then append literal Ascii.eqb Bool.eqb].
  rewrite (field_app 2 _ _ _ Ld Vd). cbn [and_then append literal Ascii.eqb Bool.eqb].
  rewrite (field_app 2 _ _ _ Lh Vh). cbn [and_then append literal Ascii.eqb Bool.eqb].
  rewrite (field_app 2 _ _ _ Li Vi). cbn [and_then append literal Ascii.eqb Bool.eqb].
  rewrite (field_app 2 _ _ _ Ls Vs). cbn [and_then].
  assert (Hq : 0 <= microsecond d / 1000 < 1000).
  { split; [apply Z.div_pos; lia | apply Z.div_lt_upper_bound; lia]. }
  assert (Hus : microsecond d / 1000 * 1000 = microsecond d).
  { pose proof (Z.div_mod (microsecond d) 1000 ltac:(lia)). lia. }
  destruct (microsecond d / 1000 =? 0) eqn:E.
  - apply Z.eqb_eq in E. cbn [append and_then]. rewrite E in Hus.
    replace 0 with (microsecond d) by lia.
    destruct d; cbn in *. now rewrite Hvalid.
  - destruct (zero_padded_3 (microsecond d / 1000) Hq) as [Lf Vf].
    cbn [append]. rewrite (field_app 3 _ _ _ Lf Vf). cbn [and_then]. rewrite Hus.
    destruct d; cbn in *. now rewrite Hvalid.
Qed.

Ltac each_month m :=
  let H := fresh in
  assert (H : m = 1 \/ m = 2 \/ m = 3 \/ m = 4 \/ m = 5 \/ m = 6 \/ m = 7 \/ m = 8 \/
              m = 9 \/ m = 10 \/ m = 11 \/ m = 12) by lia;
  repeat (destruct H as [H|H]); subst m.

Ltac month_tables :=
  cbn [_DAYS_BEFORE_MONTH _DAYS_IN_MONTH Z.ltb Z.eqb Pos.eqb Z.compare Pos.compare
       Pos.compare_cont andb] in *.

Lemma month_day_spec (leap : bool) (m d : Z) :
  1 <= m <= 12 ->
  1 <= d <= (if (m =? 2) && leap then 29 else _DAYS_IN_MONTH m) ->
  month_day (_DAYS_BEFORE_MONTH m + (if (2 <? m) && leap then 1 else 0) + d - 1) leap = (m, d).
Proof.
  intros Hm Hd.
  assert (H : forallb (fun m => forallb (fun d => forallb (fun leap =>
                negb (d <=? (if (m =? 2) && leap then 29 else _DAYS_IN_MONTH m)) ||
                (let '(m', d') :=
                   month_day (_DAYS_BEFORE_MONTH m + (if (2 <? m) && leap then 1 else 0) + d - 1)
                     leap in
                 (m' =? m) && (d' =? d))) [true; false]) (range 1 31)) (range 1 12) = true)
    by (vm_compute; reflexivity).
  assert (Hd31 : d <= 31).
  { destruct ((m =? 2) && leap); [lia|]. each_month m; month_tables; lia. }
  pose proof (forallb_range _ _ _ H m ltac:(cbn; lia)) as H1. cbn beta in H1.
  pose proof (forallb_range _ _ _ H1 d ltac:(cbn; lia)) as H2. cbn beta in H2.
  rewrite forallb_forall in H2.
  specialize (H2 leap ltac:(destruct leap; cbn; auto)). cbn beta in H2.
  apply orb_true_iff in H2. destruct H2 as [H2|H2].
  - apply negb_true_iff, Z.leb_gt in H2. lia.
  - destruct (month_day _ leap) as [m' d'].
    apply andb_true_iff in H2. destruct H2 as [E1 E2].
    apply Z.eqb_eq in E1, E2. now subst.
Qed.

(** A year counted from zero, split along the cycles of the calendar. *)
Lemma year_cycles (Y : Z) :
  0 <= Y ->
  exists a b c e,
    0 <= a /\ 0 <= b <= 3 /\ 0 <= c <= 24 /\ 0 <= e <= 3 /\
    Y = 400 * a + 100 * b + 4 * c + e /\
    _days_before_year (Y + 1) = 146097 * a + 36524 * b + 1461 * c + 365 * e /\
    _is_leap (Y + 1) = (e =? 3) && (negb (c =? 24) || (b =? 3)).
Proof.
  intros HY.
  exists (Y / 400), (Y mod 400 / 100), (Y mod 100 / 4), (Y mod 4).
  unfold _days_before_year, _is_leap. cbv zeta.
  replace (Y + 1 - 1) with Y by lia.
  repeat split; Z.div_mod_to_equations; lia.
Qed.

Lemma div_mod_offset (n d q r : Z) :
  n = d * q + r -> 0 <= r < d -> n / d = q /\ n mod d = r.
Proof.
  intros -> Hr. split.
  - rewrite Z.mul_comm, Z.add_comm, Z.div_add by lia. rewrite Z.div_small by lia. lia.
  - rewrite Z.mul_comm, Z.add_comm, Z.mod_add by lia. now apply Z.mod_small.
Qed.

(** [_ord2ymd] on the [k]th day of a year. *)
Lemma _ord2ymd_day_of_year (y k : Z) :
  1 <= y -> 0 <= k < 365 + (if _is_leap y then 1 else 0) ->
  _ord2ymd (_days_before_year y + k + 1) =
  (y, fst (month_day k (_is_leap y)), snd (month_day k (_is_leap y))).
Proof.
  intros Hy Hk.
  destruct (year_cycles (y - 1) ltac:(lia)) as (a & b & c & e & Ha & Hb & Hc & He & HY & Hdays & Hleap).
  replace (y - 1 + 1) with y in * by lia.
  rewrite Hdays, Hleap in *. clear Hdays Hleap.
  assert (Ey : y = 400 * a + 100 * b + 4 * c + e + 1) by lia. clear HY.
  unfold _ord2ymd, _DI400Y, _DI100Y, _DI4Y. cbv zeta.
  replace (146097 * a + 36524 * b + 1461 * c + 365 * e + k + 1 - 1)
    with (146097 * a + (36524 * b + 1461 * c + 365 * e + k)) by lia.
  set (leap := (e =? 3) && (negb (c =? 24) || (b =? 3))) in *.
  destruct (Z.eq_dec k 365) as [Ek|Ek].
  - (* the last day of a leap year *)
    assert (Hl : leap = true) by (destruct leap; [reflexivity | lia]).
    subst leap. apply andb_true_iff in Hl. destruct Hl as [E3 Hcb].
    apply Z.eqb_eq in E3. subst e k.
    destruct (Z.eq_dec c 24) as [Ec|Ec].
    + assert (Eb : b = 3).
      { subst c. cbn in Hcb. now apply Z.eqb_eq in Hcb. }
      subst b c.
      destruct (div_mod_offset (146097 * a + (36524 * 3 + 1461 * 24 + 365 * 3 + 365)) 146097 a 146096
                  ltac:(lia) ltac:(lia)) as [-> ->].
      cbn. f_equal. f_equal. lia.
    + destruct (div_mod_offset (146097 * a + (36524 * b + 1461 * c + 365 * 3 + 365)) 146097 a
                  (36524 * b + 1461 * c + 365 * 3 + 365) ltac:(lia) ltac:(lia)) as [-> ->].
      destruct (div_mod_offset (36524 * b + 1461 * c + 365 * 3 + 365) 36524 b
                  (1461 * c + 1460) ltac:(lia) ltac:(lia)) as [-> ->].
      destruct (div_mod_offset (1461 * c + 1460) 1461 c 1460 ltac:(lia) ltac:(lia)) as [-> ->].
      change (1460 / 365) with 4. cbn [Z.eqb orb].
      assert (Hc24 : (c =? 24) = false) by (apply Z.eqb_neq; lia).
      rewrite Hc24. cbn. f_equal. f_equal. lia.
  - assert (Hk' : 0 <= k <= 364) by (destruct leap; lia).
    destruct (div_mod_offset (146097 * a + (36524 * b + 1461 * c + 365 * e + k)) 146097 a
                (36524 * b + 1461 * c + 365 * e + k) ltac:(lia) ltac:(lia)) as [-> ->].
    destruct (div_mod_offset (36524 * b + 1461 * c + 365 * e + k) 36524 b
                (1461 * c + 365 * e + k) ltac:(lia) ltac:(lia)) as [-> ->].
    destruct (div_mod_offset (1461 * c + 365 * e + k) 1461 c (365 * e + k)
                ltac:(lia) ltac:(lia)) as [-> ->].
    destruct (div_mod_offset (365 * e + k) 365 e k ltac:(lia) ltac:(lia)) as [-> ->].
    assert (H4 : (e =? 4) = false) by (apply Z.eqb_neq; lia).
    assert (Hb4 : (b =? 4) = false) by (apply Z.eqb_neq; lia).
    rewrite H4, Hb4. cbn [orb].
    fold leap. unfold month_day. cbv zeta.
    destruct (k <? _) ; cbn [fst snd]; f_equal; f_equal; lia.
Qed.

(** [date.fromordinal(date(y, m, d).toordinal())] *)
Lemma _ord2ymd_ymd2ord (y m d : Z) :
  1 <= y -> 1 <= m <= 12 -> 1 <= d <= _days_in_month y m ->
  _ord2ymd (_ymd2ord y m d) = (y, m, d).
Proof.
  intros Hy Hm Hd. unfold _ymd2ord, _days_before_month, _days_in_month in *.
  pose proof (month_day_spec (_is_leap y) m d Hm Hd) as Hmd.
  set (k := _DAYS_BEFORE_MONTH m + (if (2 <? m) && _is_leap y then 1 else 0) + d - 1) in *.
  replace (_days_before_year y + (_DAYS_BEFORE_MONTH m + (if (2 <? m) && _is_leap y then 1 else 0)) + d)
    with (_days_before_year y + k + 1) by (subst k; lia).
  rewrite _ord2ymd_day_of_year, Hmd; [reflexivity | assumption |].
  subst k. destruct (_is_leap y); each_month m; month_tables; lia.
Qed.

Lemma _ymd2ord_range (y m d : Z) :
  1 <= y <= 9999 -> 1 <= m <= 12 -> 1 <= d <= _days_in_month y m ->
  0 < _ymd2ord y m d <= _MAXORDINAL.
Proof.
  intros Hy Hm Hd.
  destruct (year_cycles (y - 1) ltac:(lia)) as (a & b & c & e & Ha & Hb & Hc & He & HY & Hdays & Hleap).
  replace (y - 1 + 1) with y in * by lia.
  unfold _ymd2ord, _days_before_month, _days_in_month, _MAXORDINAL in *.
  rewrite Hdays, Hleap in *.
  destruct ((e =? 3) && (negb (c =? 24) || (b =? 3))) eqn:El;
    each_month m; month_tables; lia.
Qed.

(** The milliseconds of a date before the epoch give the date back. *)
Lemma _millis_to_datetime_millis (d : datetime) :
  valid_datetime d = true -> microsecond d mod 1000 = 0 ->
  _millis_to_datetime (_datetime_to_millis d) = Some d.
Proof.
  intros Hvalid Hms. pose proof Hvalid as Hv.
  unfold valid_datetime in Hv.
  repeat (apply andb_true_iff in Hv; destruct Hv as [Hv ?]).
  repeat match goal with
         | H : (_ <=? _) = true |- _ => apply Z.leb_le in H
         | H : (_ <? _) = true |- _ => apply Z.ltb_lt in H
         end.
  pose proof (_ord2ymd_ymd2ord (year d) (month d) (day d)) as Hord.
  specialize (Hord ltac:(lia) ltac:(lia) ltac:(lia)).
  pose proof (_ymd2ord_range (year d) (month d) (day d)) as Hrange.
  specialize (Hrange ltac:(lia) ltac:(lia) ltac:(lia)).
  assert (Hday : _ymd2ord (year d) (month d) 1 + day d - 1 = _ymd2ord (year d) (month d) (day d))
    by (unfold _ymd2ord; lia).
  unfold _millis_to_datetime, _datetime_to_millis, timegm, epoch_plus.
  set (n := _ymd2ord (year d) (month d) (day d)) in *.
  replace (_ymd2ord (year d) (month d) 1 - _EPOCH_ORD + day d - 1) with (n - _EPOCH_ORD) by lia.
  set (s := hour d * 3600 + minute d * 60 + second d).
  set (q := microsecond d / 1000).
  assert (Hq : 0 <= q < 1000).
  { subst q. split; [apply Z.div_pos; lia | apply Z.div_lt_upper_bound; lia]. }
  assert (Hus : q * 1000 = microsecond d).
  { subst q. pose proof (Z.div_mod (microsecond d) 1000 ltac:(lia)). lia. }
  replace ((((n - _EPOCH_ORD) * 24 + hour d) * 60 + minute d) * 60 + second d)
    with ((n - _EPOCH_ORD) * 86400 + s) by (subst s; ring).
  assert (Hs : 0 <= s < 86400) by (subst s; lia).
  assert (Hdiff : ((((n - _EPOCH_ORD) * 86400 + s) * 1000 + q) mod 1000 + 1000) mod 1000 = q).
  { rewrite Z.add_comm with (n := ((n - _EPOCH_ORD) * 86400 + s) * 1000).
    rewrite Z.mod_add by lia. rewrite (Z.mod_small q) by lia.
    rewrite <- (Z.mul_1_l 1000) at 1. rewrite Z.mod_add by lia. now apply Z.mod_small. }
  rewrite Hdiff.
  replace (((n - _EPOCH_ORD) * 86400 + s) * 1000 + q - q)
    with (((n - _EPOCH_ORD) * 86400 + s) * 1000) by lia.
  rewrite Z.div_mul by lia.
  rewrite (Z.add_comm ((n - _EPOCH_ORD) * 86400)).
  rewrite Z.div_add, Z.mod_add by lia.
  rewrite (Z.div_small s), (Z.mod_small s) by lia.
  replace (_EPOCH_ORD + (0 + (n - _EPOCH_ORD))) with n by lia.
  assert (Hin : (0 <? n) && (n <=? _MAXORDINAL) = true).
  { apply andb_true_iff. split; [apply Z.ltb_lt | apply Z.leb_le]; unfold _EPOCH_ORD, _MAXORDINAL in *; lia. }
  rewrite Hin, Hord. rewrite Hus.
  assert (Hh : s / 3600 = hour d).
  { subst s. rewrite <- Z.add_assoc, Z.add_comm, Z.div_add by lia.
    rewrite Z.div_small by lia. lia. }
  assert (Hr : s mod 3600 = minute d * 60 + second d).
  { subst s. rewrite <- Z.add_assoc, Z.add_comm, Z.mod_add by lia.
    apply Z.mod_small. lia. }
  rewrite Hh, Hr.
  rewrite (Z.add_comm (minute d * 60)), Z.div_add, Z.mod_add by lia.
  rewrite Z.div_small, Z.mod_small by lia.
  destruct d; reflexivity.
Qed.

(** ** Base64 *)

Lemma byte_value_range (b : byte) : 0 <= byte_value b < 256.
Proof. unfold byte_value. pose proof (Byte.to_N_bounded b). lia. Qed.

Lemma byte_of_value (b : byte) : Byte.of_N (Z.to_N (byte_value b)) = Some b.
Proof. unfold byte_value. rewrite N2Z.id. apply Byte.of_to_N. Qed.

Lemma b64_index_char (n : Z) :
  0 <= n < 64 ->
  b64_index (b64_char n) = Some n /\ Ascii.eqb (b64_char n) "=" = false.
Proof.
  intros Hn.
  assert (H : forallb (fun n => match b64_index (b64_char n) with
                                | Some i => i =? n
                                | None => false
                                end && negb (Ascii.eqb (b64_char n) "=")) (range 0 64) = true)
    by (vm_compute; reflexivity).
  pose proof (forallb_range _ _ _ H n ltac:(cbn; lia)) as Hc. cbn beta in Hc.
  apply andb_true_iff in Hc. destruct Hc as [Hi He].
  apply negb_true_iff in He. split; [|assumption].
  destruct (b64_index (b64_char n)); [apply Z.eqb_eq in Hi; now subst | discriminate].
Qed.

Ltac sextet :=
  match goal with
  | |- context [b64_index (b64_char ?n)] =>
      let H := fresh in
      destruct (b64_index_char n) as [H _];
      [Z.div_mod_to_equations; lia | rewrite H; clear H]
  end.

Ltac not_padding :=
  match goal with
  | |- context [Ascii.eqb (b64_char ?n) "="] =>
      let H := fresh in
      destruct (b64_index_char n) as [_ H];
      [Z.div_mod_to_equations; lia | rewrite H; clear H]
  end.

Ltac octet x :=
  match goal with
  | |- context [Byte.of_N (Z.to_N ?n)] =>
      replace n with (byte_value x) by (Z.div_mod_to_equations; lia);
      rewrite (byte_of_value x)
  end.

(** [base64.b64decode(base64.b64encode(bs)) == bs] *)
Lemma b64decode_b64encode (bs : list byte) : b64decode (b64encode bs) = Some bs.
Proof.
  assert (H : forall n bs, (List.length bs <= n)%nat -> b64decode (b64encode bs) = Some bs).
  { clear bs. induction n as [|n IH]; intros bs Hlen.
    - destruct bs; [reflexivity | cbn in Hlen; lia].
    - destruct bs as [|a [|b [|c r]]]; [reflexivity| | |].
      + pose proof (byte_value_range a).
        cbn [b64encode b64decode]. do 2 sextet. cbn [Ascii.eqb Bool.eqb].
        unfold bytes_of. cbn [fold_right]. now octet a.
      + pose proof (byte_value_range a). pose proof (byte_value_range b).
        cbn [b64encode b64decode]. do 2 sextet. cbn [Ascii.eqb Bool.eqb].
        not_padding. sextet.
        unfold bytes_of. cbn [fold_right]. octet a. now octet b.
      + pose proof (byte_value_range a). pose proof (byte_value_range b).
        pose proof (byte_value_range c).
        cbn [b64encode b64decode]. do 2 sextet. not_padding. do 2 sextet.
        rewrite IH by (cbn in Hlen; lia).
        unfold bytes_of. cbn [fold_right]. octet a. octet b. now octet c. }
  now apply (H (List.length bs)).
Qed.

(** ** Flags of a regular expression *)

Lemma str_flags_to_int_flags_text (flags : Z) :
  known_flags flags = true -> str_flags_to_int (flags_text flags) = flags.
Proof.
  intros H.
  assert (Hall : forallb (fun f => negb (known_flags f) || (str_flags_to_int (flags_text f) =? f))
                   (range 0 128) = true) by (vm_compute; reflexivity).
  pose proof H as Hr. unfold known_flags in Hr.
  repeat (apply andb_true_iff in Hr; destruct Hr as [Hr ?]).
  apply Z.leb_le in Hr.
  match goal with Hlt : (_ <? _) = true |- _ => apply Z.ltb_lt in Hlt end.
  pose proof (forallb_range _ _ _ Hall flags ltac:(cbn; lia)) as Hc. cbn beta in Hc.
  rewrite H in Hc. cbn in Hc. now apply Z.eqb_eq in Hc.
Qed.

(** ** Floating point numbers *)

Lemma isinf_bits (bits : Z) :
  0 <= bits < 2 ^ 64 -> isinf bits = true ->
  bits = (if float_positive bits then float_inf else float_neg_inf).
Proof.
  unfold isinf, float_exponent, float_fraction, float_positive, float_inf, float_neg_inf.
  intros Hb H. apply andb_true_iff in H. destruct H as [He Hf].
  apply Z.eqb_eq in He, Hf.
  change (2 ^ 64) with 18446744073709551616 in *.
  change (2 ^ 63) with 9223372036854775808 in *.
  change (2 ^ 52) with 4503599627370496 in *.
  change (2 ^ 11) with 2048 in *.
  destruct (Z.ltb_spec bits 9223372036854775808);
    destruct (Z.eqb_spec bits 0); cbn [andb negb];
    Z.div_mod_to_equations; lia.
Qed.

(** ** Decimal128 *)

Lemma all_digits_app (a b : string) :
  all_digits (a ++ b) = all_digits a && all_digits b.
Proof.
  induction a as [|c a IH]; cbn; [reflexivity|]. now rewrite IH, andb_assoc.
Qed.

Lemma all_digits_zeros (k : nat) : all_digits (zeros k) = true.
Proof. induction k; [reflexivity | assumption]. Qed.

Lemma all_digits_digits_from (fuel : nat) :
  forall n acc, all_digits acc = true -> all_digits (digits_from fuel n acc) = true.
Proof.
  induction fuel as [|fuel IH]; intros n acc Hacc; [assumption|].
  cbn [digits_from].
  assert (Hmod : 0 <= n mod 10 <= 9) by (pose proof (Z.mod_pos_bound n 10); lia).
  assert (H : all_digits (String (digit (n mod 10)) acc) = true).
  { cbn [all_digits]. now rewrite is_digit_digit. }
  destruct (n <? 10); [assumption | now apply IH].
Qed.

Lemma all_digits_str_nat (n : Z) : all_digits (str_nat n) = true.
Proof. now apply all_digits_digits_from. Qed.

Lemma span_digits_app (a rest : string) :
  all_digits a = true -> stops rest = true -> span_digits (a ++ rest) = (a, rest).
Proof.
  intros Ha Hr. induction a as [|c a IH].
  - cbn. destruct rest as [|c r]; [reflexivity|].
    cbn in Hr |- *. apply negb_true_iff in Hr. now rewrite Hr.
  - cbn in Ha |- *. apply andb_true_iff in Ha. destruct Ha as [Hc Ha].
    now rewrite Hc, IH.
Qed.

Lemma split_at_spec (k : nat) :
  forall s a b, split_at k s = Some (a, b) -> s = a ++ b /\ String.length a = k.
Proof.
  induction k as [|k IH]; intros s a b H.
  - cbn in H. injection H as <- <-. now split.
  - destruct s as [|c s]; [discriminate|]. cbn in H.
    destruct (split_at k s) as [[a' b']|] eqn:E; [|discriminate].
    injection H as <- <-. destruct (IH _ _ _ E) as [-> <-]. now split.
Qed.

Lemma split_at_some (k : nat) :
  forall s, (k <= String.length s)%nat -> exists a b, split_at k s = Some (a, b).
Proof.
  induction k as [|k IH]; intros s H; [now eexists _, _|].
  destruct s as [|c s]; [cbn in H; lia|]. cbn in H |- *.
  destruct (IH s ltac:(lia)) as (a & b & ->). now eexists _, _.
Qed.

Lemma length_zeros (k : nat) : String.length (zeros k) = k.
Proof. induction k; cbn; [reflexivity | now f_equal]. Qed.

Lemma digits_value_from_zeros (k : nat) (s : string) :
  digits_value_from 0 (zeros k ++ s) = digits_value_from 0 s.
Proof. induction k as [|k IH]; [reflexivity | exact IH]. Qed.

Lemma digits_value_nonempty (c : ascii) (r : string) :
  digits_value (String c r) = digits_value_from 0 (String c r).
Proof. reflexivity. Qed.

Lemma digits_value_from_str_nat (n : Z) :
  0 <= n -> digits_value_from 0 (str_nat n) = Some n.
Proof.
  intros Hn. pose proof (digits_value_str_nat n Hn) as H.
  destruct (str_nat_head n) as (c & r & E & _). now rewrite E in *.
Qed.

Lemma digit_head_not (c : ascii) (r : string) :
  is_digit c = true ->
  String.eqb (String c r) "NaN" = false /\
  String.eqb (String c r) "Infinity" = false /\
  split_sign (String c r) = (false, String c r).
Proof.
  intros H.
  destruct c as [[|] [|] [|] [|] [|] [|] [|] [|]]; try discriminate H; repeat split.
Qed.

Lemma parse_exponent_signed (x : Z) : parse_exponent (String "E" (signed x)) = Some x.
Proof.
  unfold signed. destruct (Z.ltb_spec x 0).
  - cbn [parse_exponent]. rewrite digits_value_str_nat by lia. cbn. f_equal. lia.
  - cbn [parse_exponent]. now rewrite digits_value_str_nat.
Qed.

(** The texts [Decimal.__str__] produces: digits, an optional fraction,
    an optional exponent. *)
Lemma parse_decimal128_shape (negative : bool) (c0 : ascii) (r0 f : string)
    (fraction : bool) (exponent : option Z) (v e : Z) :
  let intpart := String c0 r0 in
  all_digits intpart = true -> all_digits f = true ->
  digits_value_from 0 (intpart ++ f) = Some v ->
  (fraction = false -> f = EmptyString) ->
  e = match exponent with Some x => x | None => 0 end - Z.of_nat (String.length f) ->
  (v <? 10 ^ 34) && (-6176 <=? e) && (e <=? 6111) = true ->
  parse_decimal128
    (sign_text negative ++ intpart ++ (if fraction then String "." f else EmptyString)
     ++ match exponent with Some x => String "E" (signed x) | None => EmptyString end) =
  Some (DFinite negative v e).
Proof.
  intros intpart Hint Hf Hv Hfrac He Hrange. subst intpart.
  pose proof Hint as Hc0. cbn [all_digits] in Hc0.
  apply andb_true_iff in Hc0. destruct Hc0 as [Hc0 _].
  set (exptext := match exponent with Some x => String "E" (signed x) | None => EmptyString end).
  set (tail := (if fraction then String "." f else EmptyString) ++ exptext).
  assert (Hexp : stops exptext = true) by (subst exptext; now destruct exponent).
  assert (Hpe : parse_exponent exptext = Some (match exponent with Some x => x | None => 0 end)).
  { subst exptext. destruct exponent; [apply parse_exponent_signed | reflexivity]. }
  assert (Htail : stops tail = true) by (subst tail; now destruct fraction).
  assert (Hsf : split_fraction tail = (f, exptext)).
  { subst tail. destruct fraction.
    - cbn [append split_fraction]. now apply span_digits_app.
    - rewrite (Hfrac eq_refl). subst exptext. now destruct exponent. }
  unfold parse_decimal128.
  assert (Hhead : String.eqb (sign_text negative ++ String c0 r0 ++ tail) "NaN" = false /\
                  split_sign (sign_text negative ++ String c0 r0 ++ tail) =
                    (negative, String c0 r0 ++ tail)).
  { destruct (digit_head_not c0 (r0 ++ tail) Hc0) as (H1 & _ & H3).
    destruct negative; cbn [sign_text append]; [now split | now split]. }
  destruct Hhead as [-> ->].
  destruct (digit_head_not c0 (r0 ++ tail) Hc0) as (_ & H2 & _).
  change (String c0 (r0 ++ tail)) with (String c0 r0 ++ tail) in H2. rewrite H2.
  rewrite (span_digits_app _ _ Hint Htail). cbv beta iota. rewrite Hsf. cbv beta iota.
  rewrite Hpe.
  change (digits_value (String c0 r0 ++ f)) with (digits_value_from 0 (String c0 r0 ++ f)).
  rewrite Hv. cbv zeta. rewrite <- He. now rewrite Hrange.
Qed.

Ltac apply_shape P :=
  cbv zeta in P; cbn [append] in P |- *;
  repeat rewrite append_nil_r in P; repeat rewrite append_nil_r; apply P.

(** [Decimal128(str(d)) == d] *)
Lemma parse_decimal128_str (d : decimal128) :
  valid_decimal128 d = true -> parse_decimal128 (str_decimal128 d) = Some d.
Proof.
  destruct d as [negative c e|negative|negative signaling]; cbn [valid_decimal128]; intros H.
  - repeat (apply andb_true_iff in H; destruct H as [H ?]).
    apply Z.leb_le in H.
    assert (Hrange : (c <? 10 ^ 34) && (-6176 <=? e) && (e <=? 6111) = true).
    { now repeat (apply andb_true_iff; split). }
    destruct (str_nat_head c) as (c0 & r0 & E & Hc0).
    pose proof (all_digits_str_nat c) as Hall.
    pose proof (digits_value_from_str_nat c H) as Hval.
    unfold str_decimal128. cbv zeta.
    set (n := Z.of_nat (String.length (str_nat c))).
    assert (Hn : 1 <= n) by (subst n; rewrite E; cbn [String.length]; lia).
    set (dotplace := if (e <=? 0) && (-6 <? e + n) then e + n else 1).
    destruct (Z.leb_spec dotplace 0) as [Hd|Hd].
    + (* 0.000ddd *)
      assert (Hplain : dotplace = e + n).
      { subst dotplace. destruct ((e <=? 0) && (-6 <? e + n)); lia. }
      rewrite Hplain, Z.eqb_refl.
      pose proof (parse_decimal128_shape negative "0" EmptyString
                    (zeros (Z.to_nat (- (e + n))) ++ str_nat c) true None c e) as P.
      apply_shape P.
      * reflexivity.
      * now rewrite all_digits_app, all_digits_zeros, Hall.
      * change (String "0" (zeros (Z.to_nat (- (e + n))) ++ str_nat c))
          with (zeros (S (Z.to_nat (- (e + n)))) ++ str_nat c).
        now rewrite digits_value_from_zeros.
      * discriminate.
      * rewrite length_append, length_zeros. subst n. lia.
      * exact Hrange.
    + destruct (Z.leb_spec n dotplace) as [Hnd|Hnd].
      * (* ddd or dE+x *)
        destruct ((e <=? 0) && (-6 <? e + n)) eqn:Eplain.
        -- apply andb_true_iff in Eplain. destruct Eplain as [He _]. apply Z.leb_le in He.
           assert (e = 0) by (subst dotplace; lia). subst e.
           subst dotplace. replace (0 + n - n) with 0 by lia. rewrite Z.eqb_refl.
           cbn [Z.to_nat zeros]. rewrite !append_nil_r. rewrite E in *.
           pose proof (parse_decimal128_shape negative c0 r0 EmptyString false None c 0) as P.
           apply_shape P; auto.
        -- subst dotplace. assert (n = 1) by lia.
           replace (1 - n) with 0 by lia. cbn [Z.to_nat zeros].
           assert (Hne : (e + n =? 1) = false).
           { apply Z.eqb_neq. intros Hc. apply andb_false_iff in Eplain.
             destruct Eplain as [F|F]; [apply Z.leb_gt in F | apply Z.ltb_ge in F]; lia. }
           rewrite Hne. rewrite !append_nil_r. rewrite E in *.
           pose proof (parse_decimal128_shape negative c0 r0 EmptyString false
                         (Some (e + n - 1)) c e) as P.
           apply_shape P; auto. cbn [String.length]. lia.
      * (* dd.ddd or d.dddE+x *)
        destruct (split_at_some (Z.to_nat dotplace) (str_nat c)) as (a & b & Es).
        { subst n. lia. }
        rewrite Es. destruct (split_at_spec _ _ _ _ Es) as [Eab La].
        rewrite Eab in Hall, Hval. rewrite all_digits_app in Hall.
        apply andb_true_iff in Hall. destruct Hall as [Ha Hb].
        assert (Lb : Z.of_nat (String.length b) = n - dotplace).
        { subst n. rewrite Eab, length_append. lia. }
        destruct a as [|a0 ar]; [cbn in La; lia|].
        destruct (e + n =? dotplace) eqn:Ex.
        -- apply Z.eqb_eq in Ex.
           pose proof (parse_decimal128_shape negative a0 ar b true None c e) as P.
           apply_shape P; auto; [discriminate | lia].
        -- apply Z.eqb_neq in Ex.
           assert (Hsci : dotplace = 1).
           { subst dotplace. destruct ((e <=? 0) && (-6 <? e + n)); [lia | reflexivity]. }
           pose proof (parse_decimal128_shape negative a0 ar b true
                         (Some (e + n - dotplace)) c e) as P.
           apply_shape P; auto; [discriminate | lia].
  - now destruct negative.
  - destruct negative, signaling; try discriminate. reflexivity.
Qed.

(** ** The codec *)

Lemma fromhex_byte (b : byte) (s : string) :
  fromhex (String (hex_digit (Byte.to_N b / 16))
             (String (hex_digit (Byte.to_N b mod 16)) s)) =
  match fromhex s with
  | Some bs => Some (b :: bs)
  | None => None
  end.
Proof. destruct b; reflexivity. Qed.

Lemma fromhex_hexlify (bs : list byte) : fromhex (hexlify bs) = Some bs.
Proof.
  induction bs as [|b r IH].
  - reflexivity.
  - cbn [hexlify]. rewrite fromhex_byte, IH. reflexivity.
Qed.

Lemma length_hexlify (bs : list byte) :
  String.length (hexlify bs) = (2 * List.length bs)%nat.
Proof.
  induction bs as [|b r IH]; cbn [hexlify String.length List.length].
  - reflexivity.
  - rewrite IH. lia.
Qed.

Lemma mapM_map_ok {A B C} (g : A -> B) (f : B -> outcome C) (h : A -> C) (l : list A) :
  Forall (fun x => f (g x) = Ok (h x)) l ->
  mapM f (map g l) = Ok (map h l).
Proof.
  induction 1 as [|x r Hx _ IH]; cbn [map mapM].
  - reflexivity.
  - rewrite Hx. cbn [map mapM] in IH. rewrite IH. reflexivity.
Qed.

Lemma int_base16_hex_octet (n : Z) : 0 <= n < 256 -> int_base16 (hex_octet n) = Some n.
Proof.
  intros Hn.
  assert (H : forallb (fun n => match int_base16 (hex_octet n) with
                                | Some m => m =? n
                                | None => false
                                end) (range 0 256) = true) by (vm_compute; reflexivity).
  pose proof (forallb_range _ _ _ H n ltac:(cbn; lia)) as Hc. cbn beta in Hc.
  destruct (int_base16 (hex_octet n)); [apply Z.eqb_eq in Hc; now subst | discriminate].
Qed.

Lemma is_tag_tag_like (k : string) : is_tag k = true -> tag_like k = true.
Proof.
  unfold is_tag, tags. cbn [existsb]. intros H.
  repeat (apply orb_true_iff in H; destruct H as [H|H];
          [apply String.eqb_eq in H; subst k; reflexivity|]).
  discriminate.
Qed.

Lemma tags_of_untagged (items : dict) : untagged items = true -> tags_of items = [].
Proof.
  unfold tags_of, untagged. induction items as [|[k v] r IH]; [reflexivity|].
  cbn [forallb map filter fst]. intros H. apply andb_true_iff in H. destruct H as [Hk Hr].
  destruct (is_tag k) eqn:E; [|now apply IH].
  apply is_tag_tag_like in E. now rewrite E in Hk.
Qed.

Lemma lookup_untagged (k : string) (items : dict) :
  tag_like k = true -> untagged items = true -> lookup k items = None.
Proof.
  intros Hk. unfold untagged. induction items as [|[k' v] r IH]; [reflexivity|].
  cbn [forallb lookup fst]. intros H. apply andb_true_iff in H. destruct H as [Hk' Hr].
  destruct (String.eqb_spec k k') as [->|_]; [|now apply IH].
  now rewrite Hk in Hk'.
Qed.

Lemma filter_untagged (items : dict) :
  untagged items = true ->
  filter (fun kv => negb (_DBREF_KEYS (fst kv))) items = items.
Proof.
  unfold untagged. induction items as [|[k v] r IH]; [reflexivity|].
  cbn [forallb filter fst]. intros H. apply andb_true_iff in H. destruct H as [Hk Hr].
  rewrite (IH Hr). unfold _DBREF_KEYS. cbn [existsb].
  destruct (String.eqb_spec k "$ref") as [->|_]; [discriminate|].
  destruct (String.eqb_spec k "$id") as [->|_]; [discriminate|].
  destruct (String.eqb_spec k "$db") as [->|_]; [discriminate|].
  reflexivity.
Qed.

Lemma untagged_well_formed (items : dict) :
  forallb (fun kv => negb (tag_like (fst kv)) && well_formed (snd kv)) items = true ->
  untagged items = true.
Proof.
  unfold untagged. induction items as [|kv r IH]; [reflexivity|].
  cbn [forallb]. intros H. apply andb_true_iff in H. destruct H as [Hk Hr].
  apply andb_true_iff in Hk. destruct Hk as [Hk _]. now rewrite Hk, IH.
Qed.

Section CodecFacts.

Context (D : Driver).

Lemma plain_json_convert (v : value) : plain (_json_convert v) = true.
Proof.
  assert (Hitems : forall items : dict,
            Forall (fun kv => plain (_json_convert (snd kv)) = true) items ->
            forallb (fun kv => plain (snd kv))
              (map (fun kv => (fst kv, _json_convert (snd kv))) items) = true).
  { intros items H. rewrite forallb_forall. intros kv Hin.
    apply in_map_iff in Hin. destruct Hin as (kv' & <- & Hin).
    rewrite Forall_forall in H. exact (H _ Hin). }
  induction v as [| b | n | bits | s | xs IHxs | items IHitems | b | d | subtype data | pattern flags
                   | time inc | d | | | code scope IHscope | coll id db kwargs IHid IHkw]
    using value_induction; cbn [_json_convert default plain]; try reflexivity.
  - destruct (isnan bits); [reflexivity|]. now destruct (isinf bits).
  - rewrite forallb_forall. intros y Hy. apply in_map_iff in Hy.
    destruct Hy as (x & <- & Hx). rewrite Forall_forall in IHxs. now apply IHxs.
  - now apply Hitems.
  - now destruct (since_epoch d).
  - destruct scope as [items|]; [|reflexivity].
    cbn [plain forallb snd]. now rewrite (Hitems _ IHscope).
  - cbn [plain forallb snd]. rewrite IHid. cbn [andb].
    rewrite forallb_app, (Hitems _ IHkw). now destruct db.
Qed.

Lemma serialize_response_convert (v : value) :
  serialize_response v = Ok (_json_convert v).
Proof.
  unfold serialize_response, json_util_dumps, json_dumps, json_loads.
  rewrite plain_json_convert. reflexivity.
Qed.

Lemma object_hook_untagged (items : dict) :
  untagged items = true -> object_hook D items = Ok (VDict items).
Proof. intros H. unfold object_hook. now rewrite tags_of_untagged. Qed.

(** Decoding the converted items of a document or of a scope gives the
    items back. *)
Lemma loads_items (items : dict) :
  Forall (fun kv => well_formed (snd kv) = true ->
                    json_util_loads D (_json_convert (snd kv)) = Ok (snd kv)) items ->
  forallb (fun kv => negb (tag_like (fst kv)) && well_formed (snd kv)) items = true ->
  mapM (fun kv => let? v := json_util_loads D (snd kv) in Ok (fst kv, v))
    (map (fun kv => (fst kv, _json_convert (snd kv))) items) = Ok items.
Proof.
  intros H Hwf.
  rewrite (mapM_map_ok _ _ (fun kv => kv)); [now rewrite map_id|].
  rewrite Forall_forall in *. rewrite forallb_forall in Hwf.
  intros kv Hin. specialize (Hwf _ Hin).
  apply andb_true_iff in Hwf. destruct Hwf as [_ Hwf].
  cbn [fst snd]. rewrite (H _ Hin Hwf). cbn [obind]. now destruct kv.
Qed.

Lemma loads_float (bits : Z) :
  well_formed (VFloat bits) = true ->
  json_util_loads D (default (VFloat bits)) = Ok (VFloat bits).
Proof.
  cbn [well_formed default]. intros H.
  repeat (apply andb_true_iff in H; destruct H as [H ?]).
  match goal with Hn : negb (isnan bits) || (bits =? float_nan) = true |- _ =>
    apply orb_true_iff in Hn; rename Hn into Hnan end.
  destruct Hnan as [Hn | Hn].
  - apply negb_true_iff in Hn. rewrite Hn.
    destruct (isinf bits) eqn:Einf; [|reflexivity].
    apply Z.leb_le in H.
    match goal with Hlt : (bits <? _) = true |- _ => apply Z.ltb_lt in Hlt end.
    rewrite (isinf_bits bits ltac:(lia) Einf) at 2.
    now destruct (float_positive bits).
  - apply Z.eqb_eq in Hn. subst bits. reflexivity.
Qed.

Lemma loads_object_id (b : list byte) :
  well_formed (VObjectId b) = true ->
  json_util_loads D (default (VObjectId b)) = Ok (VObjectId b).
Proof.
  cbn [well_formed default]. intros H. apply Nat.eqb_eq in H.
  cbn [json_util_loads mapM snd fst obind].
  change (object_hook D [("$oid", VStr (hexlify b))])
    with (_parse_canonical_oid D [("$oid", VStr (hexlify b))]).
  unfold _parse_canonical_oid, dict_get. cbn [List.length Nat.eqb lookup String.eqb Ascii.eqb Bool.eqb].
  cbn [ObjectId]. rewrite length_hexlify, H, fromhex_hexlify. reflexivity.
Qed.

Lemma loads_datetime (d : datetime) :
  well_formed (VDatetime d) = true ->
  json_util_loads D (default (VDatetime d)) = Ok (VDatetime d).
Proof.
  cbn [well_formed default]. intros H. apply andb_true_iff in H. destruct H as [Hvalid Hms].
  apply Z.eqb_eq in Hms.
  rewrite (since_epoch_year d Hvalid). destruct (Z.leb_spec 1970 (year d)) as [Hy|Hy].
  - cbn [json_util_loads mapM snd fst obind].
    change (object_hook D [("$date", VStr (isoformat d))])
      with (_parse_canonical_datetime D [("$date", VStr (isoformat d))]).
    unfold _parse_canonical_datetime, dict_get.
    cbn [List.length Nat.eqb lookup String.eqb Ascii.eqb Bool.eqb].
    now rewrite parse_isoformat_isoformat by (assumption || lia).
  - cbn [json_util_loads mapM snd fst obind].
    change (object_hook D [("$numberLong", VStr (str_int (_datetime_to_millis d)))])
      with (_parse_canonical_int64 D [("$numberLong", VStr (str_int (_datetime_to_millis d)))]).
    unfold _parse_canonical_int64 at 1, dict_get at 1.
    cbn [List.length Nat.eqb lookup String.eqb Ascii.eqb Bool.eqb].
    rewrite int_of_str_str_int. cbn [obind].
    change (object_hook D [("$date", VInt (_datetime_to_millis d))])
      with (_parse_canonical_datetime D [("$date", VInt (_datetime_to_millis d))]).
    unfold _parse_canonical_datetime, dict_get, millis_datetime.
    cbn [List.length Nat.eqb lookup String.eqb Ascii.eqb Bool.eqb].
    now rewrite _millis_to_datetime_millis.
Qed.

Lemma length_hex_octet (n : Z) : String.length (hex_octet n) = 2%nat.
Proof. reflexivity. Qed.

Lemma loads_binary (subtype : Z) (data : list byte) :
  well_formed (VBinary subtype data) = true ->
  json_util_loads D (default (VBinary subtype data)) = Ok (VBinary subtype data).
Proof.
  cbn [well_formed default]. intros H. apply andb_true_iff in H. destruct H as [H0 H1].
  apply Z.leb_le in H0. apply Z.ltb_lt in H1.
  cbn [json_util_loads mapM snd fst obind].
  change (object_hook D [("base64", VStr (b64encode data)); ("subType", VStr (hex_octet subtype))])
    with (@Ok value (VDict [("base64", VStr (b64encode data));
                            ("subType", VStr (hex_octet subtype))])).
  cbn [obind].
  set (binary := [("base64", VStr (b64encode data)); ("subType", VStr (hex_octet subtype))]).
  change (object_hook D [("$binary", VDict binary)])
    with (_parse_canonical_binary D [("$binary", VDict binary)]).
  unfold _parse_canonical_binary, dict_get, dict_getitem, binary.
  cbn [List.length Nat.eqb lookup String.eqb Ascii.eqb Bool.eqb obind negb].
  rewrite length_hex_octet. cbn [Nat.ltb Nat.leb].
  now rewrite b64decode_b64encode, int_base16_hex_octet.
Qed.

Lemma loads_regex (pattern : string) (flags : Z) :
  well_formed (VRegex pattern flags) = true ->
  json_util_loads D (default (VRegex pattern flags)) = Ok (VRegex pattern flags).
Proof.
  cbn [well_formed default]. intros H.
  cbn [json_util_loads mapM snd fst obind].
  change (object_hook D [("pattern", VStr pattern); ("options", VStr (flags_text flags))])
    with (@Ok value (VDict [("pattern", VStr pattern); ("options", VStr (flags_text flags))])).
  cbn [obind].
  set (regex := [("pattern", VStr pattern); ("options", VStr (flags_text flags))]).
  change (object_hook D [("$regularExpression", VDict regex)])
    with (_parse_canonical_regex D [("$regularExpression", VDict regex)]).
  unfold _parse_canonical_regex, dict_get, dict_getitem, regex, Regex.
  cbn [List.length Nat.eqb lookup String.eqb Ascii.eqb Bool.eqb obind negb].
  now rewrite str_flags_to_int_flags_text.
Qed.

Lemma loads_timestamp (time inc : Z) :
  well_formed (VTimestamp time inc) = true ->
  json_util_loads D (default (VTimestamp time inc)) = Ok (VTimestamp time inc).
Proof.
  cbn [well_formed default]. intros H.
  cbn [json_util_loads mapM snd fst obind].
  change (object_hook D [("t", VInt time); ("i", VInt inc)])
    with (@Ok value (VDict [("t", VInt time); ("i", VInt inc)])).
  cbn [obind].
  change (object_hook D [("$timestamp", VDict [("t", VInt time); ("i", VInt inc)])])
    with (_parse_timestamp [("$timestamp", VDict [("t", VInt time); ("i", VInt inc)])]).
  unfold _parse_timestamp, dict_get, dict_getitem, Timestamp.
  cbn [lookup String.eqb Ascii.eqb Bool.eqb obind int_value].
  apply andb_true_iff in H. destruct H as [H Hi].
  apply andb_true_iff in H. destruct H as [Ht Hi0].
  now rewrite Ht, Hi0, Hi.
Qed.

Lemma loads_decimal128 (d : decimal128) :
  well_formed (VDecimal128 d) = true ->
  json_util_loads D (default (VDecimal128 d)) = Ok (VDecimal128 d).
Proof.
  cbn [well_formed default]. intros H.
  cbn [json_util_loads mapM snd fst obind].
  change (object_hook D [("$numberDecimal", VStr (str_decimal128 d))])
    with (_parse_canonical_decimal128 D [("$numberDecimal", VStr (str_decimal128 d))]).
  unfold _parse_canonical_decimal128, dict_get.
  cbn [List.length Nat.eqb lookup String.eqb Ascii.eqb Bool.eqb].
  now rewrite parse_decimal128_str.
Qed.

Lemma json_util_loads_convert (v : value) :
  well_formed v = true -> json_util_loads D (_json_convert v) = Ok v.
Proof.
  induction v as [| b | n | bits | s | xs IHxs | items IHitems | b | d | subtype data | pattern flags
                   | time inc | d | | | code scope IHscope | coll id db kwargs IHid IHkw]
    using value_induction; intros Hwf.
  - reflexivity.
  - reflexivity.
  - reflexivity.
  - now apply loads_float.
  - reflexivity.
  - (* list *)
    cbn [_json_convert json_util_loads].
    rewrite (mapM_map_ok _ _ (fun x => x)); [now rewrite map_id|].
    rewrite Forall_forall in *. intros x Hx. apply IHxs; [assumption|].
    cbn [well_formed] in Hwf. rewrite forallb_forall in Hwf. now apply Hwf.
  - (* document *)
    cbn [well_formed] in Hwf. cbn [_json_convert json_util_loads].
    rewrite (loads_items _ IHitems Hwf). cbn [obind].
    apply object_hook_untagged. now apply untagged_well_formed.
  - now apply loads_object_id.
  - now apply loads_datetime.
  - now apply loads_binary.
  - now apply loads_regex.
  - now apply loads_timestamp.
  - now apply loads_decimal128.
  - reflexivity.
  - reflexivity.
  - (* code *)
    destruct scope as [items|]; [|reflexivity].
    cbn [well_formed] in Hwf. cbn [_json_convert json_util_loads mapM snd fst obind].
    rewrite (loads_items _ IHscope Hwf). cbn [obind].
    rewrite (object_hook_untagged _ (untagged_well_formed _ Hwf)). reflexivity.
  - (* DBRef *)
    cbn [well_formed] in Hwf.
    apply andb_true_iff in Hwf. destruct Hwf as [Hwf Hres].
    apply andb_true_iff in Hwf. destruct Hwf as [Hid Hkw].
    pose proof (untagged_well_formed _ Hkw) as Hun.
    cbn [_json_convert json_util_loads mapM snd fst].
    rewrite (IHid Hid).
    assert (Hrest :
      mapM (fun kv => let? v := json_util_loads D (snd kv) in Ok (fst kv, v))
        (match db with Some name => [("$db", VStr name)] | None => [] end ++
         map (fun kv => (fst kv, _json_convert (snd kv))) kwargs)%list =
      Ok (match db with Some name => [("$db", VStr name)] | None => [] end ++ kwargs)%list).
    { pose proof (loads_items _ IHkw Hkw) as Hk.
      destruct db as [name|]; cbn [app mapM snd fst json_util_loads obind]; now rewrite Hk. }
    cbn [mapM] in Hrest. rewrite Hrest. cbn [obind].
    unfold object_hook, tags_of.
    cbn [map fst filter is_tag tags existsb String.eqb Ascii.eqb Bool.eqb orb].
    assert (Htags : filter is_tag
                      (map fst (match db with
                                | Some name => [("$db", VStr name)]
                                | None => []
                                end ++ kwargs)%list) = []).
    { destruct db as [name|]; cbn [app map fst filter]; [|exact (tags_of_untagged _ Hun)].
      change (is_tag "$db") with false. exact (tags_of_untagged _ Hun). }
    rewrite Htags. cbn [String.eqb Ascii.eqb Bool.eqb].
    unfold _parse_canonical_dbref, dict_get.
    cbn [lookup String.eqb Ascii.eqb Bool.eqb filter fst].
    change (_DBREF_KEYS "$ref") with true. change (_DBREF_KEYS "$id") with true.
    cbn [negb].
    assert (Hfilter :
      filter (fun kv => negb (_DBREF_KEYS (fst kv)))
        (match db with Some name => [("$db", VStr name)] | None => [] end ++ kwargs)%list
      = kwargs).
    { destruct db as [name|]; cbn [app filter fst]; [change (_DBREF_KEYS "$db") with true; cbn [negb]|];
        now apply filter_untagged. }
    rewrite Hfilter.
    assert (Hex : existsb (fun kv => tag_like (fst kv) || reserved (fst kv)) kwargs = false).
    { apply negb_true_iff in Hres. clear - Hun Hres. unfold untagged in Hun.
      induction kwargs as [|kv r IH]; [reflexivity|].
      cbn [existsb forallb] in *.
      apply andb_true_iff in Hun. destruct Hun as [Hk Hr].
      apply orb_false_iff in Hres. destruct Hres as [Hres Hres'].
      apply negb_true_iff in Hk. now rewrite Hk, Hres, IH. }
    destruct db as [name|].
    + cbn [app lookup String.eqb Ascii.eqb Bool.eqb]. now rewrite Hex.
    + cbn [app]. rewrite (lookup_untagged "$db" kwargs eq_refl Hun). now rewrite Hex.
Qed.

End CodecFacts.




(** Nor does every number come back: a NaN with a payload is written as
    ["NaN"] and read as the NaN without one, and so is the negative NaN
    of Decimal128. *)
Lemma codec_round_trip_not_a_number :
  round_trip Examples.D0 (VFloat (float_nan + 1)) = Ok (VFloat float_nan) /\
  round_trip Examples.D0 (VDecimal128 (DNaN true false)) =
    Ok (VDecimal128 (DNaN false false)).
Proof. split; reflexivity. Qed.

(** ** The connection handle *)

Lemma initializations_app (t u : list event) :
  initializations (t ++ u) = (initializations t ++ initializations u)%list.
Proof.
  induction t as [|ev t IH]; cbn [app initializations].
  - reflexivity.
  - destruct ev as [uri [h|e]|c f]; cbn [app]; now rewrite IH.
Qed.

Lemma no_call_by_client (h : handle) (t : list event) :
  Forall no_call t -> Forall (by_client h) t.
Proof.
  apply Forall_impl. intros [uri r|c f]; cbn; [trivial | contradiction].
Qed.

Lemma client_getitem_client (D : Driver) (client : handle) (name : value) (db : database) :
  client_getitem D client name = Ok db -> db_client db = client.
Proof.
  unfold client_getitem. destruct (database_name D name); cbn [obind]; [|discriminate].
  intros [= <-]. reflexivity.
Qed.

Lemma get_collection_client (D : Driver) (client : handle) (d c : value) (coll : collection) :
  get_collection D client d c = Ok coll -> db_client (coll_database coll) = client.
Proof.
  unfold get_collection.
  destruct (client_getitem D client d) as [db|e] eqn:Hdb; cbn [obind]; [|discriminate].
  unfold database_getitem. destruct (collection_name D c); cbn [obind]; [|discriminate].
  intros [= <-]. cbn. eapply client_getitem_client, Hdb.
Qed.

Lemma build_cursor_collection (coll : collection) (f p s k l : value) :
  cur_collection (build_cursor coll f p s k l) = coll.
Proof.
  unfold build_cursor.
  destruct (truthy s), (truthy k), (truthy l); reflexivity.
Qed.

Section Safety.

Context {D : Driver} (cfg : config).

Lemma holding_weaken (oh : option handle) (w : world D) :
  holding oh w -> holding None w.
Proof. intros [H _]. split; [exact H | exact I]. Qed.

Lemma safe_ret {A} oh (a : A) : safe oh (ret (D := D) a).
Proof. intros w H. exact H. Qed.

Lemma safe_lift {A} oh (r : outcome A) : safe oh (lift (D := D) r).
Proof. intros w H. exact H. Qed.

Lemma safe_raise {A} oh (e : exn) : safe oh (raise (D := D) (A := A) e).
Proof. intros w H. exact H. Qed.

Lemma safe_bind {A B} oh (m : M D A) (k : A -> M D B) :
  safe oh m -> (forall a, safe oh (k a)) -> safe oh (bind m k).
Proof.
  intros Hm Hk w H. specialize (Hm w H). unfold bind.
  destruct (m w) as [[a|e] w1]; cbn [snd] in Hm.
  - now apply Hk.
  - exact Hm.
Qed.

Lemma safe_bind_lift {A B} oh (r : outcome A) (k : A -> M D B) :
  (forall a, r = Ok a -> safe oh (k a)) -> safe oh (bind (lift r) k).
Proof.
  intros Hk w H. unfold bind, lift. destruct r as [a|e].
  - now apply (Hk a).
  - exact H.
Qed.

Lemma safe_try {A} oh (m : M D A) (handler : exn -> M D A) :
  safe oh m -> (forall e, safe oh (handler e)) -> safe oh (try_except m handler).
Proof.
  intros Hm Hh w H. specialize (Hm w H). unfold try_except.
  destruct (m w) as [[a|e] w1]; cbn [snd] in Hm |- *.
  - exact Hm.
  - now apply Hh.
Qed.

Lemma safe_if {A} oh (c : bool) (m1 m2 : M D A) :
  safe oh m1 -> safe oh m2 -> safe oh (if c then m1 else m2).
Proof. destruct c; auto. Qed.

Lemma safe_perform {A} (h : handle) (c : call)
    (op : backend D -> outcome A * backend D) :
  client_of c = h -> safe (Some h) (perform c op).
Proof.
  intros Hc w [Hs Hh]. unfold holding, singleton_client, perform in *.
  cbn [snd _client calls]. rewrite Hh in *. destruct Hs as [Hi Hall].
  split; [split|reflexivity].
  - rewrite initializations_app, Hi. reflexivity.
  - apply Forall_app. split; [exact Hall|]. constructor; [exact Hc | constructor].
Qed.

Lemma safe_for_each {A B} oh (f : A -> M D B) (l : list A) :
  (forall x, safe oh (f x)) -> safe oh (for_each f l).
Proof.
  intros Hf. induction l as [|x r IH]; cbn [for_each].
  - apply safe_ret.
  - apply safe_bind; [apply Hf|]. intros y.
    apply safe_bind; [exact IH|]. intros ys. apply safe_ret.
Qed.

(** [get_client] creates the client when there is none, and hands out
    the one in [_client] otherwise. *)
Lemma safe_bind_get_client {B} (k : handle -> M D B) :
  (forall h, safe (Some h) (k h)) -> safe None (bind (get_client D cfg) k).
Proof.
  intros Hk w [Hs _]. unfold bind, get_client.
  destruct (_client w) as [h|] eqn:Hc.
  - apply (holding_weaken (Some h)), Hk. split; [exact Hs | exact Hc].
  - unfold singleton_client in Hs. rewrite Hc in Hs. destruct Hs as [Hi Hall].
    destruct (MongoClient D (MONGO_URI cfg) (mongo w)) as [[h|e] b] eqn:Hm;
      cbn [fst snd].
    + apply (holding_weaken (Some h)), Hk.
      unfold holding, singleton_client. cbn [_client calls].
      split; [split|reflexivity].
      * rewrite initializations_app, Hi. reflexivity.
      * apply Forall_app. split; [now apply no_call_by_client|].
        constructor; [exact I | constructor].
    + unfold holding, singleton_client. cbn [_client calls].
      split; [split|exact I].
      * rewrite initializations_app, Hi. reflexivity.
      * apply Forall_app. split; [exact Hall|].
        constructor; [exact I | constructor].
Qed.

Ltac client_side :=
  cbn [client_of];
  rewrite ?build_cursor_collection;
  first [ reflexivity
        | eapply get_collection_client; eassumption
        | eapply client_getitem_client; eassumption ].

Ltac safe_step :=
  lazymatch goal with
  | |- safe _ (bind (lift _) _) => apply safe_bind_lift; intros ? ?
  | |- safe _ (bind (get_client _ _) _) => apply safe_bind_get_client; intros ?
  | |- safe _ (bind _ _) => apply safe_bind; [| intros ?]
  | |- safe _ (try_except _ _) => apply safe_try; [| intros ?]
  | |- safe _ (match ?e with PyMongoError _ => _ | OtherException _ => _ end) =>
      destruct e
  | |- safe _ (if _ then _ else _) => apply safe_if
  | |- safe _ (ret _) => apply safe_ret
  | |- safe _ (lift _) => apply safe_lift
  | |- safe _ (raise _) => apply safe_raise
  | |- safe _ (bad_request _ _) => apply safe_ret
  | |- safe _ (for_each _ _) => apply safe_for_each; intros ?
  | |- safe _ (perform _ _) => apply safe_perform; client_side
  | |- safe _ (let x := _ in _) => cbv zeta
  end.

Ltac safe_auto := repeat safe_step.

Lemma safe_handler (ep : endpoint) (req : request) :
  safe None (handler D cfg ep req).
Proof.
  destruct ep; cbn [handler];
    unfold index, list_databases, list_collections, query, aggregate, insert,
      update, delete, run_command, count_documents, list_indexes, sample,
      except_PyMongoError, except_PyMongoError_Exception,
      list_databases_try, list_collections_try, query_try, aggregate_try,
      insert_try, update_try, delete_try, run_command_try,
      count_documents_try, list_indexes_try, sample_try, collection_entry;
    safe_auto.
Qed.

Lemma safe_view_function (ep : endpoint) (req : request) :
  safe None (view_function D cfg ep req).
Proof.
  unfold view_function. destruct (protected ep); [|apply safe_handler].
  unfold require_api_key.
  destruct (headers_get req "X-API-Key") as [k|]; [|apply safe_ret].
  apply safe_if; [apply safe_ret | apply safe_handler].
Qed.

Lemma singleton_dispatch_request (ep : endpoint) (req : request) (w : world D) :
  singleton_client w -> singleton_client (snd (dispatch_request D cfg ep req w)).
Proof.
  intros Hs. pose proof (safe_view_function ep req w (conj Hs I)) as [H _].
  unfold dispatch_request.
  destruct (view_function D cfg ep req w) as [[resp|e] w']; exact H.
Qed.

Lemma singleton_serve (reqs : list (endpoint * request)) (w : world D) :
  singleton_client w -> singleton_client (snd (serve D cfg reqs w)).
Proof.
  revert w. induction reqs as [|[ep req] r IH]; intros w Hs; cbn [serve].
  - exact Hs.
  - pose proof (singleton_dispatch_request ep req w Hs) as H1.
    destruct (dispatch_request D cfg ep req w) as [resp w1]. cbn [snd] in H1.
    specialize (IH w1 H1).
    destruct (serve D cfg r w1) as [resps w2]. exact IH.
Qed.

End Safety.

(** One thread running [get_client] alone, statement by statement,
    computes the function [get_client]. *)
Lemma get_client_alone (D : Driver) (cfg : config) (w : world D) :
  interleave D cfg [0; 0; 0; 0]%nat [at_test] w =
  ([match fst (get_client D cfg w) with
    | Ok h => returned (Some h)
    | Raise e => raised e
    end],
   snd (get_client D cfg w)).
Proof.
  unfold get_client. cbn [interleave nth set_nth thread_step].
  destruct w as [c b t]. cbn [_client mongo calls].
  destruct c as [h|]; cbn [interleave nth set_nth thread_step _client mongo calls fst snd].
  - reflexivity.
  - destruct (MongoClient D (MONGO_URI cfg) b) as [[h|e] b'];
      cbn [interleave nth set_nth thread_step _client mongo calls fst snd];
      reflexivity.
Qed.

(** C4, as amended.  The process starts without a client.  While
    requests are served one after the other, [get_client] constructs a
    client only when [_client] is unset and otherwise returns the stored
    one without calling the driver; over any sequence of requests at
    most one client is created, it is the one kept in [_client], and
    every operation performed goes through it. *)
Theorem get_client_singleton (D : Driver) (cfg : config) (b : backend D)
    (reqs : list (endpoint * request)) :
  _client (startup D b) = None /\
  calls (startup D b) = [] /\
  (forall (w : world D) (h : handle),
      _client w = Some h -> get_client D cfg w = (Ok h, w)) /\
  (forall w : world D,
      _client w = None ->
      exists r, calls (snd (get_client D cfg w)) =
                (calls w ++ [EConnect (MONGO_URI cfg) r])%list /\
                fst (get_client D cfg w) = r /\
                _client (snd (get_client D cfg w)) =
                match r with Ok h => Some h | Raise _ => None end) /\
  let w := snd (serve D cfg reqs (startup D b)) in
  (List.length (initializations (calls w)) <= 1)%nat /\
  (forall h, In h (initializations (calls w)) ->
             _client w = Some h /\ Forall (by_client h) (calls w)).
Proof.
  split; [reflexivity|]. split; [reflexivity|]. split; [|split].
  - intros w h Hc. unfold get_client. rewrite Hc. reflexivity.
  - intros w Hc. unfold get_client. rewrite Hc. cbn [fst snd calls _client].
    eexists. split; [reflexivity|]. split; reflexivity.
  - assert (Hstart : singleton_client (startup D b)).
    { unfold singleton_client, startup. cbn. split; [reflexivity | constructor]. }
    pose proof (singleton_serve cfg reqs (startup D b) Hstart) as Hs.
    cbv zeta. unfold singleton_client in Hs.
    destruct (_client (snd (serve D cfg reqs (startup D b)))) as [h|];
      destruct Hs as [Hi Hall]; rewrite Hi; cbn [List.length In].
    + split; [lia|]. intros h' [<-|[]]. split; [reflexivity | exact Hall].
    + split; [lia|]. intros h' [].
Qed.

(** C4 fails as stated: nothing guards the test and the assignment in
    [get_client].  Two threads serving the first two requests can both
    find [_client] unset; each then constructs a client. *)
Lemma get_client_race :
  initializations
    (calls (snd (interleave Examples.D0 Examples.cfg0 [0; 1; 0; 1; 0; 1; 0; 1]%nat
                   [at_test; at_test] Examples.w0))) = [0; 1]%nat /\
  fst (interleave Examples.D0 Examples.cfg0 [0; 1; 0; 1; 0; 1; 0; 1]%nat
         [at_test; at_test] Examples.w0) =
  [returned (Some 1%nat); returned (Some 1%nat)].
Proof. split; reflexivity. Qed.


(** ** Failures are reported *)

Section Quiet.

Context {D : Driver} (cfg : config).
Variable good : event -> Prop.
Hypothesis good_success : forall ev, failed ev = false -> good ev.

Lemma quiet_ret {A} (a : A) : quiet good (ret (D := D) a).
Proof.
  intros w. exists []. cbn. split; [now rewrite app_nil_r | constructor].
Qed.

Lemma quiet_lift {A} (r : outcome A) : quiet good (lift (D := D) r).
Proof.
  intros w. exists []. cbn. split; [now rewrite app_nil_r | constructor].
Qed.

Lemma quiet_bind {A B} (m : M D A) (k : A -> M D B) :
  quiet good m -> (forall a, quiet good (k a)) -> quiet good (bind m k).
Proof.
  intros Hm Hk w. destruct (Hm w) as [d1 [Hd1 Hg1]]. unfold bind.
  destruct (m w) as [[a|e] w1]; cbn [fst snd] in *.
  - destruct (Hk a w1) as [d2 [Hd2 Hg2]].
    exists (d1 ++ d2)%list. split.
    + rewrite Hd2, Hd1, app_assoc. reflexivity.
    + intros b Hb. apply Forall_app. split; [now apply (Hg1 a) | now apply (Hg2 b)].
  - exists d1. split; [exact Hd1 | discriminate].
Qed.

Lemma quiet_if {A} (c : bool) (m1 m2 : M D A) :
  quiet good m1 -> quiet good m2 -> quiet good (if c then m1 else m2).
Proof. destruct c; auto. Qed.

Lemma quiet_perform {A} (c : call) (op : backend D -> outcome A * backend D) :
  quiet good (perform c op).
Proof.
  intros w. unfold perform. cbn [fst snd calls].
  eexists. split; [reflexivity|].
  intros a Ha. rewrite Ha. constructor; [|constructor].
  apply good_success. reflexivity.
Qed.

Lemma quiet_get_client : quiet good (get_client D cfg).
Proof.
  intros w. unfold get_client. destruct (_client w).
  - exists []. cbn. split; [now rewrite app_nil_r | constructor].
  - cbn [fst snd calls]. eexists. split; [reflexivity|].
    intros a Ha. rewrite Ha. constructor; [|constructor].
    apply good_success. reflexivity.
Qed.

Lemma quiet_for_each {A B} (f : A -> M D B) (l : list A) :
  (forall x, quiet good (f x)) -> quiet good (for_each f l).
Proof.
  intros Hf. induction l as [|x r IH]; cbn [for_each].
  - apply quiet_ret.
  - apply quiet_bind; [apply Hf|]. intros y.
    apply quiet_bind; [exact IH|]. intros ys. apply quiet_ret.
Qed.

(** The bare [except] of the listing loop hides the failure of the
    [collStats] call, and only that. *)
Lemma quiet_collection_entry (database : database) (name : string) :
  (forall f, good (ECall (CCommand database (VStr "collStats") (VStr name)) f)) ->
  quiet good (collection_entry D database name).
Proof.
  intros Hstats w. unfold collection_entry, try_except, bind, perform, ret.
  destruct (database_command D database (VStr "collStats") (VStr name) (mongo w))
    as [[stats|e] b]; cbn [fst snd calls];
    (eexists; split; [reflexivity|]; intros _ _; constructor; [apply Hstats | constructor]).
Qed.

Lemma reports_except_PyMongoError (m : M D response) :
  quiet good m -> reports good (except_PyMongoError D m).
Proof.
  intros Hm w. destruct (Hm w) as [d [Hd Hg]].
  unfold except_PyMongoError, try_except.
  destruct (m w) as [[resp|[msg|msg]] w1]; cbn [fst snd ret raise] in *;
    exists d; (split; [exact Hd|]).
  - intros resp' [= <-] _. now apply (Hg resp).
  - intros resp' [= <-]. cbn. discriminate.
  - discriminate.
Qed.

Lemma reports_except_PyMongoError_Exception (op : string) (m : M D response) :
  quiet good m -> reports good (except_PyMongoError_Exception D op m).
Proof.
  intros Hm w. destruct (Hm w) as [d [Hd Hg]].
  unfold except_PyMongoError_Exception, try_except.
  destruct (m w) as [[resp|[msg|msg]] w1]; cbn [fst snd ret] in *;
    exists d; (split; [exact Hd|]).
  - intros resp' [= <-] _. now apply (Hg resp).
  - intros resp' [= <-]. cbn. discriminate.
  - intros resp' [= <-]. cbn. discriminate.
Qed.

Lemma reports_ret (resp : response) : reports good (ret (D := D) resp).
Proof.
  intros w. exists []. cbn. split; [now rewrite app_nil_r | constructor].
Qed.

Lemma reports_require_api_key (f : view D) (req : request) :
  reports good (f req) -> reports good (require_api_key D cfg f req).
Proof.
  intros Hf. unfold require_api_key.
  destruct (headers_get req "X-API-Key") as [k|]; [|apply reports_ret].
  destruct (_ || _); [apply reports_ret | exact Hf].
Qed.

End Quiet.

Ltac quiet_step :=
  lazymatch goal with
  | |- quiet _ (bind _ _) => apply quiet_bind; [| intros ?]
  | |- quiet _ (if _ then _ else _) => apply quiet_if
  | |- quiet _ (ret _) => apply quiet_ret
  | |- quiet _ (lift _) => apply quiet_lift
  | |- quiet _ (bad_request _ _) => apply quiet_ret
  | |- quiet _ (get_client _ _) => apply quiet_get_client; assumption
  | |- quiet _ (perform _ _) => apply quiet_perform; assumption
  | |- quiet _ (let x := _ in _) => cbv zeta
  end.

Lemma tolerated_success (ep : endpoint) (ev : event) :
  failed ev = false -> tolerated ep ev.
Proof. intros H H'. rewrite H in H'. discriminate. Qed.

Lemma reports_handler (D : Driver) (cfg : config) (ep : endpoint) (req : request) :
  reports (tolerated ep) (handler D cfg ep req).
Proof.
  pose proof (tolerated_success ep) as Hgood.
  destruct ep; cbn [handler];
    unfold index, list_databases, list_collections, query, aggregate, insert,
      update, delete, run_command, count_documents, list_indexes, sample;
    [ apply reports_ret
    | apply reports_except_PyMongoError
    | apply reports_except_PyMongoError
    | apply reports_except_PyMongoError_Exception
    | apply reports_except_PyMongoError_Exception
    | apply reports_except_PyMongoError_Exception
    | apply reports_except_PyMongoError_Exception
    | apply reports_except_PyMongoError_Exception
    | apply reports_except_PyMongoError_Exception
    | apply reports_except_PyMongoError
    | apply reports_except_PyMongoError
    | apply reports_except_PyMongoError_Exception ];
    unfold list_databases_try, list_collections_try, query_try, aggregate_try,
      insert_try, update_try, delete_try, run_command_try,
      count_documents_try, list_indexes_try, sample_try;
    repeat quiet_step.
  (* the listing loop *)
  apply quiet_for_each. intros name.
  apply quiet_collection_entry. intros f _. split; [reflexivity|].
  eexists. reflexivity.
Qed.

Lemma listing_loop (D : Driver) (database : database) (names : list string)
    (w : world D) :
  exists evs entries w',
    for_each (collection_entry D database) names w = (Ok entries, w') /\
    calls w' = (calls w ++ evs)%list /\
    listing database names evs entries.
Proof.
  revert w. induction names as [|name names IH]; intros w.
  - exists [], [], w. cbn. split; [reflexivity|].
    split; [now rewrite app_nil_r | constructor].
  - cbn [for_each]. unfold bind at 1.
    unfold collection_entry at 1, try_except, bind at 1, perform, ret at 1 2.
    destruct (database_command D database (VStr "collStats") (VStr name) (mongo w))
      as [[stats|e] b]; cbn [fst snd failure_of];
      match goal with |- context [bind _ _ ?w1] =>
        destruct (IH w1) as [evs [entries [w' [Hrun [Hcalls Hl]]]]] end;
      unfold bind; rewrite Hrun; cbn [calls] in Hcalls;
      eexists (_ :: evs), (_ :: entries), w';
      (split; [reflexivity|]); (split; [|now constructor]);
      rewrite Hcalls, <- app_assoc; reflexivity.
Qed.

(** C9.  Once the names of the collections are listed, [list_collections]
    answers 200 whatever the [collStats] calls do: there is one entry per
    name, in order, reduced to the name exactly where the call failed.
    And for every endpoint, an answer with status 200 hides no failed
    driver call other than such a [collStats] call of the listing. *)
Theorem list_collections_degrades (D : Driver) (cfg : config) :
  (forall (db : string) (req : request) (w w1 : world D) (h : handle)
          (database : database) (names : list string) (b : backend D),
      get_client D cfg w = (Ok h, w1) ->
      client_getitem D h (VStr db) = Ok database ->
      database_list_collection_names D database (mongo w1) = (Ok names, b) ->
      exists evs entries w',
        list_collections D cfg db req w =
          (Ok (jsonify (VDict [("database", VStr db);
                               ("collections", VList entries)])), w') /\
        calls w' = (calls w1 ++ ECall (CListCollectionNames database) None :: evs)%list /\
        listing database names evs entries) /\
  (forall (ep : endpoint) (req : request) (w : world D) (resp : response),
      fst (view_function D cfg ep req w) = Ok resp ->
      status resp = 200 ->
      exists d,
        calls (snd (view_function D cfg ep req w)) = (calls w ++ d)%list /\
        Forall (tolerated ep) d).
Proof.
  split.
  - intros db req w w1 h database names b Hclient Hdb Hnames.
    unfold list_collections, except_PyMongoError, try_except, list_collections_try.
    unfold bind at 1. rewrite Hclient.
    unfold bind at 1, lift. rewrite Hdb.
    unfold bind at 1, perform. rewrite Hnames. cbn [fst snd failure_of].
    match goal with |- context [bind _ _ ?w2] =>
      destruct (listing_loop D database names w2)
        as [evs [entries [w' [Hrun [Hcalls Hl]]]]] end.
    unfold bind. rewrite Hrun. cbn [calls] in Hcalls.
    exists evs, entries, w'. split; [reflexivity|]. split; [|exact Hl].
    rewrite Hcalls, <- app_assoc. reflexivity.
  - intros ep req w resp Hok H200.
    assert (Hr : reports (tolerated ep) (view_function D cfg ep req)).
    { unfold view_function. destruct (protected ep).
      - apply reports_require_api_key, reports_handler.
      - apply reports_handler. }
    destruct (Hr w) as [d [Hd Hg]]. exists d. split; [exact Hd|].
    now apply (Hg resp).
Qed.

(** The listing of a database with a collection and a view. *)
Lemma list_collections_degrades_witness :
  exists evs entries w',
    list_collections Examples.D0 Examples.cfg0 "d" ListingExample.listing_request
      ListingExample.listing_world =
      (Ok (jsonify (VDict [("database", VStr "d");
                           ("collections", VList entries)])), w') /\
    calls w' =
      (calls (snd (get_client Examples.D0 Examples.cfg0 ListingExample.listing_world)) ++
       ECall (CListCollectionNames ListingExample.listing_db) None :: evs)%list /\
    listing ListingExample.listing_db ["c"; "v"] evs entries.
Proof.
  refine (proj1 (list_collections_degrades Examples.D0 Examples.cfg0)
            "d" ListingExample.listing_request ListingExample.listing_world
            (snd (get_client Examples.D0 Examples.cfg0 ListingExample.listing_world))
            0%nat ListingExample.listing_db ["c"; "v"]
            (mongo (snd (get_client Examples.D0 Examples.cfg0 ListingExample.listing_world)))
            _ _ _);
    reflexivity.
Defined.

(** The listing of the example: the view keeps its bare name. *)
Example list_collections_view :
  fst (dispatch_request Examples.D0 Examples.cfg0 (list_collections_ep "d")
         ListingExample.listing_request ListingExample.listing_world) =
  jsonify (VDict [("database", VStr "d");
                  ("collections",
                   VList [VDict [("name", VStr "c"); ("count", VInt 5);
                                 ("size", VInt 0); ("avgObjSize", VInt 0)];
                          VDict [("name", VStr "v")]])]).
Proof. reflexivity. Qed.

(** ** Running a view backwards *)

Section Inversion.

Context {D : Driver}.

Lemma bind_inv {A B} (m : M D A) (k : A -> M D B) (w w' : world D) (b : B) :
  bind m k w = (Ok b, w') ->
  exists a w1, m w = (Ok a, w1) /\ k a w1 = (Ok b, w').
Proof.
  unfold bind. destruct (m w) as [[a|e] w1]; [|discriminate].
  intros H. now exists a, w1.
Qed.

Lemma bind_lift_inv {A B} (r : outcome A) (k : A -> M D B) (w w' : world D) (b : B) :
  bind (lift r) k w = (Ok b, w') ->
  exists a, r = Ok a /\ k a w = (Ok b, w').
Proof.
  unfold bind, lift. destruct r as [a|e]; [|discriminate].
  intros H. now exists a.
Qed.

Lemma perform_inv {A} (c : call) (op : backend D -> outcome A * backend D)
    (w w' : world D) (a : A) :
  perform c op w = (Ok a, w') ->
  exists b, op (mongo w) = (Ok a, b) /\
            w' = {| _client := _client w; mongo := b;
                    calls := calls w ++ [ECall c None] |}.
Proof.
  unfold perform. destruct (op (mongo w)) as [[a'|e] b]; cbn [fst snd failure_of];
    [|discriminate].
  intros [= -> <-]. now exists b.
Qed.

Lemma try_except_inv {A} (m : M D A) (handler : exn -> M D A) (w w' : world D) (a : A) :
  try_except m handler w = (Ok a, w') ->
  m w = (Ok a, w') \/ exists e w1, m w = (Raise e, w1) /\ handler e w1 = (Ok a, w').
Proof.
  unfold try_except. destruct (m w) as [[a'|e] w1].
  - intros [= -> ->]. now left.
  - intros H. right. now exists e, w1.
Qed.

(** A view that answers 200 ran its [try] block to the end. *)
Lemma except_PyMongoError_Exception_200 (op : string) (m : M D response)
    (w w' : world D) (resp : response) :
  except_PyMongoError_Exception D op m w = (Ok resp, w') ->
  status resp = 200 ->
  m w = (Ok resp, w').
Proof.
  intros H H200. apply try_except_inv in H as [H | [e [w1 [_ H]]]]; [exact H|].
  destruct e; cbn in H; injection H as <- _; discriminate.
Qed.

Lemma except_PyMongoError_200 (m : M D response)
    (w w' : world D) (resp : response) :
  except_PyMongoError D m w = (Ok resp, w') ->
  status resp = 200 ->
  m w = (Ok resp, w').
Proof.
  intros H H200. apply try_except_inv in H as [H | [e [w1 [_ H]]]]; [exact H|].
  destruct e; cbn in H; [injection H as <- _|]; discriminate.
Qed.

Lemma bad_request_200 (msg : string) (w w' : world D) (resp : response) :
  bad_request D msg w = (Ok resp, w') -> status resp = 200 -> False.
Proof. unfold bad_request, ret. intros [= <- _]. discriminate. Qed.

Lemma serialize_response_list (docs : list value) (s : value) :
  serialize_response (VList docs) = Ok s ->
  exists docs', s = VList docs' /\ List.length docs' = List.length docs.
Proof.
  unfold serialize_response, json_util_dumps, json_dumps, json_loads.
  cbn [_json_convert]. destruct (plain _); cbn [obind]; [|discriminate].
  intros [= <-]. eexists. split; [reflexivity|]. apply length_map.
Qed.

Lemma build_cursor_limit (coll : collection) (f p s k l : value) :
  truthy l = true -> cur_limit (build_cursor coll f p s k l) = l.
Proof. intros H. unfold build_cursor. rewrite H. reflexivity. Qed.

End Inversion.

Ltac invert_run H :=
  repeat first
    [ apply bind_lift_inv in H; destruct H as (? & ? & H)
    | apply bind_inv in H; destruct H as (? & ? & ? & H)
    | match type of H with
      | (if ?c then _ else _) _ = _ => destruct c eqn:?
      | bad_request _ _ _ = _ => exfalso; eapply bad_request_200; [exact H | assumption]
      end ].

(** ** Find *)

Lemma Mem_limit_respected (sem : Mem.semantics) : limit_respected (Mem.driver sem).
Proof.
  intros cur b b' docs n Hrun Hlim Hn.
  cbn [cursor_list Mem.driver] in Hrun. unfold Mem.list_cursor, Mem.guarded in Hrun.
  destruct (Mem.fault_call b (CFind cur)); [discriminate|].
  destruct (cur_filter cur); try discriminate.
  rewrite Hlim in Hrun. cbn [Mem.as_int] in Hrun.
  destruct (Mem.as_int (cur_skip cur)) as [skip|]; [|discriminate].
  destruct (skip <? 0); [discriminate|].
  injection Hrun as <- _. unfold Mem.page.
  apply Z.eqb_neq in Hn. rewrite Hn.
  rewrite length_firstn. lia.
Qed.



Lemma build_cursor_no_limit (coll : collection) (f p s k l : value) :
  truthy l = false -> cur_limit (build_cursor coll f p s k l) = VInt 0.
Proof.
  intros H. unfold build_cursor. rewrite H.
  destruct (truthy s), (truthy k); reflexivity.
Qed.

(** C10.  When the body sets [limit] to 0, [cursor.limit] is not called:
    the cursor that is run keeps the driver's [limit = 0], which is no
    limit.  Against the in-memory deployment the answer then holds every
    selected document after the skip. *)
Theorem query_limit_zero (cfg : config) :
  (forall (D : Driver) (req : request) (data : value) (w w' : world D)
          (resp : response),
      get_json req = Ok data ->
      py_get data "limit" (VInt 100) = Ok (VInt 0) ->
      query D cfg req w = (Ok resp, w') ->
      status resp = 200 ->
      exists cur t,
        calls w' = (t ++ [ECall (CFind cur) None])%list /\
        cur_limit cur = VInt 0) /\
  (forall (sem : Mem.semantics) (req : request) (data : value)
          (w w' : world (Mem.driver sem)) (resp : response),
      get_json req = Ok data ->
      py_get data "limit" (VInt 100) = Ok (VInt 0) ->
      query (Mem.driver sem) cfg req w = (Ok resp, w') ->
      status resp = 200 ->
      exists cur skip db coll,
        calls w' = (calls (snd (get_client (Mem.driver sem) cfg w))
                    ++ [ECall (CFind cur) None])%list /\
        Mem.as_int (cur_skip cur) = Some skip /\
        let all := skipn (Z.to_nat skip) (Mem.selected sem (mongo w') cur) in
        body resp =
        VDict [("database", db); ("collection", coll);
               ("count", VInt (Z.of_nat (List.length all)));
               ("documents", VList (map _json_convert all))]).
Proof.
  split.
  - intros D req data w w' resp Hjson Hlimit Hq H200.
    apply except_PyMongoError_Exception_200 in Hq; [|exact H200].
    unfold query_try in Hq. invert_run Hq.
    match goal with H : get_json req = Ok ?x |- _ =>
      rewrite Hjson in H; injection H as <- end.
    match goal with H : py_get data "limit" _ = Ok ?l |- _ =>
      rewrite Hlimit in H; injection H as <- end.
    match goal with H : fst _ = Ok _ |- _ => rewrite H in Hq end.
    injection Hq as _ <-. cbn [calls failure_of].
    do 2 eexists. split; [reflexivity|]. now apply build_cursor_no_limit.
  - intros sem req data w w' resp Hjson Hlimit Hq H200.
    apply except_PyMongoError_Exception_200 in Hq; [|exact H200].
    unfold query_try in Hq. invert_run Hq.
    match goal with H : get_json req = Ok ?x |- _ =>
      rewrite Hjson in H; injection H as <- end.
    match goal with H : py_get data "limit" _ = Ok ?l |- _ =>
      rewrite Hlimit in H; injection H as <- end.
    match goal with H : get_client _ _ _ = _ |- _ => rewrite H end.
    match goal with H : fst (cursor_list _ ?c _) = Ok _ |- _ =>
      set (cur := c) in *; rename H into Hrun end.
    match goal with H : serialize_response _ = Ok _ |- _ => rename H into Hser end.
    assert (Hcl : cur_limit cur = VInt 0)
      by (apply build_cursor_no_limit; reflexivity).
    cbn [cursor_list Mem.driver] in Hrun, Hq.
    unfold Mem.list_cursor, Mem.guarded in Hrun, Hq.
    destruct (Mem.fault_call _ (CFind cur)); [discriminate|].
    destruct (cur_filter cur) eqn:Hfilter; try discriminate.
    rewrite Hcl in Hrun, Hq.
    destruct (Mem.as_int (cur_skip cur)) as [skip|] eqn:Hskip; [|discriminate].
    cbn [Mem.as_int] in Hrun, Hq.
    destruct (skip <? 0); [discriminate|].
    cbn [fst snd failure_of] in Hrun, Hq. injection Hrun as <-.
    rewrite serialize_response_convert in Hser.
    injection Hser as <-. injection Hq as <- <-.
    exists cur, skip. do 2 eexists. cbn [snd calls mongo body jsonify].
    split; [reflexivity|]. split; [exact Hskip|].
    unfold len, Mem.page. cbn [Z.eqb _json_convert]. reflexivity.
Qed.

(** Five documents, limit 0: all five are returned. *)
Example query_limit_zero_five :
  lookup "count"
    match body (fst (dispatch_request Examples.D0 Examples.cfg0 query_ep
                       (request_with (Some "s3cret")
                          (Ok (VDict [("database", VStr "d"); ("collection", VStr "c");
                                      ("limit", VInt 0)])))
                       Examples.w0)) with
    | VDict items => items
    | _ => []
    end = Some (VInt 5).
Proof. reflexivity. Qed.

(** A query with limit 0 on the example deployment. *)
Lemma query_limit_zero_witness :
  exists cur t,
    calls (snd (query Examples.D0 Examples.cfg0
                  (request_with None
                     (Ok (VDict [("database", VStr "d"); ("collection", VStr "c");
                                 ("limit", VInt 0)])))
                  Examples.w0)) =
    (t ++ [ECall (CFind cur) None])%list /\
    cur_limit cur = VInt 0.
Proof.
  refine (proj1 (query_limit_zero Examples.cfg0) Examples.D0
            (request_with None
               (Ok (VDict [("database", VStr "d"); ("collection", VStr "c");
                           ("limit", VInt 0)])))
            (VDict [("database", VStr "d"); ("collection", VStr "c");
                    ("limit", VInt 0)])
            Examples.w0 _
            (jsonify (VDict [("database", VStr "d"); ("collection", VStr "c");
                             ("count", VInt 5);
                             ("documents",
                              VList (map _json_convert
                                       Examples.five_documents))]))
            _ _ _ _); reflexivity.
Defined.

(** ** Delete *)

Lemma remove_first_count (sem : Mem.semantics) (filter : value) (docs : list value) :
  0 <= snd (Mem.remove_first sem filter docs) <= 1.
Proof.
  induction docs as [|d r IH]; cbn [Mem.remove_first snd].
  - lia.
  - destruct (Mem.selects sem filter d); cbn [snd]; [lia|].
    destruct (Mem.remove_first sem filter r). exact IH.
Qed.

Lemma Mem_delete_one_single (sem : Mem.semantics) : delete_one_single (Mem.driver sem).
Proof.
  intros c filter b b' n Hrun. cbn [collection_delete_one Mem.driver] in Hrun.
  unfold Mem.run_delete_one, Mem.guarded in Hrun.
  destruct (Mem.fault_call b (CDeleteOne c filter)); [discriminate|].
  pose proof (remove_first_count sem filter (Mem.documents (Mem.store b) c)) as Hn.
  destruct (Mem.remove_first sem filter (Mem.documents (Mem.store b) c)) as [docs k].
  injection Hrun as <- _. exact Hn.
Qed.

(** C8.  A [/delete] whose [many] is false or missing calls
    [delete_one], and the [deleted_count] of its answer is the driver's,
    which is at most 1. *)
Theorem delete_one_count (D : Driver) (cfg : config) (req : request) (data : value)
    (w w' : world D) (resp : response) :
  delete_one_single D ->
  get_json req = Ok data ->
  py_get data "many" (VBool false) = Ok (VBool false) ->
  delete D cfg req w = (Ok resp, w') ->
  status resp = 200 ->
  exists db coll n,
    body resp = VDict [("database", db); ("collection", coll);
                       ("deleted_count", VInt n)] /\
    0 <= n <= 1 /\
    exists c f t, calls w' = (t ++ [ECall (CDeleteOne c f) None])%list.
Proof.
  intros Hlaw Hjson Hmany Hq H200.
  apply except_PyMongoError_Exception_200 in Hq; [|exact H200].
  unfold delete_try in Hq. invert_run Hq.
  match goal with H : get_json req = Ok ?x |- _ =>
    rewrite Hjson in H; injection H as <- end.
  match goal with H : py_get data "many" _ = Ok ?m |- _ =>
    rewrite Hmany in H; injection H as <- end.
  match goal with H : (if _ then _ else _) _ = _ |- _ =>
    cbn [truthy] in H; apply perform_inv in H as [b [Hrun ->]] end.
  injection Hq as <- <-.
  do 3 eexists. split; [reflexivity|]. split.
  - eapply Hlaw, Hrun.
  - do 3 eexists. reflexivity.
Qed.

(** A delete without [many] on the example deployment. *)
Lemma delete_one_count_witness :
  exists db coll n,
    body (fst (dispatch_request Examples.D0 Examples.cfg0 delete_ep
                 (request_with (Some "s3cret")
                    (Ok (VDict [("database", VStr "d"); ("collection", VStr "c")])))
                 Examples.w0)) =
    VDict [("database", db); ("collection", coll); ("deleted_count", VInt n)] /\
    0 <= n <= 1 /\
    exists c f t,
      calls (snd (dispatch_request Examples.D0 Examples.cfg0 delete_ep
                    (request_with (Some "s3cret")
                       (Ok (VDict [("database", VStr "d"); ("collection", VStr "c")])))
                    Examples.w0)) =
      (t ++ [ECall (CDeleteOne c f) None])%list.
Proof.
  refine (delete_one_count Examples.D0 Examples.cfg0
            (request_with (Some "s3cret")
               (Ok (VDict [("database", VStr "d"); ("collection", VStr "c")])))
            (VDict [("database", VStr "d"); ("collection", VStr "c")])
            Examples.w0 _ _ _ _ _ _ _).
  - apply Mem_delete_one_single.
  - reflexivity.
  - reflexivity.
  - reflexivity.
  - reflexivity.
Defined.

(** ** Defaults *)

Lemma lookup_app (k : string) (l1 l2 : dict) :
  lookup k (l1 ++ l2)%list =
  match lookup k l1 with
  | Some v => Some v
  | None => lookup k l2
  end.
Proof.
  induction l1 as [|[k' v] r IH]; cbn [app lookup].
  - reflexivity.
  - destruct (String.eqb k k'); [reflexivity | exact IH].
Qed.

(** Reading a body to which a missing field was added with the value
    that the read would default to. *)
Lemma py_get_supplied (items : dict) (k : string) (v : value) (k' : string) (d : value) :
  lookup k items = None ->
  (k' = k -> d = v) ->
  py_get (VDict (items ++ [(k, v)])%list) k' d = py_get (VDict items) k' d.
Proof.
  intros Hk Hd. unfold py_get, dict_get. rewrite lookup_app.
  destruct (lookup k' items); [reflexivity|]. cbn [lookup].
  destruct (String.eqb k' k) eqn:E; [|reflexivity].
  apply String.eqb_eq in E. now rewrite (Hd E).
Qed.

Lemma truthy_supplied (items : dict) (kv : string * value) :
  items <> [] -> truthy (VDict (items ++ [kv])%list) = truthy (VDict items).
Proof. destruct items; [congruence | reflexivity]. Qed.

Lemma bind_lift_Ok {D : Driver} {A B} (a : A) (k : A -> M D B) :
  bind (lift (Ok a)) k = k a.
Proof. reflexivity. Qed.

Ltac supplied :=
  rewrite ?bind_lift_Ok; cbv beta;
  rewrite ?truthy_supplied by assumption;
  rewrite ?py_get_supplied
    by first [ assumption | intros E; first [discriminate E | reflexivity] ];
  reflexivity.

Lemma py_get_default (items : dict) (k : string) (d : value) :
  lookup k items = None -> py_get (VDict items) k d = Ok d.
Proof. intros H. unfold py_get, dict_get. now rewrite H. Qed.

Lemma build_cursor_no_skip (coll : collection) (f p s k l : value) :
  truthy k = false -> cur_skip (build_cursor coll f p s k l) = VInt 0.
Proof.
  intros H. unfold build_cursor. rewrite H.
  destruct (truthy s), (truthy l); reflexivity.
Qed.

Ltac read_body Hjson :=
  match goal with H : get_json _ = Ok ?x |- _ =>
    lazymatch H with
    | Hjson => fail
    | _ => rewrite Hjson in H; injection H as <-
    end
  end.

Ltac read_default k :=
  match goal with H : py_get _ k _ = Ok ?x, H' : lookup k _ = None |- _ =>
    rewrite (py_get_default _ _ _ H') in H; injection H as <- end.

(** C6.  A body that omits an optional field is handled exactly as the
    body that carries the documented default in that field: [limit] 100
    and [skip] 0 for find, [ordered] true for insert, [many] false and
    [upsert] false for update, [many] false for delete, [size] 5 for
    sample.  And when such a request is answered 200, the driver call it
    made carried those values. *)
Theorem documented_defaults (D : Driver) (cfg : config) :
  (forall (req req' : request) (items : dict) (k : string) (v : value) (w : world D),
      get_json req = Ok (VDict items) ->
      get_json req' = Ok (VDict (items ++ [(k, v)])%list) ->
      items <> [] ->
      lookup k items = None ->
      (k = "limit" /\ v = VInt 100 \/ k = "skip" /\ v = VInt 0 ->
       query D cfg req w = query D cfg req' w) /\
      (k = "ordered" /\ v = VBool true ->
       insert D cfg req w = insert D cfg req' w) /\
      (k = "many" /\ v = VBool false \/ k = "upsert" /\ v = VBool false ->
       update D cfg req w = update D cfg req' w) /\
      (k = "many" /\ v = VBool false ->
       delete D cfg req w = delete D cfg req' w) /\
      (k = "size" /\ v = VInt 5 ->
       sample D cfg req w = sample D cfg req' w)) /\
  (forall (req : request) (items : dict) (w w' : world D) (resp : response),
      get_json req = Ok (VDict items) ->
      status resp = 200 ->
      (lookup "limit" items = None -> lookup "skip" items = None ->
       query D cfg req w = (Ok resp, w') ->
       exists cur t,
         calls w' = (t ++ [ECall (CFind cur) None])%list /\
         cur_limit cur = VInt 100 /\ cur_skip cur = VInt 0) /\
      (lookup "ordered" items = None ->
       insert D cfg req w = (Ok resp, w') ->
       exists coll docs t,
         calls w' = (t ++ [ECall (CInsertMany coll docs (VBool true)) None])%list) /\
      (lookup "many" items = None -> lookup "upsert" items = None ->
       update D cfg req w = (Ok resp, w') ->
       exists coll f u t,
         calls w' = (t ++ [ECall (CUpdateOne coll f u (VBool false)) None])%list) /\
      (lookup "many" items = None ->
       delete D cfg req w = (Ok resp, w') ->
       exists coll f t,
         calls w' = (t ++ [ECall (CDeleteOne coll f) None])%list) /\
      (lookup "size" items = None ->
       sample D cfg req w = (Ok resp, w') ->
       exists coll t,
         calls w' =
         (t ++ [ECall (CAggregate coll
                         (VList [VDict [("$sample", VDict [("size", VInt 5)])]]))
                  None])%list)).
Proof.
  split.
  - intros req req' items k v w Hreq Hreq' Hne Hk.
    repeat split.
    + intros [[-> ->]|[-> ->]]; unfold query, query_try; rewrite Hreq, Hreq'; supplied.
    + intros [-> ->]. unfold insert, insert_try. rewrite Hreq, Hreq'. supplied.
    + intros [[-> ->]|[-> ->]]; unfold update, update_try; rewrite Hreq, Hreq'; supplied.
    + intros [-> ->]. unfold delete, delete_try. rewrite Hreq, Hreq'. supplied.
    + intros [-> ->]. unfold sample, sample_try. rewrite Hreq, Hreq'. supplied.
  - intros req items w w' resp Hjson H200. repeat split.
    + intros Hlimit Hskip Hq.
      apply except_PyMongoError_Exception_200 in Hq; [|exact H200].
      unfold query_try in Hq. invert_run Hq. read_body Hjson.
      read_default "limit". read_default "skip".
      match goal with H : fst _ = Ok _ |- _ => rewrite H in Hq end.
      injection Hq as _ <-. cbn [calls failure_of].
      do 2 eexists. split; [reflexivity|]. split.
      * now apply build_cursor_limit.
      * now apply build_cursor_no_skip.
    + intros Hordered Hq.
      apply except_PyMongoError_Exception_200 in Hq; [|exact H200].
      unfold insert_try in Hq. invert_run Hq. read_body Hjson.
      read_default "ordered".
      match goal with H : fst _ = Ok _ |- _ => rewrite H in Hq end.
      injection Hq as _ <-. cbn [calls failure_of].
      do 3 eexists. reflexivity.
    + intros Hmany Hupsert Hq.
      apply except_PyMongoError_Exception_200 in Hq; [|exact H200].
      unfold update_try in Hq. invert_run Hq; read_body Hjson;
        read_default "many"; read_default "upsert";
        match goal with H : (if truthy (VBool false) then _ else _) _ = _ |- _ =>
          cbn [truthy] in H; apply perform_inv in H as [b [Hrun ->]] end;
        match goal with H : (if ?c then _ else _) _ = _ |- _ =>
          destruct c; unfold lift, ret in H; injection H as _ <- end;
        injection Hq as _ <-; cbn [calls]; do 4 eexists; reflexivity.
    + intros Hmany Hq.
      apply except_PyMongoError_Exception_200 in Hq; [|exact H200].
      unfold delete_try in Hq. invert_run Hq. read_body Hjson.
      read_default "many".
      match goal with H : (if _ then _ else _) _ = _ |- _ =>
        cbn [truthy] in H; apply perform_inv in H as [b [Hrun ->]] end.
      injection Hq as _ <-. cbn [calls]. do 3 eexists. reflexivity.
    + intros Hsize Hq.
      apply except_PyMongoError_Exception_200 in Hq; [|exact H200].
      unfold sample_try in Hq. invert_run Hq. read_body Hjson.
      read_default "size".
      match goal with H : fst _ = Ok _ |- _ => rewrite H in Hq end.
      injection Hq as _ <-. cbn [calls failure_of].
      do 2 eexists. reflexivity.
Qed.

(** A query without [limit], and the same with limit 100. *)
Lemma documented_defaults_witness :
  query Examples.D0 Examples.cfg0
    (request_with None (Ok (VDict [("database", VStr "d"); ("collection", VStr "c")])))
    Examples.w0 =
  query Examples.D0 Examples.cfg0
    (request_with None (Ok (VDict [("database", VStr "d"); ("collection", VStr "c");
                                   ("limit", VInt 100)])))
    Examples.w0.
Proof.
  refine (proj1 (proj1 (documented_defaults Examples.D0 Examples.cfg0)
            (request_with None
               (Ok (VDict [("database", VStr "d"); ("collection", VStr "c")])))
            (request_with None
               (Ok (VDict [("database", VStr "d"); ("collection", VStr "c");
                           ("limit", VInt 100)])))
            [("database", VStr "d"); ("collection", VStr "c")]
            "limit" (VInt 100) Examples.w0 _ _ _ _) _).
  - reflexivity.
  - reflexivity.
  - discriminate.
  - reflexivity.
  - left. split; reflexivity.
Defined.

(** ** Insert *)

(** C7, as amended.  When [documents] is a non-empty object, the request
    is handled exactly as the request whose [documents] is the array
    holding that one object: same answer, same calls. *)
Theorem insert_object_as_singleton (D : Driver) (cfg : config) (req req' : request)
    (items items' : dict) (d : dict) (w : world D) :
  d <> [] ->
  get_json req = Ok (VDict items) ->
  get_json req' = Ok (VDict items') ->
  lookup "documents" items = Some (VDict d) ->
  lookup "documents" items' = Some (VList [VDict d]) ->
  (forall k, k <> "documents" -> lookup k items = lookup k items') ->
  insert D cfg req w = insert D cfg req' w.
Proof.
  intros Hd Hreq Hreq' Hdoc Hdoc' Hsame.
  unfold insert, insert_try. rewrite Hreq, Hreq', !bind_lift_Ok.
  assert (Ht : truthy (VDict items) = true) by (destruct items; [discriminate | reflexivity]).
  assert (Ht' : truthy (VDict items') = true) by (destruct items'; [discriminate | reflexivity]).
  rewrite Ht, Ht'. cbn [negb].
  unfold py_get, dict_get. rewrite !bind_lift_Ok.
  rewrite Hdoc, Hdoc'.
  rewrite <- !(Hsame "database"), <- !(Hsame "collection"), <- !(Hsame "ordered")
    by discriminate.
  assert (Htd : truthy (VDict d) = true) by (destruct d; [congruence | reflexivity]).
  rewrite Htd. reflexivity.
Qed.

(** The object [{"a": 1}] and the array holding it. *)
Lemma insert_object_as_singleton_witness :
  insert Examples.D0 Examples.cfg0
    (request_with None
       (Ok (VDict [("database", VStr "d"); ("collection", VStr "c");
                   ("documents", VDict [("a", VInt 1)])])))
    Examples.w0 =
  insert Examples.D0 Examples.cfg0
    (request_with None
       (Ok (VDict [("database", VStr "d"); ("collection", VStr "c");
                   ("documents", VList [VDict [("a", VInt 1)]])])))
    Examples.w0.
Proof.
  apply (insert_object_as_singleton Examples.D0 Examples.cfg0 _ _
           [("database", VStr "d"); ("collection", VStr "c");
            ("documents", VDict [("a", VInt 1)])]
           [("database", VStr "d"); ("collection", VStr "c");
            ("documents", VList [VDict [("a", VInt 1)]])]
           [("a", VInt 1)]).
  - discriminate.
  - reflexivity.
  - reflexivity.
  - reflexivity.
  - reflexivity.
  - intros k Hk. cbn [lookup].
    destruct (String.eqb k "database"); [reflexivity|].
    destruct (String.eqb k "collection"); [reflexivity|].
    destruct (String.eqb k "documents") eqn:E; [|reflexivity].
    apply String.eqb_eq in E. contradiction.
Defined.

(** The scenario of the specification: one object, one identifier. *)
Example insert_one_object :
  fst (dispatch_request Examples.D0 Examples.cfg0 insert_ep
         (request_with (Some "s3cret")
            (Ok (VDict [("database", VStr "d"); ("collection", VStr "c");
                        ("documents", VDict [("a", VInt 1)])])))
         Examples.w0) =
  jsonify (VDict [("database", VStr "d"); ("collection", VStr "c");
                  ("inserted_count", VInt 1);
                  ("inserted_ids",
                   VList [VDict [("$oid", VStr "000000000000000000000000")]])]).
Proof. reflexivity. Qed.

(** C7 fails as stated: the empty object is rejected by the check of the
    required fields, while the array holding it is inserted. *)
Lemma insert_empty_object :
  fst (dispatch_request Examples.D0 Examples.cfg0 insert_ep
         (request_with (Some "s3cret")
            (Ok (VDict [("database", VStr "d"); ("collection", VStr "c");
                        ("documents", VDict [])])))
         Examples.w0) =
  {| body := VDict [("error", VStr "database, collection, and documents are required")];
     status := 400 |} /\
  fst (dispatch_request Examples.D0 Examples.cfg0 insert_ep
         (request_with (Some "s3cret")
            (Ok (VDict [("database", VStr "d"); ("collection", VStr "c");
                        ("documents", VList [VDict []])])))
         Examples.w0) =
  jsonify (VDict [("database", VStr "d"); ("collection", VStr "c");
                  ("inserted_count", VInt 1);
                  ("inserted_ids",
                   VList [VDict [("$oid", VStr "000000000000000000000000")]])]).
Proof. split; reflexivity. Qed.

(** ** Unexpected failures *)

(** C5, as amended.  In the seven views that read a JSON body (query,
    aggregate, insert, update, delete, command, sample), an exception of
    the [try] block that is not a driver error is answered 400 with the
    message prefixed by the operation name.  The four GET views (list
    databases, list collections, count, list indexes) catch driver errors
    only: there the exception leaves the view.  Driver errors are
    answered 500 with the driver's message by all eleven. *)
Theorem unexpected_failure (D : Driver) (cfg : config) (ep : endpoint)
    (req : request) (w w1 : world D) (msg : string) :
  (try_block D cfg ep req w = (Raise (OtherException msg), w1) ->
   match operation_name ep with
   | Some op =>
       handler D cfg ep req w =
       (Ok {| body := VDict [("error", VStr (op ++ " error: " ++ msg))];
              status := 400 |}, w1)
   | None => handler D cfg ep req w = (Raise (OtherException msg), w1)
   end) /\
  (try_block D cfg ep req w = (Raise (PyMongoError msg), w1) ->
   ep <> index_ep ->
   handler D cfg ep req w =
   (Ok {| body := VDict [("error", VStr msg)]; status := 500 |}, w1)).
Proof.
  split.
  - intros Hraise.
    destruct ep; cbn [operation_name handler try_block] in *;
      unfold list_databases, list_collections, query, aggregate, insert, update,
        delete, run_command, count_documents, list_indexes, sample,
        except_PyMongoError, except_PyMongoError_Exception, try_except;
      rewrite Hraise; reflexivity.
  - intros Hraise Hep.
    destruct ep; cbn [handler try_block] in *;
      unfold list_databases, list_collections, query, aggregate, insert, update,
        delete, run_command, count_documents, list_indexes, sample,
        except_PyMongoError, except_PyMongoError_Exception, try_except;
      try (rewrite Hraise; reflexivity).
    contradiction.
Qed.

(** A body that is an array: [data.get] raises [AttributeError]. *)
Lemma unexpected_failure_witness :
  handler Examples.D0 Examples.cfg0 query_ep
    (request_with None (Ok (VList [VInt 1]))) Examples.w0 =
  (Ok {| body := VDict [("error",
                         VStr "Query error: 'list' object has no attribute 'get'")];
         status := 400 |}, Examples.w0).
Proof.
  apply (proj1 (unexpected_failure Examples.D0 Examples.cfg0 query_ep
                  (request_with None (Ok (VList [VInt 1])))
                  Examples.w0 Examples.w0
                  "'list' object has no attribute 'get'")).
  reflexivity.
Defined.

(** C5 fails as stated: in [count_documents] an exception that is not a
    driver error is not answered 400; it leaves the view and Flask
    answers with its 500 page. *)
Lemma count_documents_unexpected_failure :
  fst (try_block Examples.D0 Examples.cfg0 (count_documents_ep "d" "c")
         (request_with (Some "s3cret") (Ok VNone)) PortExample.port_world) =
  Raise (OtherException "Port must be an integer between 0 and 65535: '99999'") /\
  fst (view_function Examples.D0 Examples.cfg0 (count_documents_ep "d" "c")
         (request_with (Some "s3cret") (Ok VNone)) PortExample.port_world) =
  Raise (OtherException "Port must be an integer between 0 and 65535: '99999'") /\
  fst (dispatch_request Examples.D0 Examples.cfg0 (count_documents_ep "d" "c")
         (request_with (Some "s3cret") (Ok VNone)) PortExample.port_world) =
  internal_server_error /\
  status internal_server_error <> 400.
Proof. repeat split; try reflexivity. discriminate. Qed.

(** ** Validation of the request body *)

Ltac unfold_views :=
  unfold index, list_databases, list_collections, query, aggregate, insert,
    update, delete, run_command, count_documents, list_indexes, sample,
    except_PyMongoError, except_PyMongoError_Exception,
    list_databases_try, list_collections_try, query_try, aggregate_try,
    insert_try, update_try, delete_try, run_command_try,
    count_documents_try, list_indexes_try, sample_try.

(** X1.  In the seven views that read a JSON body, a body that is
    missing or falsy ([null], [{}], [[]], [0], the empty string, [false])
    is answered 400 "Request body required"; the client is not created
    and the driver is not called. *)
Theorem body_required (D : Driver) (cfg : config) (ep : endpoint) (req : request)
    (data : value) (w : world D) :
  operation_name ep <> None ->
  get_json req = Ok data ->
  truthy data = false ->
  handler D cfg ep req w = (Ok (answer_400 "Request body required"), w).
Proof.
  intros Hep Hjson Hdata.
  destruct ep; cbn [operation_name] in Hep; try congruence;
    cbn [handler]; unfold_views; unfold try_except;
    rewrite Hjson, bind_lift_Ok, Hdata; reflexivity.
Qed.

(** An empty object sent to [/delete]. *)
Lemma body_required_witness :
  handler Examples.D0 Examples.cfg0 delete_ep (request_with None (Ok (VDict [])))
    Examples.w0 =
  (Ok (answer_400 "Request body required"), Examples.w0).
Proof.
  apply (body_required Examples.D0 Examples.cfg0 delete_ep _ (VDict [])).
  - discriminate.
  - reflexivity.
  - reflexivity.
Defined.

Lemma py_get_dict (items : dict) (k : string) (d : value) :
  py_get (VDict items) k d = Ok (dict_get items k d).
Proof. reflexivity. Qed.

(** X2.  When the body is a non-empty object in which a required field
    is missing or falsy, the view answers 400 with its required-fields
    message, before the client is created or the driver called.  The
    required fields are [database] and [collection], plus [documents]
    for insert and [update] for update; for command it is [command]
    alone. *)
Theorem required_field_missing (D : Driver) (cfg : config) (ep : endpoint)
    (req : request) (items : dict) (k : string) (w : world D) :
  get_json req = Ok (VDict items) ->
  items <> [] ->
  In k (required_fields ep) ->
  truthy (dict_get items k VNone) = false ->
  handler D cfg ep req w = (Ok (answer_400 (required_message ep)), w).
Proof.
  intros Hjson Hne Hk Hfalsy.
  assert (Ht : truthy (VDict items) = true) by (destruct items; [congruence | reflexivity]).
  destruct ep; cbn [required_fields In] in Hk; try contradiction;
    cbn [handler required_message]; unfold_views; unfold try_except;
    rewrite Hjson, bind_lift_Ok, Ht; cbn [negb];
    rewrite ?py_get_dict, ?bind_lift_Ok;
    repeat (destruct Hk as [<-|Hk]; [rewrite Hfalsy; cbn [negb orb];
                                     rewrite ?orb_true_r; reflexivity|]);
    contradiction.
Qed.

(** An update without its [update] document. *)
Lemma required_field_missing_witness :
  handler Examples.D0 Examples.cfg0 update_ep
    (request_with None
       (Ok (VDict [("database", VStr "d"); ("collection", VStr "c");
                   ("filter", VDict [])])))
    Examples.w0 =
  (Ok (answer_400 "database, collection, and update are required"), Examples.w0).
Proof.
  apply (required_field_missing Examples.D0 Examples.cfg0 update_ep _
           [("database", VStr "d"); ("collection", VStr "c"); ("filter", VDict [])]
           "update").
  - reflexivity.
  - discriminate.
  - cbn. tauto.
  - reflexivity.
Defined.

(** X3.  A body that is truthy but not an object (an array, a string, a
    number, [true]) makes the first [data.get] raise; each of the seven
    views answers 400 with its operation name and the message of the
    [AttributeError], without creating the client or calling the
    driver. *)
Theorem body_not_an_object (D : Driver) (cfg : config) (ep : endpoint)
    (req : request) (data : value) (op : string) (w : world D) :
  operation_name ep = Some op ->
  get_json req = Ok data ->
  truthy data = true ->
  (forall items, data <> VDict items) ->
  handler D cfg ep req w =
  (Ok (answer_400 (op ++ " error: '" ++ type_name data
                      ++ "' object has no attribute 'get'")), w).
Proof.
  intros Hep Hjson Hdata Hobj.
  destruct ep; cbn [operation_name] in Hep; try discriminate;
    injection Hep as <-; cbn [handler]; unfold_views; unfold try_except;
    rewrite Hjson, bind_lift_Ok, Hdata; cbn [negb];
    (destruct data; try reflexivity; exfalso; eapply Hobj; reflexivity).
Qed.

(** A string sent to [/aggregate]. *)
Lemma body_not_an_object_witness :
  handler Examples.D0 Examples.cfg0 aggregate_ep
    (request_with None (Ok (VStr "pipeline"))) Examples.w0 =
  (Ok (answer_400 "Aggregation error: 'str' object has no attribute 'get'"),
   Examples.w0).
Proof.
  apply (body_not_an_object Examples.D0 Examples.cfg0 aggregate_ep _
           (VStr "pipeline") "Aggregation").
  - reflexivity.
  - reflexivity.
  - reflexivity.
  - discriminate.
Defined.

(** ** What each endpoint may call *)

Section Emits.

Context {D : Driver} (cfg : config).
Variable good : event -> Prop.

Lemma emits_ret {A} (a : A) : emits good (ret (D := D) a).
Proof. intros w. exists []. cbn. split; [now rewrite app_nil_r | constructor]. Qed.

Lemma emits_lift {A} (r : outcome A) : emits good (lift (D := D) r).
Proof. intros w. exists []. cbn. split; [now rewrite app_nil_r | constructor]. Qed.

Lemma emits_raise {A} (e : exn) : emits good (raise (D := D) (A := A) e).
Proof. intros w. exists []. cbn. split; [now rewrite app_nil_r | constructor]. Qed.

Lemma emits_bind {A B} (m : M D A) (k : A -> M D B) :
  emits good m -> (forall a, emits good (k a)) -> emits good (bind m k).
Proof.
  intros Hm Hk w. destruct (Hm w) as [d1 [Hd1 Hg1]]. unfold bind.
  destruct (m w) as [[a|e] w1]; cbn [fst snd] in *.
  - destruct (Hk a w1) as [d2 [Hd2 Hg2]].
    exists (d1 ++ d2)%list. split.
    + rewrite Hd2, Hd1, app_assoc. reflexivity.
    + apply Forall_app. now split.
  - now exists d1.
Qed.

Lemma emits_bind_lift {A B} (r : outcome A) (k : A -> M D B) :
  (forall a, r = Ok a -> emits good (k a)) -> emits good (bind (lift r) k).
Proof.
  intros Hk w. unfold bind, lift. destruct r as [a|e].
  - now apply (Hk a).
  - exists []. cbn. split; [now rewrite app_nil_r | constructor].
Qed.

Lemma emits_try {A} (m : M D A) (handler : exn -> M D A) :
  emits good m -> (forall e, emits good (handler e)) -> emits good (try_except m handler).
Proof.
  intros Hm Hh w. destruct (Hm w) as [d1 [Hd1 Hg1]]. unfold try_except.
  destruct (m w) as [[a|e] w1]; cbn [fst snd] in *.
  - now exists d1.
  - destruct (Hh e w1) as [d2 [Hd2 Hg2]].
    exists (d1 ++ d2)%list. split.
    + rewrite Hd2, Hd1, app_assoc. reflexivity.
    + apply Forall_app. now split.
Qed.

Lemma emits_if {A} (c : bool) (m1 m2 : M D A) :
  emits good m1 -> emits good m2 -> emits good (if c then m1 else m2).
Proof. destruct c; auto. Qed.

Lemma emits_perform {A} (c : call) (op : backend D -> outcome A * backend D) :
  (forall f, good (ECall c f)) -> emits good (perform c op).
Proof.
  intros Hc w. unfold perform. cbn [fst snd calls].
  eexists. split; [reflexivity|]. constructor; [apply Hc | constructor].
Qed.

Lemma emits_get_client :
  (forall uri r, good (EConnect uri r)) -> emits good (get_client D cfg).
Proof.
  intros Hc w. unfold get_client. destruct (_client w).
  - exists []. cbn. split; [now rewrite app_nil_r | constructor].
  - cbn [fst snd calls]. eexists. split; [reflexivity|].
    constructor; [apply Hc | constructor].
Qed.

Lemma emits_for_each {A B} (f : A -> M D B) (l : list A) :
  (forall x, emits good (f x)) -> emits good (for_each f l).
Proof.
  intros Hf. induction l as [|x r IH]; cbn [for_each].
  - apply emits_ret.
  - apply emits_bind; [apply Hf|]. intros y.
    apply emits_bind; [exact IH|]. intros ys. apply emits_ret.
Qed.

End Emits.

Ltac emits_step :=
  lazymatch goal with
  | |- emits _ (bind (get_client _ _) _) =>
      apply emits_bind; [apply emits_get_client; intros; cbn; congruence | intros ?]
  | |- emits _ (bind _ _) => apply emits_bind; [| intros ?]
  | |- emits _ (try_except _ _) => apply emits_try; [| intros ?]
  | |- emits _ (match ?e with PyMongoError _ => _ | OtherException _ => _ end) =>
      destruct e
  | |- emits _ (if _ then _ else _) => apply emits_if
  | |- emits _ (ret _) => apply emits_ret
  | |- emits _ (lift _) => apply emits_lift
  | |- emits _ (raise _) => apply emits_raise
  | |- emits _ (bad_request _ _) => apply emits_ret
  | |- emits _ (for_each _ _) => apply emits_for_each; intros ?
  | |- emits _ (perform _ _) => apply emits_perform; intros; reflexivity
  | |- emits _ (let x := _ in _) => cbv zeta
  end.

(** X4.  Whatever the request and however it ends, an endpoint only
    makes its own driver calls: [/query] only [find], [/aggregate] and
    [/sample] only [aggregate] (for sample with a one-stage [$sample]
    pipeline), [/insert] only [insert_many], [/update] only [update_one]
    or [update_many], [/delete] only [delete_one] or [delete_many],
    [/command] only [command], the listing endpoints only their listing
    calls and [collStats], count and indexes only theirs; the status
    endpoint neither creates the client nor calls the driver. *)
Theorem endpoint_calls (D : Driver) (cfg : config) (ep : endpoint) (req : request)
    (w : world D) :
  exists d,
    calls (snd (dispatch_request D cfg ep req w)) = (calls w ++ d)%list /\
    Forall (allowed ep) d.
Proof.
  assert (Hh : emits (allowed ep) (handler D cfg ep req)).
  { destruct ep; cbn [handler]; unfold_views; unfold collection_entry;
      repeat emits_step. }
  assert (Hv : emits (allowed ep) (view_function D cfg ep req)).
  { unfold view_function. destruct (protected ep); [|exact Hh].
    unfold require_api_key.
    destruct (headers_get req "X-API-Key"); [|apply emits_ret].
    apply emits_if; [apply emits_ret | exact Hh]. }
  destruct (Hv w) as [d [Hd Hg]]. exists d. split; [|exact Hg].
  unfold dispatch_request.
  destruct (view_function D cfg ep req w) as [[resp|e] w']; exact Hd.
Qed.

(** ** The shape of the answers *)

Section Answers.

Context {D : Driver}.

Lemma answers_ret (r : response) :
  status r = 200 \/ error_object r -> answers (ret (D := D) r).
Proof. intros Hr w resp w' [= <- _]. exact Hr. Qed.

Lemma answers_bind {A} (m : M D A) (k : A -> M D response) :
  (forall a, answers (k a)) -> answers (bind m k).
Proof.
  intros Hk w resp w' H. apply bind_inv in H as [a [w1 [_ H]]].
  eapply Hk, H.
Qed.

Lemma answers_if (c : bool) (m1 m2 : M D response) :
  answers m1 -> answers m2 -> answers (if c then m1 else m2).
Proof. destruct c; auto. Qed.

Lemma answers_bad_request (msg : string) : answers (bad_request D msg).
Proof.
  apply answers_ret. right. split; [now left | now exists msg].
Qed.

Lemma answers_except_PyMongoError (m : M D response) :
  answers m -> answers (except_PyMongoError D m).
Proof.
  intros Hm w resp w' H.
  apply try_except_inv in H as [H | [e [w1 [_ H]]]]; [eapply Hm, H|].
  destruct e as [msg|msg]; [|discriminate].
  injection H as <- _. right. split; [now right; right | now exists msg].
Qed.

Lemma answers_except_PyMongoError_Exception (op : string) (m : M D response) :
  answers m -> answers (except_PyMongoError_Exception D op m).
Proof.
  intros Hm w resp w' H.
  apply try_except_inv in H as [H | [e [w1 [_ H]]]]; [eapply Hm, H|].
  destruct e as [msg|msg]; injection H as <- _; right.
  - split; [now right; right | now exists msg].
  - split; [now left | eexists; reflexivity].
Qed.

Lemma except_PyMongoError_Exception_returns (op : string) (m : M D response)
    (w : world D) :
  exists resp, fst (except_PyMongoError_Exception D op m w) = Ok resp.
Proof.
  unfold except_PyMongoError_Exception, try_except.
  destruct (m w) as [[resp|[msg|msg]] w1]; cbn; eexists; reflexivity.
Qed.

End Answers.

Ltac answers_step :=
  lazymatch goal with
  | |- answers (bind _ _) => apply answers_bind; intros ?
  | |- answers (if _ then _ else _) => apply answers_if
  | |- answers (bad_request _ _) => apply answers_bad_request
  | |- answers (ret (jsonify _)) => apply answers_ret; left; reflexivity
  | |- answers (let x := _ in _) => cbv zeta
  end.

(** X5.  Every answer is a success (200) or an error object
    [{"error": <message>}] with status 400, 401 or 500, or else Flask's
    own 500 page; the latter can only come from the four GET views,
    because the seven views that read a body catch every exception and
    always return an answer themselves. *)
Theorem answer_shape (D : Driver) (cfg : config) (ep : endpoint) (req : request)
    (w : world D) :
  (status (fst (dispatch_request D cfg ep req w)) = 200 \/
   error_object (fst (dispatch_request D cfg ep req w)) \/
   (fst (dispatch_request D cfg ep req w) = internal_server_error /\
    operation_name ep = None)) /\
  (operation_name ep <> None ->
   exists resp, fst (handler D cfg ep req w) = Ok resp).
Proof.
  assert (Hh : answers (handler D cfg ep req)).
  { destruct ep; cbn [handler];
      unfold index, list_databases, list_collections, query, aggregate, insert,
        update, delete, run_command, count_documents, list_indexes, sample;
      [ apply answers_ret; left; reflexivity
      | apply answers_except_PyMongoError
      | apply answers_except_PyMongoError
      | apply answers_except_PyMongoError_Exception
      | apply answers_except_PyMongoError_Exception
      | apply answers_except_PyMongoError_Exception
      | apply answers_except_PyMongoError_Exception
      | apply answers_except_PyMongoError_Exception
      | apply answers_except_PyMongoError_Exception
      | apply answers_except_PyMongoError
      | apply answers_except_PyMongoError
      | apply answers_except_PyMongoError_Exception ];
      unfold list_databases_try, list_collections_try, query_try, aggregate_try,
        insert_try, update_try, delete_try, run_command_try,
        count_documents_try, list_indexes_try, sample_try;
      repeat answers_step. }
  assert (Hret : operation_name ep <> None ->
                 exists resp, fst (handler D cfg ep req w) = Ok resp).
  { intros Hep. destruct ep; cbn [operation_name] in Hep; try congruence;
      cbn [handler]; apply except_PyMongoError_Exception_returns. }
  split; [|exact Hret].
  assert (Hv : answers (view_function D cfg ep req)).
  { unfold view_function. destruct (protected ep); [|exact Hh].
    unfold require_api_key.
    assert (H401 : answers (ret (D := D)
              (with_status
                 (jsonify (error_body "Unauthorized - Invalid or missing API key")) 401))).
    { apply answers_ret. right. split; [now right; left | eexists; reflexivity]. }
    destruct (headers_get req "X-API-Key"); [|exact H401].
    apply answers_if; [exact H401 | exact Hh]. }
  unfold dispatch_request.
  destruct (view_function D cfg ep req w) as [[resp|e] w'] eqn:Hrun; cbn [fst].
  - destruct (Hv w resp w' Hrun); auto.
  - right. right. split; [reflexivity|].
    destruct (operation_name ep) eqn:Hop; [|reflexivity]. exfalso.
    destruct Hret as [resp Hresp]; [discriminate|].
    unfold view_function in Hrun.
    destruct ep; cbn [operation_name protected] in *; try discriminate;
      unfold require_api_key in Hrun;
      (destruct (headers_get req "X-API-Key"); [|discriminate]);
      (destruct (_ || _); [discriminate|]);
      rewrite Hrun in Hresp; discriminate.
Qed.

(** ** Listing the databases *)

Lemma mapM_database_entry_named (infos : list dict) :
  Forall (fun i => has_key "name" i = true) infos ->
  mapM database_entry infos = Ok (map named_entry infos).
Proof.
  induction 1 as [|i r Hi _ IH]; cbn [mapM map].
  - reflexivity.
  - cbn [mapM] in IH. rewrite IH.
    unfold database_entry, dict_getitem, named_entry, dict_get, has_key in *.
    destruct (lookup "name" i); [reflexivity | discriminate].
Qed.

Lemma mapM_database_entry_unnamed (infos : list dict) :
  Exists (fun i => has_key "name" i = false) infos ->
  mapM database_entry infos = Raise (OtherException "'name'").
Proof.
  induction 1 as [i r Hi | i r _ IH]; cbn [mapM].
  - unfold database_entry, dict_getitem, has_key in *.
    destruct (lookup "name" i); [discriminate | reflexivity].
  - cbn [mapM] in IH. rewrite IH.
    unfold database_entry, dict_getitem.
    destruct (lookup "name" i); reflexivity.
Qed.

(** X6.  Once the driver has listed the databases, [list_databases]
    answers with one entry per database, in the driver's order, made of
    its [name], its [sizeOnDisk] ([null] when the driver gives none) and
    its [empty] flag ([false] when the driver gives none).  A database
    record without a [name] makes the view raise [KeyError], which its
    single [except] clause does not catch. *)
Theorem list_databases_entries (D : Driver) (cfg : config) (req : request)
    (w w1 : world D) (h : handle) (infos : list dict) (b : backend D) :
  get_client D cfg w = (Ok h, w1) ->
  client_list_databases D h (mongo w1) = (Ok infos, b) ->
  (Forall (fun i => has_key "name" i = true) infos ->
   list_databases D cfg req w =
   (Ok (jsonify (VDict [("databases", VList (map named_entry infos))])),
    {| _client := _client w1; mongo := b;
       calls := calls w1 ++ [ECall (CListDatabases h) None] |})) /\
  (Exists (fun i => has_key "name" i = false) infos ->
   list_databases D cfg req w =
   (Raise (OtherException "'name'"),
    {| _client := _client w1; mongo := b;
       calls := calls w1 ++ [ECall (CListDatabases h) None] |})).
Proof.
  intros Hclient Hlist.
  split; intros Hnames;
    unfold list_databases, except_PyMongoError, try_except, list_databases_try;
    unfold bind at 1; rewrite Hclient;
    unfold bind at 1, perform; rewrite Hlist; cbn [fst snd failure_of];
    unfold bind, lift.
  - rewrite (mapM_database_entry_named infos Hnames). reflexivity.
  - rewrite (mapM_database_entry_unnamed infos Hnames). reflexivity.
Qed.

(** The one database of the example deployment. *)
Lemma list_databases_entries_witness :
  list_databases Examples.D0 Examples.cfg0 (request_with None (Ok VNone)) Examples.w0 =
  (Ok (jsonify (VDict [("databases",
                        VList (map named_entry
                                 [[("name", VStr "d"); ("sizeOnDisk", VInt 0);
                                   ("empty", VBool false)]]))])),
   {| _client := Some 0%nat;
      mongo := mongo (snd (get_client Examples.D0 Examples.cfg0 Examples.w0));
      calls := calls (snd (get_client Examples.D0 Examples.cfg0 Examples.w0))
               ++ [ECall (CListDatabases 0%nat) None] |}).
Proof.
  refine (proj1 (list_databases_entries Examples.D0 Examples.cfg0
                   (request_with None (Ok VNone)) Examples.w0
                   (snd (get_client Examples.D0 Examples.cfg0 Examples.w0)) 0%nat
                   [[("name", VStr "d"); ("sizeOnDisk", VInt 0); ("empty", VBool false)]]
                   (mongo (snd (get_client Examples.D0 Examples.cfg0 Examples.w0)))
                   _ _) _).
  - reflexivity.
  - reflexivity.
  - repeat constructor.
Defined.

(** ** One or many *)

(** X7.  [/delete] and [/update] choose between the single and the bulk
    call by the truth value of [many], not by its being [true]: any
    truthy value (a non-zero number, a non-empty string such as
    ["false"], a non-empty array or object) selects [delete_many] or
    [update_many], any falsy one ([false], [0], [null], the empty
    string) the single call.  [upsert] is handed to the driver as it was
    given. *)
Theorem many_by_truth_value (D : Driver) (cfg : config) (req : request)
    (data many : value) (w w' : world D) (resp : response) :
  get_json req = Ok data ->
  py_get data "many" (VBool false) = Ok many ->
  status resp = 200 ->
  (delete D cfg req w = (Ok resp, w') ->
   exists c f t,
     calls w' =
     (t ++ [ECall (if truthy many then CDeleteMany c f else CDeleteOne c f) None])%list) /\
  (update D cfg req w = (Ok resp, w') ->
   exists c f u upsert t,
     py_get data "upsert" (VBool false) = Ok upsert /\
     calls w' =
     (t ++ [ECall (if truthy many then CUpdateMany c f u upsert
                   else CUpdateOne c f u upsert) None])%list).
Proof.
  intros Hjson Hmany H200. split; intros Hq;
    apply except_PyMongoError_Exception_200 in Hq; try exact H200.
  - unfold delete_try in Hq. invert_run Hq. read_body Hjson.
    match goal with H : py_get data "many" _ = Ok ?m |- _ =>
      rewrite Hmany in H; injection H as <- end.
    match goal with H : (if truthy many then _ else _) _ = _ |- _ =>
      destruct (truthy many); apply perform_inv in H as [b [Hrun ->]] end;
      injection Hq as _ <-; cbn [calls]; do 3 eexists; reflexivity.
  - unfold update_try in Hq. invert_run Hq; read_body Hjson;
      match goal with H : py_get data "many" _ = Ok ?m |- _ =>
        rewrite Hmany in H; injection H as <- end;
      match goal with H : (if truthy many then _ else _) _ = _ |- _ =>
        destruct (truthy many); apply perform_inv in H as [b [Hrun ->]] end;
      match goal with H : (if ?c then _ else _) _ = _ |- _ =>
        destruct c; unfold lift, ret in H; injection H as _ <- end;
      injection Hq as _ <-; cbn [calls]; do 5 eexists;
      (split; [eassumption | reflexivity]).
Qed.

(** A delete whose [many] is the string ["false"] is a bulk delete. *)
Lemma many_by_truth_value_witness :
  exists c f t,
    calls (snd (delete Examples.D0 Examples.cfg0
                  (request_with None (Ok MoreExamples.delete_many_string))
                  Examples.w0)) =
    (t ++ [ECall (if truthy (VStr "false") then CDeleteMany c f else CDeleteOne c f)
             None])%list.
Proof.
  refine (proj1 (many_by_truth_value Examples.D0 Examples.cfg0
                   (request_with None (Ok MoreExamples.delete_many_string))
                   MoreExamples.delete_many_string (VStr "false") Examples.w0
                   (snd (delete Examples.D0 Examples.cfg0
                           (request_with None (Ok MoreExamples.delete_many_string))
                           Examples.w0))
                   (jsonify (VDict [("database", VStr "d"); ("collection", VStr "c");
                                    ("deleted_count", VInt 5)]))
                   _ _ _) _); reflexivity.
Defined.

(** ** Filters that do not decode *)

Ltac same_value H := injection H as <-.

(** X8.  A filter that [parse_json_extended] rejects (for instance a
    malformed identifier) is never sent to the backend: [/query],
    [/update] and [/delete] then perform no driver operation at all (at
    most the client is created, since [get_client] comes first), and the
    answer is an error. *)
Theorem undecodable_filter (D : Driver) (cfg : config) (ep : endpoint)
    (req : request) (data filter : value) (e : exn) (w : world D) :
  ep = query_ep \/ ep = update_ep \/ ep = delete_ep ->
  get_json req = Ok data ->
  py_get data "filter" (VDict []) = Ok filter ->
  parse_json_extended D filter = Raise e ->
  exists d resp,
    calls (snd (handler D cfg ep req w)) = (calls w ++ d)%list /\
    Forall no_call d /\
    fst (handler D cfg ep req w) = Ok resp /\
    status resp <> 200.
Proof.
  intros Hep Hjson Hfilter Hparse.
  assert (Hemits : emits no_call (handler D cfg ep req)).
  { destruct Hep as [-> | [-> | ->]]; cbn [handler]; unfold_views;
      repeat first
        [ apply emits_bind_lift; intros ? Ha;
          try (rewrite Hjson in Ha; same_value Ha);
          try (rewrite Hfilter in Ha; same_value Ha);
          try (rewrite Hparse in Ha; discriminate Ha);
          try clear Ha
        | apply emits_bind; [apply emits_get_client; intros; exact I | intros ?]
        | apply emits_try; [| intros ?]
        | apply emits_if
        | apply emits_ret
        | match goal with |- emits _ (match ?x with PyMongoError _ => _ | OtherException _ => _ end) => destruct x end ]. }
  destruct (Hemits w) as [d [Hd Hg]].
  assert (Hret : exists resp, fst (handler D cfg ep req w) = Ok resp).
  { destruct Hep as [-> | [-> | ->]]; cbn [handler];
      apply except_PyMongoError_Exception_returns. }
  destruct Hret as [resp Hresp].
  exists d, resp. split; [exact Hd|]. split; [exact Hg|]. split; [exact Hresp|].
  intros H200.
  destruct (handler D cfg ep req w) as [r w'] eqn:Hrun. cbn [fst] in Hresp. subst r.
  destruct Hep as [-> | [-> | ->]]; cbn [handler] in Hrun;
    apply except_PyMongoError_Exception_200 in Hrun; try exact H200.
  - unfold query_try in Hrun. invert_run Hrun. read_body Hjson.
    match goal with H : py_get data "filter" _ = Ok ?f |- _ =>
      rewrite Hfilter in H; injection H as <- end.
    congruence.
  - unfold update_try in Hrun. invert_run Hrun; read_body Hjson;
      match goal with H : py_get data "filter" _ = Ok ?f |- _ =>
        rewrite Hfilter in H; injection H as <- end;
      congruence.
  - unfold delete_try in Hrun. invert_run Hrun. read_body Hjson.
    match goal with H : py_get data "filter" _ = Ok ?f |- _ =>
      rewrite Hfilter in H; injection H as <- end.
    congruence.
Qed.

(** A query whose filter holds [{"$oid": "xyz"}]. *)
Lemma undecodable_filter_witness :
  exists d resp,
    calls (snd (handler Examples.D0 Examples.cfg0 query_ep
                  (request_with None (Ok MoreExamples.bad_filter_query))
                  Examples.w0)) =
    (calls Examples.w0 ++ d)%list /\
    Forall no_call d /\
    fst (handler Examples.D0 Examples.cfg0 query_ep
           (request_with None (Ok MoreExamples.bad_filter_query))
           Examples.w0) = Ok resp /\
    status resp <> 200.
Proof.
  apply (undecodable_filter Examples.D0 Examples.cfg0 query_ep
           (request_with None (Ok MoreExamples.bad_filter_query))
           MoreExamples.bad_filter_query
           (VDict [("_id", VDict [("$oid", VStr "xyz")])])
           (invalid_id "xyz")).
  - left. reflexivity.
  - reflexivity.
  - reflexivity.
  - reflexivity.
Defined.

(** The answer to that query names the operation and the identifier. *)
Example undecodable_filter_answer :
  fst (dispatch_request Examples.D0 Examples.cfg0 query_ep
         (request_with (Some "s3cret") (Ok MoreExamples.bad_filter_query))
         Examples.w0) =
  answer_400 "Query error: 'xyz' is not a valid ObjectId, it must be a 12-byte input or a 24-character hex string".
Proof. reflexivity. Qed.

(** ** More on the codec *)

Lemma mapM_fixed {A} (f : A -> outcome A) (l : list A) :
  Forall (fun x => f x = Ok x) l -> mapM f l = Ok l.
Proof.
  induction 1 as [|x r Hx _ IH]; cbn [mapM].
  - reflexivity.
  - rewrite Hx. cbn [mapM] in IH. rewrite IH. reflexivity.
Qed.

(** X9.  Ordinary JSON passes through [parse_json_extended] unchanged:
    a request value in which no object has a key starting with a dollar
    sign (a filter on plain fields, a document to insert) is decoded to
    itself. *)
Theorem parse_json_extended_plain (D : Driver) (v : value) :
  plain v = true ->
  well_formed v = true ->
  parse_json_extended D v = Ok v.
Proof.
  intros Hplain Hwf. unfold parse_json_extended, json_dumps.
  rewrite Hplain. cbn [obind]. revert Hplain Hwf.
  induction v using value_induction; intros Hplain Hwf;
    cbn [json_util_loads]; try reflexivity.
  - cbn [plain well_formed] in Hplain, Hwf.
    rewrite forallb_forall in Hplain, Hwf.
    rewrite mapM_fixed; [reflexivity|].
    rewrite Forall_forall in H |- *. intros x Hx. apply H; auto.
  - cbn [plain well_formed] in Hplain, Hwf.
    rewrite mapM_fixed.
    + cbn [obind]. apply object_hook_untagged. now apply untagged_well_formed.
    + rewrite forallb_forall in Hplain, Hwf.
      rewrite Forall_forall in H |- *. intros [k x] Hx.
      specialize (Hplain _ Hx). specialize (Hwf _ Hx). cbn [fst snd] in *.
      apply andb_prop in Hwf as [_ Hwf].
      specialize (H _ Hx). cbn [snd] in H. rewrite (H Hplain Hwf). reflexivity.
Qed.

(** A filter on two plain fields. *)
Lemma parse_json_extended_plain_witness :
  parse_json_extended Examples.D0
    (VDict [("status", VStr "active"); ("tags", VList [VStr "a"; VInt 3; VNone])]) =
  Ok (VDict [("status", VStr "active"); ("tags", VList [VStr "a"; VInt 3; VNone])]).
Proof.
  apply parse_json_extended_plain; reflexivity.
Defined.

Lemma json_convert_idempotent (v : value) :
  _json_convert (_json_convert v) = _json_convert v.
Proof.
  assert (Hitems : forall items : dict,
            Forall (fun kv => _json_convert (_json_convert (snd kv)) =
                              _json_convert (snd kv)) items ->
            map (fun kv => (fst kv, _json_convert (snd kv)))
              (map (fun kv => (fst kv, _json_convert (snd kv))) items) =
            map (fun kv => (fst kv, _json_convert (snd kv))) items).
  { intros items H. rewrite map_map. apply map_ext_in. intros kv Hin.
    rewrite Forall_forall in H. cbn [fst snd]. now rewrite (H _ Hin). }
  induction v as [| b | n | bits | s | xs IHxs | items IHitems | b | d | subtype data
                   | pattern flags | time inc | d | | | code scope IHscope
                   | coll id db kwargs IHid IHkw]
    using value_induction; try reflexivity.
  - cbn [_json_convert default].
    destruct (isnan bits) eqn:Hnan; [reflexivity|].
    destruct (isinf bits) eqn:Hinf; [reflexivity|].
    cbn [_json_convert default]. now rewrite Hnan, Hinf.
  - cbn [_json_convert]. f_equal. rewrite map_map. apply map_ext_in.
    intros x Hx. rewrite Forall_forall in IHxs. now apply IHxs.
  - cbn [_json_convert]. f_equal. now apply Hitems.
  - cbn [_json_convert default]. now destruct (since_epoch d).
  - destruct scope as [items|]; [|reflexivity].
    cbn [_json_convert default map fst snd]. now rewrite (Hitems _ IHscope).
  - cbn [_json_convert default map fst snd]. rewrite IHid. do 3 f_equal.
    rewrite map_app, (Hitems _ IHkw). now destruct db.
Qed.


(** A document with an identifier and a date, as the driver returns it. *)
Example serialize_response_json_safe_example :
  serialize_response
    (VDict [("_id", VObjectId (Mem.oid_bytes 7));
            ("at", VDatetime {| year := 2024; month := 2; day := 29; hour := 12;
                                minute := 30; second := 15;
                                microsecond := 250000 |})]) =
  Ok (VDict [("_id", VDict [("$oid", VStr "000000000000000000000007")]);
             ("at", VDict [("$date", VStr "2024-02-29T12:30:15.250Z")])]).
Proof. reflexivity. Qed.


(** ** Counts of the other views *)

(** X11.  In a 200 answer of [/aggregate], [/sample] and [/insert] the
    count field is the length of the array beside it: [count] and
    [results], [count] and [documents], [inserted_count] and
    [inserted_ids]. *)
Theorem counts_match_arrays (D : Driver) (cfg : config) (req : request)
    (w w' : world D) (resp : response) :
  status resp = 200 ->
  (aggregate D cfg req w = (Ok resp, w') ->
   exists db coll results,
     body resp = VDict [("database", db); ("collection", coll);
                        ("count", VInt (Z.of_nat (List.length results)));
                        ("results", VList results)]) /\
  (sample D cfg req w = (Ok resp, w') ->
   exists db coll documents,
     body resp = VDict [("database", db); ("collection", coll);
                        ("count", VInt (Z.of_nat (List.length documents)));
                        ("documents", VList documents)]) /\
  (insert D cfg req w = (Ok resp, w') ->
   exists db coll ids,
     body resp = VDict [("database", db); ("collection", coll);
                        ("inserted_count", VInt (Z.of_nat (List.length ids)));
                        ("inserted_ids", VList ids)]).
Proof.
  intros H200. repeat split; intros Hq;
    apply except_PyMongoError_Exception_200 in Hq; try exact H200.
  - unfold aggregate_try in Hq. invert_run Hq. injection Hq as <- _.
    match goal with H : serialize_response _ = Ok _ |- _ =>
      apply serialize_response_list in H as [xs [-> Hlen]] end.
    do 2 eexists. exists xs. cbn [body jsonify]. unfold len. rewrite Hlen. reflexivity.
  - unfold sample_try in Hq. invert_run Hq. injection Hq as <- _.
    match goal with H : serialize_response _ = Ok _ |- _ =>
      apply serialize_response_list in H as [xs [-> Hlen]] end.
    do 2 eexists. exists xs. cbn [body jsonify]. unfold len. rewrite Hlen. reflexivity.
  - unfold insert_try in Hq. invert_run Hq. injection Hq as <- _.
    match goal with H : serialize_response _ = Ok _ |- _ =>
      apply serialize_response_list in H as [xs [-> Hlen]] end.
    do 2 eexists. exists xs. cbn [body jsonify]. unfold len. rewrite Hlen. reflexivity.
Qed.

(** Two documents inserted at once. *)
Lemma counts_match_arrays_witness :
  exists db coll ids,
    body (fst (dispatch_request Examples.D0 Examples.cfg0 insert_ep
                 (request_with (Some "s3cret")
                    (Ok (VDict [("database", VStr "d"); ("collection", VStr "c");
                                ("documents", VList [VDict [("a", VInt 1)];
                                                     VDict [("a", VInt 2)]])])))
                 Examples.w0)) =
    VDict [("database", db); ("collection", coll);
           ("inserted_count", VInt (Z.of_nat (List.length ids)));
           ("inserted_ids", VList ids)].
Proof.
  refine (proj2 (proj2 (counts_match_arrays Examples.D0 Examples.cfg0
            (request_with None
               (Ok (VDict [("database", VStr "d"); ("collection", VStr "c");
                           ("documents", VList [VDict [("a", VInt 1)];
                                                VDict [("a", VInt 2)]])])))
            Examples.w0 _ _ _)) _); reflexivity.
Defined.

(** ** More defaults *)

(** X12.  Three more fields have defaults: a missing [filter] is the
    empty filter [{}] in [/query], [/update] and [/delete]; a missing
    [pipeline] is the empty pipeline in [/aggregate], which does not
    require the field; a missing [database] is ["admin"] in [/command].
    In each case the request is handled exactly as the one that carries
    the default. *)
Theorem more_defaults (D : Driver) (cfg : config) (req req' : request)
    (items : dict) (k : string) (v : value) (w : world D) :
  get_json req = Ok (VDict items) ->
  get_json req' = Ok (VDict (items ++ [(k, v)])%list) ->
  items <> [] ->
  lookup k items = None ->
  (k = "filter" /\ v = VDict [] ->
   query D cfg req w = query D cfg req' w /\
   update D cfg req w = update D cfg req' w /\
   delete D cfg req w = delete D cfg req' w) /\
  (k = "pipeline" /\ v = VList [] ->
   aggregate D cfg req w = aggregate D cfg req' w) /\
  (k = "database" /\ v = VStr "admin" ->
   run_command D cfg req w = run_command D cfg req' w).
Proof.
  intros Hreq Hreq' Hne Hk. split; [|split].
  - intros [-> ->]. split; [|split].
    + unfold query, query_try. rewrite Hreq, Hreq'. supplied.
    + unfold update, update_try. rewrite Hreq, Hreq'. supplied.
    + unfold delete, delete_try. rewrite Hreq, Hreq'. supplied.
  - intros [-> ->]. unfold aggregate, aggregate_try. rewrite Hreq, Hreq'. supplied.
  - intros [-> ->]. unfold run_command, run_command_try.
    rewrite Hreq, Hreq'. supplied.
Qed.

(** A ping without [database], and the same on ["admin"]. *)
Lemma more_defaults_witness :
  run_command Examples.D0 Examples.cfg0
    (request_with None (Ok (VDict [("command", VDict [("ping", VInt 1)])])))
    Examples.w0 =
  run_command Examples.D0 Examples.cfg0
    (request_with None (Ok (VDict [("command", VDict [("ping", VInt 1)]);
                                   ("database", VStr "admin")])))
    Examples.w0.
Proof.
  refine (proj2 (proj2 (more_defaults Examples.D0 Examples.cfg0
            (request_with None (Ok (VDict [("command", VDict [("ping", VInt 1)])])))
            (request_with None (Ok (VDict [("command", VDict [("ping", VInt 1)]);
                                           ("database", VStr "admin")])))
            [("command", VDict [("ping", VInt 1)])]
            "database" (VStr "admin") Examples.w0 _ _ _ _)) _).
  - reflexivity.
  - reflexivity.
  - discriminate.
  - reflexivity.
  - split; reflexivity.
Defined.

(** ** A server that cannot be reached *)

(** X13.  When the client cannot be created because the driver raises a
    [PyMongoError], a request that passes validation is answered 500
    with the driver's message, nothing else is called, and [_client]
    stays unset, so that the next request tries again.  (A GET endpoint
    has nothing to validate; a body endpoint needs a non-empty object
    with its required fields.) *)
Theorem connection_failure (D : Driver) (cfg : config) (ep : endpoint)
    (req : request) (w : world D) (msg : string) (b : backend D) :
  ep <> index_ep ->
  (operation_name ep <> None ->
   exists items,
     get_json req = Ok (VDict items) /\
     forall k, In k (required_fields ep) -> truthy (dict_get items k VNone) = true) ->
  _client w = None ->
  MongoClient D (MONGO_URI cfg) (mongo w) = (Raise (PyMongoError msg), b) ->
  handler D cfg ep req w =
  (Ok (answer_500 msg),
   {| _client := None; mongo := b;
      calls := calls w ++ [EConnect (MONGO_URI cfg) (Raise (PyMongoError msg))] |}).
Proof.
  intros Hep Hbody Hclient Hconnect.
  assert (Hget : get_client D cfg w =
                 (Raise (PyMongoError msg),
                  {| _client := None; mongo := b;
                     calls := calls w ++ [EConnect (MONGO_URI cfg)
                                            (Raise (PyMongoError msg))] |})).
  { unfold get_client. rewrite Hclient, Hconnect. reflexivity. }
  destruct ep; try congruence; cbn [handler operation_name required_fields] in *;
    unfold_views; unfold try_except;
    try (unfold bind at 1; rewrite Hget; reflexivity);
    (destruct Hbody as [items [Hjson Hreq]]; [discriminate|]);
    rewrite Hjson, bind_lift_Ok;
    assert (Ht : truthy (VDict items) = true)
      by (destruct items; [specialize (Hreq _ (or_introl eq_refl)); discriminate
                          | reflexivity]);
    rewrite Ht; cbn [negb]; rewrite ?py_get_dict, ?bind_lift_Ok;
    rewrite ?Hreq by (cbn; tauto); cbn [negb orb];
    unfold bind at 1; rewrite Hget; reflexivity.
Qed.

(** Counting a collection of a server that refuses the connection. *)
Lemma connection_failure_witness :
  handler Examples.D0 Examples.cfg0 (count_documents_ep "d" "c")
    (request_with None (Ok VNone)) MoreExamples.unreachable_world =
  (Ok (answer_500 "localhost:27017: Connection refused"),
   {| _client := None; mongo := mongo MoreExamples.unreachable_world;
      calls := calls MoreExamples.unreachable_world
               ++ [EConnect (MONGO_URI Examples.cfg0)
                     (Raise (PyMongoError "localhost:27017: Connection refused"))] |}).
Proof.
  apply (connection_failure Examples.D0 Examples.cfg0 (count_documents_ep "d" "c")).
  - discriminate.
  - intros H. exfalso. apply H. reflexivity.
  - reflexivity.
  - reflexivity.
Defined.

(** ** What find receives *)

(** X14.  In a [/query] answered 200 the cursor that was run is built
    as follows: the filter is the decoded [filter] field ([{}] when
    missing); [projection] is passed as given, without decoding; [sort],
    [skip] and [limit] are set on the cursor only when truthy, so a
    [null], [0], empty or [false] value leaves the driver's setting (no
    sort, skip 0, no limit). *)
Theorem query_cursor (D : Driver) (cfg : config) (req : request) (data : value)
    (w w' : world D) (resp : response) :
  get_json req = Ok data ->
  query D cfg req w = (Ok resp, w') ->
  status resp = 200 ->
  exists coll filter filter_query projection sort skip limit t,
    py_get data "filter" (VDict []) = Ok filter /\
    parse_json_extended D filter = Ok filter_query /\
    py_get data "projection" VNone = Ok projection /\
    py_get data "sort" VNone = Ok sort /\
    py_get data "skip" (VInt 0) = Ok skip /\
    py_get data "limit" (VInt 100) = Ok limit /\
    calls w' =
    (t ++ [ECall (CFind {| cur_collection := coll;
                           cur_filter := filter_query;
                           cur_projection := projection;
                           cur_sort := if truthy sort then sort else VNone;
                           cur_skip := if truthy skip then skip else VInt 0;
                           cur_limit := if truthy limit then limit else VInt 0 |})
             None])%list.
Proof.
  intros Hjson Hq H200.
  apply except_PyMongoError_Exception_200 in Hq; [|exact H200].
  unfold query_try in Hq. invert_run Hq. read_body Hjson.
  match goal with H : fst _ = Ok _ |- _ => rewrite H in Hq end.
  injection Hq as _ <-. cbn [calls failure_of].
  match goal with |- context [build_cursor ?c ?f ?p ?s ?k ?l] =>
    exists c, (match py_get data "filter" (VDict []) with Ok x => x | _ => VNone end),
      f, p, s, k, l end.
  eexists.
  repeat match goal with H : py_get data _ _ = Ok _ |- _ => rewrite H; clear H end.
  repeat (split; [first [reflexivity | assumption]|]).
  unfold build_cursor, collection_find, cursor_sort, cursor_skip, cursor_limit.
  do 3 match goal with |- context [truthy ?x] => destruct (truthy x) end;
    reflexivity.
Qed.

(** A query with [skip] 0 and [limit] 2 on the example deployment. *)
Lemma query_cursor_witness :
  exists coll filter filter_query projection sort skip limit t,
    py_get (VDict [("database", VStr "d"); ("collection", VStr "c");
                   ("skip", VInt 0); ("limit", VInt 2)])
      "filter" (VDict []) = Ok filter /\
    parse_json_extended Examples.D0 filter = Ok filter_query /\
    py_get (VDict [("database", VStr "d"); ("collection", VStr "c");
                   ("skip", VInt 0); ("limit", VInt 2)])
      "projection" VNone = Ok projection /\
    py_get (VDict [("database", VStr "d"); ("collection", VStr "c");
                   ("skip", VInt 0); ("limit", VInt 2)])
      "sort" VNone = Ok sort /\
    py_get (VDict [("database", VStr "d"); ("collection", VStr "c");
                   ("skip", VInt 0); ("limit", VInt 2)])
      "skip" (VInt 0) = Ok skip /\
    py_get (VDict [("database", VStr "d"); ("collection", VStr "c");
                   ("skip", VInt 0); ("limit", VInt 2)])
      "limit" (VInt 100) = Ok limit /\
    calls (snd (query Examples.D0 Examples.cfg0
                  (request_with None
                     (Ok (VDict [("database", VStr "d"); ("collection", VStr "c");
                                 ("skip", VInt 0); ("limit", VInt 2)])))
                  Examples.w0)) =
    (t ++ [ECall (CFind {| cur_collection := coll;
                           cur_filter := filter_query;
                           cur_projection := projection;
                           cur_sort := if truthy sort then sort else VNone;
                           cur_skip := if truthy skip then skip else VInt 0;
                           cur_limit := if truthy limit then limit else VInt 0 |})
             None])%list.
Proof.
  refine (query_cursor Examples.D0 Examples.cfg0
            (request_with None
               (Ok (VDict [("database", VStr "d"); ("collection", VStr "c");
                           ("skip", VInt 0); ("limit", VInt 2)])))
            (VDict [("database", VStr "d"); ("collection", VStr "c");
                    ("skip", VInt 0); ("limit", VInt 2)])
            Examples.w0 _
            (jsonify (VDict [("database", VStr "d"); ("collection", VStr "c");
                             ("count", VInt 2);
                             ("documents",
                              VList (map _json_convert
                                       (firstn 2 Examples.five_documents)))]))
            _ _ _); reflexivity.
Defined.

(** ** A body that is not JSON *)

(** X15.  When [request.get_json()] itself raises (a body that is not
    valid JSON, a wrong content type), each of the seven views that read
    a body answers 400 with its operation name before the framework's
    message; the client is not created and the driver is not called. *)
Theorem malformed_body (D : Driver) (cfg : config) (ep : endpoint) (req : request)
    (op msg : string) (w : world D) :
  operation_name ep = Some op ->
  get_json req = Raise (OtherException msg) ->
  handler D cfg ep req w = (Ok (answer_400 (op ++ " error: " ++ msg)), w).
Proof.
  intros Hep Hjson.
  destruct ep; cbn [operation_name] in Hep; try discriminate;
    injection Hep as <-; cbn [handler]; unfold_views; unfold try_except;
    rewrite Hjson; reflexivity.
Qed.

(** A truncated body sent to [/insert]. *)
Lemma malformed_body_witness :
  handler Examples.D0 Examples.cfg0 insert_ep
    (request_with None
       (Raise (OtherException
                 "400 Bad Request: The browser (or proxy) sent a request that this server could not understand.")))
    Examples.w0 =
  (Ok (answer_400
         "Insert error: 400 Bad Request: The browser (or proxy) sent a request that this server could not understand."),
   Examples.w0).
Proof.
  apply (malformed_body Examples.D0 Examples.cfg0 insert_ep _ "Insert"
           "400 Bad Request: The browser (or proxy) sent a request that this server could not understand.");
    reflexivity.
Defined.
